(** * The NetSuite analytics filters of salto_oss: workbook validity check,
      fetch normalisation and deploy re-encoding of parsed XML definitions

    The development follows the three TypeScript sources bundled in
    [src/unnamed/part_000]:
    - the workbook change validator ([checkWorkbookValidity], [changeValidator]);
    - the [parseAnalytics] filter, shared by datasets and workbooks;
    - the older [parseWorkbook] filter, for workbooks only.

    JavaScript values are embedded as an inductive type whose plain objects are
    finite maps from property names to values. *)

From Stdlib Require Import String Ascii List Bool Arith Lia.
From stdpp Require Import gmap strings list fin_maps pretty.

Local Open Scope string_scope.

(** ** JavaScript values *)

Module JS.

(** Modelled from the spec: the identifier of an element, the [ElemID] class of
    the adapter API, which is not among the sources.  Its fields are the
    constructor's arguments [(adapter, typeName, idType, ...nameParts)]; they
    spell the structured path of a reference. *)
Record ElemID := mkElemID {
  adapter : string;
  typeName : string;
  idType : string;
  nameParts : list string
}.

#[local] Unset Elimination Schemes.

(** A [Value] as the transforms see it.  A number is carried by its
    [Number::toString] rendering, which is all the code ever observes of it.
    [VRef] is a [ReferenceExpression]: a class instance, hence neither a plain
    object nor an array. *)
Inductive Value :=
| VUndef
| VNull
| VBool (b : bool)
| VNum (repr : string)
| VStr (s : string)
| VArr (items : list Value)
| VObj (props : gmap string Value)
| VRef (elemID : ElemID).

#[local] Set Elimination Schemes.

(** A property key of the walker: a name in an object, an index in an array. *)
Inductive Key :=
| KStr (s : string)
| KIdx (i : nat).

Definition isPlainObject (v : Value) : bool :=
  match v with VObj _ => true | _ => false end.

Definition isArray (v : Value) : bool :=
  match v with VArr _ => true | _ => false end.

Definition isBoolean (v : Value) : bool :=
  match v with VBool _ => true | _ => false end.

Definition isString (v : Value) : bool :=
  match v with VStr _ => true | _ => false end.

Definition isUndefined (v : Value) : bool :=
  match v with VUndef => true | _ => false end.

(** [v === 'literal'] *)
Definition isStr (v : Value) (literal : string) : bool :=
  match v with VStr s => String.eqb s literal | _ => false end.

(** [v === true] *)
Definition isTrue (v : Value) : bool :=
  match v with VBool true => true | _ => false end.

Definition isReferenceExpression (v : Value) : bool :=
  match v with VRef _ => true | _ => false end.

(** [k in o] on a plain object, for a key that [Object.prototype] does not
    have (the marker names, the annotation names): an own property. *)
Definition has (k : string) (o : gmap string Value) : bool :=
  match o !! k with Some _ => true | None => false end.

(** The property names that every plain object inherits from
    [Object.prototype]. *)
Definition objectPrototypeKeys : gset string :=
  {[ "constructor"; "hasOwnProperty"; "isPrototypeOf"; "propertyIsEnumerable";
     "toLocaleString"; "toString"; "valueOf"; "__proto__";
     "__defineGetter__"; "__defineSetter__";
     "__lookupGetter__"; "__lookupSetter__" ]}.

(** [k in o] on a plain object, for any key: an own property, or one found
    on the prototype chain, which for a plain object is [Object.prototype]. *)
Definition in_ (k : string) (o : gmap string Value) : bool :=
  has k o || bool_decide (k ∈ objectPrototypeKeys).

(** [o[k]] on a plain object: a missing property reads as [undefined]. *)
Definition prop (o : gmap string Value) (k : string) : Value :=
  default VUndef (o !! k).

(** [Array.prototype.join] on already rendered items. *)
Fixpoint join (sep : string) (l : list string) : string :=
  match l with
  | [] => ""
  | [x] => x
  | x :: rest => x ++ sep ++ join sep rest
  end.

(** [String(v)].  An array renders as its items joined by commas, [null] and
    [undefined] items as the empty string; a plain object or a class instance
    without [toString] renders as ["[object Object]"]. *)
Fixpoint String_ (v : Value) : string :=
  match v with
  | VUndef => "undefined"
  | VNull => "null"
  | VBool true => "true"
  | VBool false => "false"
  | VNum repr => repr
  | VStr s => s
  | VArr items =>
      join "," (map (fun x => match x with
                              | VUndef | VNull => ""
                              | _ => String_ x
                              end) items)
  | VObj _ => "[object Object]"
  | VRef _ => "[object Object]"
  end.

(** Characters of a string, each as a one-character string. *)
Fixpoint chars (s : string) : list string :=
  match s with
  | EmptyString => []
  | String c rest => String c EmptyString :: chars rest
  end.

(** The canonical array index denoted by a property name, below [n]. *)
Definition arrayIndex (n : nat) (k : string) : option nat :=
  List.find (fun i => String.eqb (pretty i) k) (seq 0 n).

(** [v[k]] for a string key.  Properties inherited from a prototype (methods
    and the like) are functions, which this value type leaves out; they read
    as [undefined], which is what every later [?.scriptid] makes of them.
    Reading from [null] or [undefined] happens only behind [?.]. *)
Definition get (v : Value) (k : string) : Value :=
  match v with
  | VObj o => prop o k
  | VArr items =>
      match arrayIndex (length items) k with
      | Some i => nth i items VUndef
      | None => if String.eqb k "length" then VNum (pretty (length items)) else VUndef
      end
  | VStr s =>
      match arrayIndex (String.length s) k with
      | Some i => nth i (map VStr (chars s)) VUndef
      | None => if String.eqb k "length" then VNum (pretty (String.length s)) else VUndef
      end
  | _ => VUndef
  end.

(** [value[key]] as the deploy walker uses it: [key] names a property when
    [value] is an object and an index when it is an array. *)
Definition at_ (value : Value) (key : Key) : Value :=
  match key with
  | KStr k => get value k
  | KIdx i =>
      match value with
      | VArr items => nth i items VUndef
      | _ => get value (pretty i)
      end
  end.

(** [_.omit(o, k)]. *)
Definition omit (o : gmap string Value) (k : string) : gmap string Value :=
  delete k o.

(** Indexed entries [0 ↦ x0, 1 ↦ x1, ...] of a list. *)
Definition indexed (l : list Value) : gmap string Value :=
  list_to_map (imap (fun i x => (pretty i, x)) l).

(** Own enumerable properties copied by an object spread [{...v}].  The own
    properties of a [ReferenceExpression] are internals of the adapter API that
    this value type does not represent; spreading one contributes nothing here. *)
Definition ownProps (v : Value) : gmap string Value :=
  match v with
  | VObj o => o
  | VArr items => indexed items
  | VStr s => indexed (map VStr (chars s))
  | _ => ∅
  end.

(** [{ [k]: x, ...v }]: the spread properties are written after [k], so a
    property [k] of [v] wins. *)
Definition withSpread (k : string) (x : Value) (v : Value) : gmap string Value :=
  ownProps v ∪ {[ k := x ]}.

(** [str.split('.')]. *)
Fixpoint splitOn (sep : ascii) (s : string) : list string :=
  match s with
  | EmptyString => [EmptyString]
  | String c rest =>
      if Ascii.eqb c sep then EmptyString :: splitOn sep rest
      else match splitOn sep rest with
           | [] => [String c EmptyString]
           | w :: ws => String c w :: ws
           end
  end.

Definition split_dot (s : string) : list string := splitOn "."%char s.

(** [str.startsWith(p)]. *)
Definition startsWith (s p : string) : bool := String.prefix p s.

End JS.

(** ** Regular expressions

    A matcher by derivatives, enough for the one pattern of the filters and for
    the grammar of numeric strings read by [Number]. *)

Module Regex.

Inductive re :=
| Void
| Eps
| Cls (p : ascii -> bool)
| Cat (r s : re)
| Alt (r s : re)
| Star (r : re).

Fixpoint nullable (r : re) : bool :=
  match r with
  | Void => false
  | Eps => true
  | Cls _ => false
  | Cat r s => nullable r && nullable s
  | Alt r s => nullable r || nullable s
  | Star _ => true
  end.

Definition cat (r s : re) : re :=
  match r, s with
  | Void, _ => Void
  | _, Void => Void
  | Eps, _ => s
  | _, _ => Cat r s
  end.

Definition alt (r s : re) : re :=
  match r, s with
  | Void, _ => s
  | _, Void => r
  | _, _ => Alt r s
  end.

Fixpoint deriv (c : ascii) (r : re) : re :=
  match r with
  | Void => Void
  | Eps => Void
  | Cls p => if p c then Eps else Void
  | Cat r s =>
      if nullable r then alt (cat (deriv c r) s) (deriv c s)
      else cat (deriv c r) s
  | Alt r s => alt (deriv c r) (deriv c s)
  | Star r => cat (deriv c r) (Star r)
  end.

(** A whole-string match, as [/^...$/.test(s)] without flags. *)
Fixpoint matches (r : re) (s : string) : bool :=
  match s with
  | EmptyString => nullable r
  | String c rest => matches (deriv c r) rest
  end.

Definition chr (c : ascii) : re := Cls (Ascii.eqb c).

Fixpoint lit (s : string) : re :=
  match s with
  | EmptyString => Eps
  | String c rest => Cat (chr c) (lit rest)
  end.

Definition plus (r : re) : re := Cat r (Star r).
Definition opt (r : re) : re := Alt Eps r.

Definition oneOf (s : string) : re :=
  Cls (fun c => existsb (Ascii.eqb c) (list_ascii_of_string s)).

Definition between (lo hi : ascii) (c : ascii) : bool :=
  (nat_of_ascii lo <=? nat_of_ascii c)%nat && (nat_of_ascii c <=? nat_of_ascii hi)%nat.

Definition isDigit (c : ascii) : bool := between "0" "9" c.

(** [\w]: letters, digits and the underscore. *)
Definition isWord (c : ascii) : bool :=
  between "a" "z" c || between "A" "Z" c || isDigit c || Ascii.eqb c "_".

(** [.] without the [s] flag: anything but a line terminator. *)
Definition isDot (c : ascii) : bool :=
  negb (Ascii.eqb c "010" || Ascii.eqb c "013").

Definition word : re := Cls isWord.
Definition dot : re := Cls isDot.
Definition digit : re := Cls isDigit.

Fixpoint seqs (l : list re) : re :=
  match l with
  | [] => Eps
  | r :: rest => Cat r (seqs rest)
  end.

(** In a pattern written as text, [.] is the wildcard and every other
    character stands for itself. *)
Fixpoint dotted (s : string) : re :=
  match s with
  | EmptyString => Eps
  | String c rest => Cat (if Ascii.eqb c "." then dot else chr c) (dotted rest)
  end.

End Regex.

(** ** [Number(str)] is not [NaN]

    [Number] applied to a string yields a number exactly when the string, with
    surrounding white space removed, is empty or a [StrNumericLiteral] of
    ECMAScript: a signed decimal literal (digits, fraction, exponent,
    [Infinity]) or an unsigned binary, octal or hexadecimal integer literal.
    Strings are sequences of one-byte code units here, so the white space is
    that of the Latin-1 range. *)

Module NumericString.
Import Regex.

Definition isStrWhiteSpaceChar (c : ascii) : bool :=
  existsb (Nat.eqb (nat_of_ascii c)) [9; 10; 11; 12; 13; 32; 160].

Definition isHexDigit (c : ascii) : bool :=
  isDigit c || between "a" "f" c || between "A" "F" c.

Definition DecimalDigits : re := plus digit.

Definition ExponentPart : re :=
  Cat (oneOf "eE") (Cat (opt (oneOf "+-")) DecimalDigits).

Definition StrUnsignedDecimalLiteral : re :=
  Alt (lit "Infinity")
  (Alt (Cat DecimalDigits (Cat (chr ".") (Cat (Star digit) (opt ExponentPart))))
  (Alt (Cat (chr ".") (Cat DecimalDigits (opt ExponentPart)))
       (Cat DecimalDigits (opt ExponentPart)))).

Definition StrDecimalLiteral : re :=
  Cat (opt (oneOf "+-")) StrUnsignedDecimalLiteral.

Definition NonDecimalIntegerLiteral : re :=
  Alt (Cat (chr "0") (Cat (oneOf "bB") (plus (oneOf "01"))))
  (Alt (Cat (chr "0") (Cat (oneOf "oO") (plus (Cls (between "0" "7")))))
       (Cat (chr "0") (Cat (oneOf "xX") (plus (Cls isHexDigit))))).

Definition StrNumericLiteral : re :=
  Alt StrDecimalLiteral NonDecimalIntegerLiteral.

Definition StringNumericLiteral : re :=
  Cat (Star (Cls isStrWhiteSpaceChar))
      (opt (Cat StrNumericLiteral (Star (Cls isStrWhiteSpaceChar)))).

(** [!Number.isNaN(Number(str))] *)
Definition Number_notNaN (str : string) : bool :=
  matches StringNumericLiteral str.

End NumericString.

(** ** The adapter API the filters are written against *)

Module Adapter.
Import JS.

(** Modelled from the spec: the constants module is not among the sources.
    ['netsuite'] is the adapter name the translation pattern of the filters
    starts with; ['workbook'] and ['dataset'] are the two document kinds. *)
Definition NETSUITE : string := "netsuite".
Definition WORKBOOK : string := "workbook".
Definition DATASET : string := "dataset".

(** Modelled from the spec: the [ElemID] class is part of the adapter API,
    outside the sources at hand.  Its full name is the dot-joined path that the
    spec calls the resolved reference path format: adapter, type name, id type
    and name parts, empty segments dropped; the id of a type itself has the
    first two only. *)
Definition getFullNameParts (id : ElemID) : list string :=
  List.filter (fun part => negb (String.eqb part ""))
    (if String.eqb (idType id) "type"
     then [adapter id; typeName id]
     else adapter id :: typeName id :: idType id :: nameParts id).

(** Modelled from the spec: [id.getFullName()], the segments joined by dots. *)
Definition getFullName (id : ElemID) : string :=
  join "." (getFullNameParts id).

(** Modelled from the spec: two ids are equal when their full names are. *)
Definition isEqual (a b : ElemID) : bool :=
  String.eqb (getFullName a) (getFullName b).

(** Modelled from the spec: [new ElemID(adapter, typeName)], the id of a type. *)
Definition typeElemID (adapter typeName : string) : ElemID :=
  mkElemID adapter typeName "type" [].

(** Modelled from the spec: [id.createNestedID(...parts)] on the id of an
    instance, the path of a field inside it. *)
Definition createNestedID (id : ElemID) (parts : list string) : ElemID :=
  mkElemID (adapter id) (typeName id) (idType id) (nameParts id ++ parts).

(** Modelled from the spec: [BuiltinTypes.STRING.elemID], the id of the plain
    string primitive. *)
Definition STRING_elemID : ElemID := typeElemID "" "string".

#[local] Unset Elimination Schemes.

(** Modelled from the spec: schema nodes, the type classes of the adapter API.
    A node is a primitive, a list of a node, or an object with named fields;
    object nodes and fields carry annotations.  A field holds its resolved
    type, the result of [field.getType()]; mutually recursive declarations
    appear unfolded as far as a run reads them. *)
Inductive TypeElement :=
| PrimitiveType (elemID : ElemID)
| ContainerType (innerType : TypeElement)
| ObjectType (elemID : ElemID) (annotations : gmap string Value)
             (fields : gmap string Field)
with Field :=
| mkField (annotations : gmap string Value) (refType : TypeElement).

#[local] Set Elimination Schemes.

Definition isObjectType (t : option TypeElement) : bool :=
  match t with Some (ObjectType _ _ _) => true | _ => false end.

Definition isContainerType (t : TypeElement) : bool :=
  match t with ContainerType _ => true | _ => false end.

Definition isPrimitiveType (t : TypeElement) : bool :=
  match t with PrimitiveType _ => true | _ => false end.

(** [t.annotations]; primitive and container types carry none that the
    filters read. *)
Definition typeAnnotations (t : TypeElement) : gmap string Value :=
  match t with ObjectType _ a _ => a | _ => ∅ end.

Definition typeFields (t : TypeElement) : gmap string Field :=
  match t with ObjectType _ _ fs => fs | _ => ∅ end.

Definition fieldAnnotations (f : Field) : gmap string Value :=
  match f with mkField a _ => a end.

Definition getType (f : Field) : TypeElement :=
  match f with mkField _ t => t end.

(** [fieldType?.elemID.isEqual(BuiltinTypes.STRING.elemID)] *)
Definition isStringType (t : option TypeElement) : bool :=
  match t with
  | Some (PrimitiveType id) | Some (ObjectType id _ _) => isEqual id STRING_elemID
  | _ => false
  end.

(** Modelled from the spec: elements of the workspace.  An instance carries
    the value tree of a document; other elements (types) carry none. *)
Record InstanceElement := mkInstance {
  elemID : ElemID;
  value : gmap string Value
}.

Inductive Element :=
| Instance (inst : InstanceElement)
| TypeDef (t : ElemID).

Definition Element_elemID (e : Element) : ElemID :=
  match e with Instance i => elemID i | TypeDef id => id end.

(** [e.value], [undefined] on an element that is not an instance. *)
Definition Element_value (e : Element) : Value :=
  match e with Instance i => VObj (value i) | TypeDef _ => VUndef end.

Definition isInstanceElement (e : Element) : bool :=
  match e with Instance _ => true | TypeDef _ => false end.

(** Modelled from the spec: the arguments [transformValues] hands to a
    transform function, [{ value, field, path }]. *)
Record TransformFuncArgs := mkArgs {
  arg_value : Value;
  arg_field : option Field;
  arg_path : option ElemID
}.

(** [path?.getFullName().split('.').length === 4] *)
Definition pathHasFourParts (path : option ElemID) : bool :=
  match path with
  | Some p => Nat.eqb (length (split_dot (getFullName p))) 4
  | None => false
  end.

End Adapter.

(** ** Loops over keys

    [Object.keys(o).forEach] and [array.forEach] with a body that may throw:
    [None] is the thrown [TypeError]. *)

Module Loops.
Import JS.

(** [Object.keys(o)], in the order of the map rather than of insertion: the
    filters either treat every key on its own or read the only key there is. *)
Definition Object_keys {A} (o : gmap string A) : list string :=
  (map_to_list o).*1.

Definition Object_values {A} (o : gmap string A) : list A :=
  (map_to_list o).*2.

Fixpoint forEach {S A} (l : list A) (body : S -> A -> option S) (s : S) : option S :=
  match l with
  | [] => Some s
  | x :: rest =>
      match body s x with
      | Some s' => forEach rest body s'
      | None => None
      end
  end.

End Loops.

(** ** The workbook change validator *)

Module WorkbookValidator.
Import JS Adapter.

(** Modelled from the spec: a change of the deployment plan.  The host's
    change records are part of the adapter API, not among the sources;
    [getChangeData] is the element a change leaves behind, or the one it
    removes, and a change is an instance change when that element is an
    instance. *)
Inductive Change :=
| Addition (after : Element)
| Removal (before : Element)
| Modification (before after : Element).

(** Modelled from the spec: [getChangeData(change)]. *)
Definition getChangeData (change : Change) : Element :=
  match change with
  | Removal before => before
  | Addition after => after
  | Modification _ after => after
  end.

(** Modelled from the spec: [isInstanceChange(change)]. *)
Definition isInstanceChange (change : Change) : bool :=
  isInstanceElement (getChangeData change).

(** Modelled from the spec: the error record of a change validator, with the
    severities of the adapter API. *)
Inductive SeverityLevel := Error | Warning | Info.

Record ChangeError := mkChangeError {
  ce_elemID : ElemID;
  severity : SeverityLevel;
  message : string;
  detailedMessage : string
}.

Definition unsupportedAttributes : list string :=
  ["charts"; "pivots"; "datasetLinks"].

Definition checkWorkbookValidity (workbookInstance : InstanceElement) : bool :=
  match List.filter (fun attr => has attr (value workbookInstance)) unsupportedAttributes with
  | [] => true
  | _ :: _ => false
  end.

(** [changes.filter(isInstanceChange).map(getChangeData)], typed as instances. *)
Definition instanceChangeData (changes : list Change) : list InstanceElement :=
  omap (fun change =>
          match getChangeData change with
          | Instance inst => Some inst
          | TypeDef _ => None
          end)
       (List.filter isInstanceChange changes).

Definition changeValidator (changes : list Change) : list ChangeError :=
  List.map
    (fun inst =>
       {| ce_elemID := elemID inst;
          severity := Warning;
          message := "The deployment of this workbook will probably not have an effect on the target environment as this workbook contains pivots, charts, or data links.";
          detailedMessage := "Deployment of workbooks that contain pivots, charts, or data links is not supported" |})
    (List.filter (fun inst => negb (checkWorkbookValidity inst))
       (List.filter (fun inst => String.eqb (typeName (elemID inst)) WORKBOOK)
          (instanceChangeData changes))).

End WorkbookValidator.

(** ** The [parseAnalytics] filter *)

Module ParseAnalytics.
Import JS Adapter Loops.

Definition XML_TYPE : string := "XML_TYPE".
Definition DO_NOT_ADD : string := "DO_NOT_ADD".
Definition DEFAULT_VALUE : string := "DEFAULT_VALUE".
Definition IGNORE_T_VALUE : string := "IGNORE_T_VALUE".

Definition T : string := "_T_".
Definition TYPE : string := "@_type".
Definition ITEM : string := "_ITEM_".
Definition TEXT : string := "#text".

Definition TValuesToIgnore : gset string :=
  {[ "workbook"; "dataSet"; "formula" ]}.

Definition keysToAddT : gset string :=
  {[ "formula" ]}.

(** [set.has(v)]: only a string can be a member of a set of strings. *)
Definition Set_has (s : gset string) (v : Value) : bool :=
  match v with
  | VStr x => bool_decide (x ∈ s)
  | _ => false
  end.

Definition isNumberStr (str : string) : bool :=
  NumericString.Number_notNaN str.

Definition unexpectedPath : string :=
  "unexpected path in analytics type. Path: %o".

Definition unexpectedT : string :=
  "unexpected _T_ field in analytic instance. Path: %o".

(** The block [if (TYPE in value) { ... }] of [fetchTransformFunc]: [Some] is
    a value returned from inside it, [None] is control leaving the block. *)
Definition sentinelBlock (value : gmap string Value) : option Value :=
  if has TYPE value then
    if isStr (prop value TYPE) "null" then Some (VObj ∅)
    else if isStr (prop value TYPE) "array" then
      if negb (isUndefined (prop value ITEM)) then
        Some (if isArray (prop value ITEM) then prop value ITEM
              else VArr [prop value ITEM])
      else Some (VArr [])
    else if isStr (prop value TYPE) "boolean" then Some (prop value TEXT)
    else if isStr (prop value TYPE) "string" then
      Some (VStr (String_ (prop value TEXT)))
    else None
  else None.

(** The translation lookup of [fetchTransformFunc]: [Some] is the reference
    returned, [None] is control going on to the last two statements. *)
Definition translationBlock (value : Value)
    (elementsSource : ElemID -> option Element) (elements : list Element)
    : option Value :=
  match value with
  | VStr s =>
      if startsWith s "custcollectiontranslations" then
        match split_dot s with
        | [part0; part1] =>
            let instanceElemId :=
              mkElemID NETSUITE "translationcollection" "instance" [part0] in
            let fullName := getFullName instanceElemId in
            let instance :=
              match elementsSource instanceElemId with
              | Some e => Some e
              | None =>
                  List.find (fun e => String.eqb (getFullName (Element_elemID e)) fullName)
                            elements
              end in
            match instance with
            | Some e =>
                if negb (isUndefined
                     (get (get (get (get (Element_value e) "strings") "string") part1)
                          "scriptid"))
                then Some (VRef (createNestedID instanceElemId
                                   ["strings"; "string"; part1; "scriptid"]))
                else None
            | None => None
            end
        | _ => None
        end
      else None
  | _ => None
  end.

(** [fetchTransformFunc]; the first component is what went to [log.debug]. *)
Definition fetchTransformFunc (args : TransformFuncArgs)
    (elementsSource : ElemID -> option Element) (elements : list Element)
    (type : TypeElement) : list string * Value :=
  let value := arg_value args in
  let fieldType :=
    if pathHasFourParts (arg_path args) then Some type
    else getType <$> arg_field args in
  let logged :=
    match fieldType with None => [unexpectedPath] | Some _ => [] end in
  match value with
  | VObj o =>
      match sentinelBlock o with
      | Some r => (logged, r)
      | None =>
          if has T o then
            if negb (isObjectType fieldType)
               || negb (has XML_TYPE (from_option typeAnnotations ∅ fieldType))
            then ((logged ++ [unexpectedT])%list,
                  VObj (withSpread "xmlType" (prop o T) (VObj (omit o T))))
            else (logged,
                  if Set_has TValuesToIgnore (prop o T) then VObj (omit o T)
                  else VObj {[ String_ (prop o T) := VObj (omit o T) ]})
          else (logged, value)
      end
  | _ =>
      match translationBlock value elementsSource elements with
      | Some r => (logged, r)
      | None =>
          if isStringType fieldType then (logged, VStr (String_ value))
          else (logged, value)
      end
  end.

Definition arrayObject : Value := VObj {[ TYPE := VStr "array" ]}.
Definition nullObject : Value := VObj {[ TYPE := VStr "null" ]}.

(** [_.isEqual(val, { [TYPE]: kind })] *)
Definition isEqualSentinel (kind : string) (val : Value) : bool :=
  match val with
  | VObj o =>
      Nat.eqb (size o) 1 &&
      match o !! TYPE with
      | Some (VStr s) => String.eqb s kind
      | _ => false
      end
  | _ => false
  end.

(** The body of [createEmptyObjectOfType] once [fieldType.fields[key]] has
    been read. *)
Fixpoint emptyObjectOfField (field : Field) : Value :=
  match field with
  | mkField fieldAnn keyType =>
      match fieldAnn !! DEFAULT_VALUE with
      | Some d => d
      | None =>
          match keyType with
          | ContainerType _ => arrayObject
          | PrimitiveType _ => nullObject
          | ObjectType _ typeAnn innerFields =>
              if has XML_TYPE typeAnn && negb (has IGNORE_T_VALUE typeAnn)
              then nullObject
              else
                let newObject :=
                  omap (fun inner =>
                          if has DO_NOT_ADD (fieldAnnotations inner) then None
                          else Some (emptyObjectOfField inner)) innerFields in
                if forallb (fun val => isEqualSentinel "null" val
                                       || isEqualSentinel "array" val)
                           (Object_values newObject)
                then nullObject
                else VObj newObject
          end
      end
  end.

(** [createEmptyObjectOfType(fieldType, key)]; [None] is the [TypeError] of
    reading [annotations] from a field that [fieldType] does not have. *)
Definition createEmptyObjectOfType (fieldType : TypeElement) (key : string)
    : option Value :=
  emptyObjectOfField <$> typeFields fieldType !! key.

(** [/^netsuite.translationcollection.instance.\w+.strings.string.\w+.scriptid$/] *)
Definition translationPattern : Regex.re :=
  Regex.seqs [ Regex.dotted "netsuite.translationcollection.instance.";
               Regex.plus Regex.word;
               Regex.dotted ".strings.string.";
               Regex.plus Regex.word;
               Regex.dotted ".scriptid" ].

Definition checkReferenceToTranslation (name : string) : bool :=
  Regex.matches translationPattern name.

(** [deployTransformFunc]: the value after the assignments made to it; [None]
    is a thrown [TypeError]. *)
Definition deployTransformFunc (args : TransformFuncArgs)
    (analyticsType : TypeElement) : option Value :=
  let value := arg_value args in
  let fieldType :=
    if pathHasFourParts (arg_path args) then Some analyticsType
    else getType <$> arg_field args in
  match fieldType, value with
  | Some (ObjectType _ typeAnn typeFlds as objType), VObj o =>
      if negb (has TYPE o) then
        if has XML_TYPE typeAnn && Nat.eqb (length (Object_keys o)) 1 then
          Some (VObj (<[ T := VStr (List.hd "undefined" (Object_keys o)) ]> o))
        else
          VObj <$>
            forEach (Object_keys typeFlds)
              (fun (acc : gmap string Value) key =>
                 field ← typeFlds !! key;
                 if negb (in_ key acc)
                    && negb (isTrue (prop (fieldAnnotations field) DO_NOT_ADD))
                 then
                   if has DEFAULT_VALUE (fieldAnnotations field)
                   then Some (<[ key := prop (fieldAnnotations field) DEFAULT_VALUE ]> acc)
                   else
                     placeholder ← createEmptyObjectOfType objType key;
                     Some (<[ key := placeholder ]> acc)
                 else Some acc)
              o
      else Some value
  | _, _ => Some value
  end.

(** [checkReference]; [None] is the [TypeError] of calling [concat] on a
    missing fourth segment. *)
Definition checkReference (key : string) (value : Value) : option Value :=
  match get value key with
  | VRef elemID =>
      if String.eqb key "translationScriptId" then
        let name := getFullName elemID in
        if checkReferenceToTranslation name then
          let nameList := split_dot name in
          part3 ← nameList !! 3;
          Some (VStr (part3 ++ "." ++ default "undefined" (nameList !! 6)))
        else Some (VStr name)
      else Some (get value key)
  | _ => Some (get value key)
  end.

Definition checkTypeField (key : Key) (value : Value) : Value :=
  match at_ value key with
  | VArr items =>
      VObj {[ TYPE := VStr "array"; ITEM := VArr items ]}
  | VBool b =>
      VObj {[ TYPE := VStr "boolean"; TEXT := VStr (String_ (VBool b)) ]}
  | VStr s =>
      if isNumberStr s
      then VObj {[ TYPE := VStr "string"; TEXT := VStr (String_ (VStr s)) ]}
      else VStr s
  | other => other
  end.

(** [checkT]: the new content of [value[key]].  The in-place renaming of
    [xmlType] shows in the returned object, which is the one renamed. *)
Definition checkT (key : Key) (value : Value) : Value :=
  let unmarked :=
    match at_ value key with
    | VObj innerVal =>
        let innerkeys := Object_keys innerVal in
        if bool_decide ("xmlType" ∈ innerkeys) then
          VObj (delete "xmlType" (<[ T := prop innerVal "xmlType" ]> innerVal))
        else if Nat.eqb (length innerkeys) 2 && bool_decide (T ∈ innerkeys) then
          let otherKey :=
            List.hd "undefined"
              (List.filter (fun innerKey => negb (String.eqb innerKey T)) innerkeys) in
          VObj (withSpread T (prop innerVal T) (prop innerVal otherKey))
        else VObj innerVal
    | other => other
    end in
  match key with
  | KStr k =>
      if bool_decide (k ∈ keysToAddT)
      then VObj (withSpread T (VStr k) (at_ value key))
      else unmarked
  | KIdx _ => unmarked
  end.

(** [deployWalkFunc]: the value after the walker's assignments; [None] is a
    thrown [TypeError].  Every iteration reads and writes one key only, so the
    order in which the keys are listed does not show in the result. *)
Definition deployWalkFunc (value : Value) : option Value :=
  match value with
  | VObj o =>
      let keys := Object_keys o in
      o1 ← forEach keys
              (fun (acc : gmap string Value) key =>
                 let acc1 := <[ key := checkT (KStr key) (VObj acc) ]> acc in
                 r ← checkReference key (VObj acc1);
                 Some (<[ key := r ]> acc1))
              o;
      if negb (has TYPE o1) then
        VObj <$>
          forEach keys
            (fun (acc : gmap string Value) key =>
               Some (<[ key := checkTypeField (KStr key) (VObj acc) ]> acc))
            o1
      else Some (VObj o1)
  | VArr items =>
      VArr <$>
        forEach (seq 0 (length items))
          (fun (acc : list Value) index =>
             let acc1 := <[ index := checkT (KIdx index) (VArr acc) ]> acc in
             Some (<[ index := checkTypeField (KIdx index) (VArr acc1) ]> acc1))
          items
  | _ => Some value
  end.

End ParseAnalytics.

(** ** The [parseWorkbook] filter *)

Module ParseWorkbook.
Import JS Adapter Loops.

Definition XML_TYPE : string := "XML_TYPE".

Definition T : string := "_T_".
Definition TYPE : string := "@_type".
Definition ITEM : string := "_ITEM_".
Definition TEXT : string := "#text".

Definition TValuesToIgnore : gset string := {[ "workbook" ]}.

Definition unexpectedPath : string :=
  "unexpected path in the workbook type. Path: %o".

Definition unexpectedT : string :=
  "unexpected _T_ field in a workbook. Path: %o".

(** [fetchTransformFunc] of the workbook filter.  [workbookType] stands for
    [ParsedWorkbookType().type], whose declaration is not among the sources.
    The block on ['@_type'] has the same text as in the analytics filter and
    is shared with it. *)
Definition fetchTransformFunc (workbookType : TypeElement)
    (args : TransformFuncArgs) : list string * Value :=
  let value := arg_value args in
  let fieldType :=
    if pathHasFourParts (arg_path args) then Some workbookType
    else getType <$> arg_field args in
  let logged :=
    match fieldType with None => [unexpectedPath] | Some _ => [] end in
  match value with
  | VObj o =>
      match ParseAnalytics.sentinelBlock o with
      | Some r => (logged, r)
      | None =>
          if has T o then
            if negb (isObjectType fieldType)
               || negb (has XML_TYPE (from_option typeAnnotations ∅ fieldType))
            then ((logged ++ [unexpectedT])%list,
                  VObj (withSpread "xmlType" (prop o T) (VObj (omit o T))))
            else (logged,
                  if ParseAnalytics.Set_has TValuesToIgnore (prop o T)
                  then VObj (omit o T)
                  else VObj {[ String_ (prop o T) := VObj (omit o T) ]})
          else (logged, value)
      end
  | VStr s =>
      match (if startsWith s "custcollectiontranslations"
             then match split_dot s with
                  | [part0; part1] =>
                      let finalElemIdPath :=
                        "translationcollection.instance." ++ part0
                        ++ ".strings.string." ++ part1 ++ ".scriptid" in
                      Some (VRef (typeElemID NETSUITE finalElemIdPath))
                  | _ => None
                  end
             else None) with
      | Some r => (logged, r)
      | None =>
          if isStringType fieldType then (logged, VStr (String_ value))
          else (logged, value)
      end
  | _ =>
      if isStringType fieldType then (logged, VStr (String_ value))
      else (logged, value)
  end.

End ParseWorkbook.

(** ** Summary arrays of the [parseAnalytics] filter *)

Module AnalyticsArrays.
Import JS Adapter Loops.

(** [createOriginalArray(itemName, value)]; [None] is the [TypeError] of
    calling [filter] on a value that has none (anything but an array, [null]
    or [undefined] under [itemName + 's']). *)
Definition createOriginalArray (itemName : string) (value : gmap string Value)
    : option Value :=
  let arrName := itemName ++ "s" in
  match prop value arrName with
  | VUndef | VNull => Some (VArr [])
  | VArr items =>
      Some (VArr
        (List.fold_left
           (fun (valToReturn : list Value) (val : Value) =>
              let scriptId := get (get val itemName) "scriptId" in
              if negb (isUndefined scriptId)
              then (valToReturn ++ [VObj {[ "scriptid" := scriptId ]}])%list
              else valToReturn)
           (List.filter isPlainObject items) []))
  | _ => None
  end.

Definition createOriginalArrays (value : gmap string Value) : option Value :=
  pivot ← createOriginalArray "pivot" value;
  chart ← createOriginalArray "chart" value;
  table ← createOriginalArray "dataView" value;
  Some (VObj {[ "pivots" := VObj {[ "pivot" := pivot ]};
                "charts" := VObj {[ "chart" := chart ]};
                "tables" := VObj {[ "table" := table ]} ]}).

End AnalyticsArrays.

(** ** The [parseWorkbook] filter: deploy *)

Module ParseWorkbookDeploy.
Import JS Adapter Loops.
Import ParseWorkbook.

(** TODO of the source: "there is a problem with this becouse if there are
    more options we don't know this will work not good". *)
Definition fieldsWithT : gset string :=
  {[ "pivot"; "chart"; "dataView"; "dsLink"; "cellConditionalFormat";
     "conditionalFormatRule"; "rgbColor"; "conditionalFormatFilter"; "filter";
     "condition"; "fieldReference"; "dataSetFormula" ]}.

Definition notAddingFields : gset string :=
  fieldsWithT ∪ {[ "fieldValidityState"; "format"; "definition"; "mapping" ]}.

Definition arrayObject : Value := VObj {[ TYPE := VStr "array" ]}.
Definition nullObject : Value := VObj {[ TYPE := VStr "null" ]}.

(** [createEmptyObjectOfType(typeElem)] of the workbook filter. *)
Fixpoint createEmptyObjectOfType (typeElem : TypeElement) : Value :=
  match typeElem with
  | ContainerType _ => arrayObject
  | PrimitiveType _ => nullObject
  | ObjectType _ _ fields =>
      let newObject :=
        map_imap (fun key field =>
                    if bool_decide (key ∈ notAddingFields) then None
                    else Some (createEmptyObjectOfType (getType field)))
                 fields in
      if forallb (fun key =>
                    ParseAnalytics.isEqualSentinel "null" (prop newObject key)
                    || ParseAnalytics.isEqualSentinel "array" (prop newObject key))
                 (Object_keys newObject)
      then nullObject
      else VObj newObject
  end.

(** [checkReference] and [checkTypeField], closures of the workbook's
    [deployWalkFunc], have the text of the analytics filter's functions. *)
Definition checkReference (key : string) (value : Value) : option Value :=
  ParseAnalytics.checkReference key value.

Definition checkTypeField (key : Key) (value : Value) : Value :=
  ParseAnalytics.checkTypeField key value.

(** [checkT] of the workbook's [deployWalkFunc]. *)
Definition checkT (key : Key) (value : Value) : Value :=
  match at_ value key with
  | VObj innerVal =>
      match Object_keys innerVal with
      | [innerkey0] =>
          if bool_decide (innerkey0 ∈ fieldsWithT)
          then VObj (withSpread T (VStr innerkey0) (prop innerVal innerkey0))
          else VObj innerVal
      | _ => VObj innerVal
      end
  | other => other
  end.

(** [deployWalkFunc] of the workbook filter: the value after the walker's
    assignments; [None] is a thrown [TypeError]. *)
Definition deployWalkFunc (value : Value) : option Value :=
  match value with
  | VObj o =>
      let keys := Object_keys o in
      o1 ← forEach keys
              (fun (acc : gmap string Value) key =>
                 let acc1 := <[ key := checkT (KStr key) (VObj acc) ]> acc in
                 r ← checkReference key (VObj acc1);
                 Some (<[ key := r ]> acc1))
              o;
      if negb (has TYPE o1) then
        VObj <$>
          forEach keys
            (fun (acc : gmap string Value) key =>
               Some (<[ key := checkTypeField (KStr key) (VObj acc) ]> acc))
            o1
      else Some (VObj o1)
  | VArr items =>
      VArr <$>
        forEach (seq 0 (length items))
          (fun (acc : list Value) index =>
             let acc1 := <[ index := checkT (KIdx index) (VArr acc) ]> acc in
             Some (<[ index := checkTypeField (KIdx index) (VArr acc1) ]> acc1))
          items
  | _ => Some value
  end.

(** [deployTransformFunc] of the workbook filter: the value after the
    assignments made to it.  [workbookType] stands for
    [ParsedWorkbookType().type]. *)
Definition deployTransformFunc (workbookType : TypeElement)
    (args : TransformFuncArgs) : option Value :=
  let value := arg_value args in
  let fieldType :=
    if pathHasFourParts (arg_path args) then Some workbookType
    else getType <$> arg_field args in
  match fieldType, value with
  | Some (ObjectType _ _ typeFlds), VObj o =>
      if negb (has TYPE o) then
        VObj <$>
          forEach (Object_keys typeFlds)
            (fun (acc : gmap string Value) key =>
               if negb (in_ key acc) && negb (bool_decide (key ∈ notAddingFields))
               then
                 field ← typeFlds !! key;
                 Some (<[ key := createEmptyObjectOfType (getType field) ]> acc)
               else Some acc)
            o
      else Some value
  | _, _ => Some value
  end.

(** [createOriginalArrays(value)] of the workbook filter, with its inner
    [createOriginalArray(arrName, itemName)]. *)
Definition createOriginalArray (value : gmap string Value)
    (arrName itemName : string) : option Value :=
  match prop value arrName with
  | VUndef | VNull => Some (VArr [])
  | VArr items =>
      Some (VArr
        (List.fold_left
           (fun (valToReturn : list Value) (val : Value) =>
              let scriptId := get (get val itemName) "scriptId" in
              if negb (isUndefined scriptId)
              then (valToReturn ++ [VObj {[ "scriptid" := scriptId ]}])%list
              else valToReturn)
           (List.filter isPlainObject items) []))
  | _ => None
  end.

Definition createOriginalArrays (value : gmap string Value) : option Value :=
  pivot ← createOriginalArray value "pivots" "pivot";
  chart ← createOriginalArray value "charts" "chart";
  table ← createOriginalArray value "dataViews" "dataView";
  Some (VObj {[ "pivots" := VObj {[ "pivot" := pivot ]};
                "charts" := VObj {[ "chart" := chart ]};
                "tables" := VObj {[ "table" := table ]} ]}).

End ParseWorkbookDeploy.

(** * Notions used to state the properties *)

Module Notions.
Import JS Adapter Loops.

(** ** Validator *)

(** At least one of ['charts'], ['pivots'], ['datasetLinks'] is a key of the
    instance's value. *)
Definition containsUnsupported (inst : InstanceElement) : bool :=
  has "charts" (value inst) || has "pivots" (value inst)
  || has "datasetLinks" (value inst).

(** The errors expected for one change: a single warning for an instance of
    type ['workbook'] with an unsupported key, nothing otherwise. *)
Definition expectedErrors (change : WorkbookValidator.Change)
    : list WorkbookValidator.ChangeError :=
  match WorkbookValidator.getChangeData change with
  | Instance inst =>
      if String.eqb (typeName (elemID inst)) "workbook" && containsUnsupported inst
      then [ {| WorkbookValidator.ce_elemID := elemID inst;
                WorkbookValidator.severity := WorkbookValidator.Warning;
                WorkbookValidator.message := "The deployment of this workbook will probably not have an effect on the target environment as this workbook contains pivots, charts, or data links.";
                WorkbookValidator.detailedMessage := "Deployment of workbooks that contain pivots, charts, or data links is not supported" |} ]
      else []
  | TypeDef _ => []
  end.

(** ** Fetch *)

Import ParseAnalytics.

(** The value [fetchTransformFunc] returns, its log left aside. *)
Definition fetched (value : Value) (field : option Field) (path : option ElemID)
    (elementsSource : ElemID -> option Element) (elements : list Element)
    (type : TypeElement) : Value :=
  (fetchTransformFunc (mkArgs value field path) elementsSource elements type).2.

(** The lines [fetchTransformFunc] sends to [log.debug]. *)
Definition logged (value : Value) (field : option Field) (path : option ElemID)
    (elementsSource : ElemID -> option Element) (elements : list Element)
    (type : TypeElement) : list string :=
  (fetchTransformFunc (mkArgs value field path) elementsSource elements type).1.

(** The value the workbook-only [fetchTransformFunc] returns. *)
Definition fetchedWorkbook (workbookType : TypeElement) (value : Value)
    (field : option Field) (path : option ElemID) : Value :=
  (ParseWorkbook.fetchTransformFunc workbookType (mkArgs value field path)).2.

(** The schema node a transform function resolves for a position. *)
Definition resolvedFieldType (field : option Field) (path : option ElemID)
    (type : TypeElement) : option TypeElement :=
  if pathHasFourParts path then Some type else getType <$> field.

(** The resolved node is an object type annotated [XML_TYPE]: a tagged union. *)
Definition isTaggedUnionNode (fieldType : option TypeElement) : bool :=
  isObjectType fieldType && has XML_TYPE (from_option typeAnnotations ∅ fieldType).

(** A sentinel wrapper: the ['@_type'] key holds one of the four kinds. *)
Definition isSentinelWrapper (o : gmap string Value) : bool :=
  has TYPE o
  && (isStr (prop o TYPE) "null" || isStr (prop o TYPE) "array"
      || isStr (prop o TYPE) "boolean" || isStr (prop o TYPE) "string").

(** The translation collection a two-part string names, as the lookup of
    [fetchTransformFunc] finds it: in the elements source first, among the
    elements of the fetch otherwise. *)
Definition locateCollection (part0 : string)
    (elementsSource : ElemID -> option Element) (elements : list Element)
    : option Element :=
  let instanceElemId :=
    mkElemID NETSUITE "translationcollection" "instance" [part0] in
  match elementsSource instanceElemId with
  | Some e => Some e
  | None =>
      List.find (fun e => String.eqb (getFullName (Element_elemID e))
                                     (getFullName instanceElemId)) elements
  end.

(** [element.value?.strings?.string?.[stringId]?.scriptid] *)
Definition scriptidOf (e : Element) (stringId : string) : Value :=
  get (get (get (get (Element_value e) "strings") "string") stringId) "scriptid".

(** The reference to the [scriptid] of a string of a translation collection. *)
Definition translationReference (part0 part1 : string) : Value :=
  VRef (mkElemID NETSUITE "translationcollection" "instance"
          [part0; "strings"; "string"; part1; "scriptid"]).

(** ** Deploy *)


(** What the completion loop keeps true of the object it fills: the fields of
    the input are still there, unchanged. *)
Definition extends (o acc : gmap string Value) : Prop :=
  forall k v, o !! k = Some v -> acc !! k = Some v.

(** A container that holds [child] at [key]. *)
Definition entryOf (key : Key) (child : Value) : Value :=
  match key with
  | KStr k => VObj {[ k := child ]}
  | KIdx i => VArr (replicate i VUndef ++ [child])
  end.

(** The three steps of the walker, each as a function of the entry it reads. *)
Definition collapsedAt (key : Key) (child : Value) : Value :=
  checkT key (entryOf key child).

Definition dereferencedAt (k : string) (child : Value) : option Value :=
  checkReference k (entryOf (KStr k) child).

Definition wrapped (child : Value) : Value :=
  checkTypeField (KIdx 0) (entryOf (KIdx 0) child).

End Notions.

(** * Sample data *)

Module Fixtures.
Import JS Adapter Loops ParseAnalytics.

Definition stringType : TypeElement := PrimitiveType STRING_elemID.

Definition booleanField : Field :=
  mkField ∅ (PrimitiveType (typeElemID "" "boolean")).

Definition stringField : Field := mkField ∅ stringType.

(** A position below an instance: more than four segments. *)
Definition somePath : ElemID :=
  mkElemID "netsuite" "dataset" "instance" ["custdataset1"; "audience"; "isPublic"].

Definition noSource : ElemID -> option Element := fun _ => None.

(** The root type of datasets, fields left out. *)
Definition datasetType : TypeElement :=
  ObjectType (typeElemID "netsuite" "dataset")
    {[ XML_TYPE := VStr "dataSet"; IGNORE_T_VALUE := VBool true ]} ∅.

(** [dataset_criteria]: a tagged union of [condition] and [filter]. *)
Definition criteriaType : TypeElement :=
  ObjectType (typeElemID "netsuite" "dataset_criteria")
    {[ XML_TYPE := VBool true ]}
    {[ "condition" := mkField {[ DO_NOT_ADD := VBool true ]} stringType;
       "filter" := mkField {[ DO_NOT_ADD := VBool true ]} stringType ]}.

Definition criteriaField : Field := mkField ∅ criteriaType.

(** [dataset_operator], whose [code] defaults to ['AND']. *)
Definition operatorType : TypeElement :=
  ObjectType (typeElemID "netsuite" "dataset_operator") ∅
    {[ "code" := mkField {[ DEFAULT_VALUE := VStr "AND" ]} stringType ]}.

(** [dataset_baseRecord]: two strings. *)
Definition baseRecordType : TypeElement :=
  ObjectType (typeElemID "netsuite" "dataset_baseRecord") ∅
    {[ "id" := stringField; "label" := stringField ]}.

(** An object type with one field of each shape. *)
Definition filterType : TypeElement :=
  ObjectType (typeElemID "netsuite" "dataset_filter") ∅
    {[ "caseSensitive" := booleanField;
       "expressions" := mkField ∅ (ContainerType stringType);
       "operator" := mkField ∅ operatorType;
       "baseRecord" := mkField ∅ baseRecordType;
       "field" := criteriaField ]}.

(** [dataset_formula_formula]: its discriminator is ignored on fetch. *)
Definition formulaFormulaType : TypeElement :=
  ObjectType (typeElemID "netsuite" "dataset_formula_formula")
    {[ XML_TYPE := VStr "formula"; IGNORE_T_VALUE := VBool true ]}
    {[ "formulaSQL" := stringField; "id" := stringField ]}.

(** A translation collection with the string [greeting]. *)
Definition translations : Element :=
  Instance
    (mkInstance
       (mkElemID "netsuite" "translationcollection" "instance"
          ["custcollectiontranslations123"])
       {[ "strings" :=
            VObj {[ "string" :=
                      VObj {[ "greeting" := VObj {[ "scriptid" := VStr "abc" ]} ]} ]} ]}).

End Fixtures.

(** * Further notions *)

Module Language.
Import Regex.

(** The strings a regular expression denotes. *)
Inductive lang : re -> string -> Prop :=
| lang_Eps : lang Eps ""
| lang_Cls p c : p c = true -> lang (Cls p) (String c "")
| lang_Cat r s a b : lang r a -> lang s b -> lang (Cat r s) (a ++ b)
| lang_Alt_l r s a : lang r a -> lang (Alt r s) a
| lang_Alt_r r s a : lang s a -> lang (Alt r s) a
| lang_Star_nil r : lang (Star r) ""
| lang_Star_app r a b : lang r a -> lang (Star r) b -> lang (Star r) (a ++ b).

(** Every character of the string satisfies [p]. *)
Fixpoint allChars (p : ascii -> bool) (s : string) : bool :=
  match s with
  | EmptyString => true
  | String c rest => p c && allChars p rest
  end.

(** A non-empty string of word characters ([\w+]). *)
Definition isWordString (s : string) : bool :=
  negb (String.eqb s "") && allChars isWord s.

(** A non-empty string of decimal digits. *)
Definition isDigitString (s : string) : bool :=
  negb (String.eqb s "") && allChars isDigit s.

(** [x] follows the template [p]: where [p] has a dot, [x] has any character
    but a line terminator; elsewhere [x] has the character of [p]. *)
Fixpoint follows (p x : string) : bool :=
  match p, x with
  | EmptyString, EmptyString => true
  | String pc p', String xc x' =>
      (if Ascii.eqb pc "." then isDot xc else Ascii.eqb pc xc) && follows p' x'
  | _, _ => false
  end.

(** No character of the string is a dot. *)
Definition dotFree (s : string) : bool :=
  allChars (fun c => negb (Ascii.eqb c ".")) s.

(** Some character class of the expression accepts [c]. *)
Fixpoint occurs (r : re) (c : ascii) : bool :=
  match r with
  | Void | Eps => false
  | Cls p => p c
  | Cat r s | Alt r s => occurs r c || occurs s c
  | Star r => occurs r c
  end.

(** A string of white space only, the empty string included. *)
Definition isBlank (s : string) : bool :=
  allChars NumericString.isStrWhiteSpaceChar s.

(** A character that stands in some numeric literal or is white space. *)
Definition isNumeralChar (c : ascii) : bool :=
  occurs NumericString.StringNumericLiteral c.

End Language.

(** * Notions for the deploy side *)

Module DeployNotions.
Import JS Adapter Loops ParseAnalytics.


(** The same for the workbook filter: declared fields outside
    [notAddingFields], inherited names apart, get their placeholder. *)
Definition completedWorkbookEntry (typeFlds : gmap string Field)
    (o : gmap string Value) (key : string) : option Value :=
  match o !! key with
  | Some v => Some v
  | None =>
      match typeFlds !! key with
      | Some field =>
          if bool_decide (key ∈ objectPrototypeKeys)
             || bool_decide (key ∈ ParseWorkbookDeploy.notAddingFields)
          then None
          else Some (ParseWorkbookDeploy.createEmptyObjectOfType (getType field))
      | None => None
      end
  end.

(** The number of nodes of a schema tree, the measure that proofs by
    induction on a type go by. *)
Fixpoint typeSize (typeElem : TypeElement) : nat :=
  match typeElem with
  | PrimitiveType _ => 1
  | ContainerType inner => S (typeSize inner)
  | ObjectType _ _ fields =>
      S (map_fold (fun _ (n : nat) total => n + total) 0
           ((fun field => typeSize (getType field)) <$> fields))
  end.

(** [checkT] of the workbook's walker as a function of the entry it reads. *)
Definition workbookCollapsedAt (key : Key) (child : Value) : Value :=
  ParseWorkbookDeploy.checkT key (Notions.entryOf key child).

(** A value the serializer takes as it is: no bare sequence, no bare boolean,
    no string that [Number] would read as a number. *)
Definition isEncoded (v : Value) : bool :=
  match v with
  | VArr _ | VBool _ => false
  | VStr s => negb (isNumberStr s)
  | _ => true
  end.

(** The record a summary array holds for one item of a collection, if any. *)
Definition summaryRecord (itemName : string) (val : Value) : list Value :=
  if isPlainObject val
     && negb (isUndefined (get (get val itemName) "scriptId"))
  then [VObj {[ "scriptid" := get (get val itemName) "scriptId" ]}]
  else [].

(** The items a summary array is drawn from: none when the collection is
    absent or [null]; [None] when what is there is no array. *)
Definition collectionItems (value : gmap string Value) (arrName : string)
    : option (list Value) :=
  match prop value arrName with
  | VUndef | VNull => Some []
  | VArr items => Some items
  | _ => None
  end.

(** The summary array of a collection. *)
Definition summaryArray (itemName : string) (items : list Value) : Value :=
  VArr (flat_map (summaryRecord itemName) items).

(** A null or an empty-array sentinel. *)
Definition isPlaceholderSentinel (v : Value) : bool :=
  isEqualSentinel "null" v || isEqualSentinel "array" v.

End DeployNotions.

(** * Properties *)

(** ** The workbook change validator *)

Module ValidatorProps.
Import JS Adapter WorkbookValidator Notions.

Lemma checkWorkbookValidity_keys inst :
  checkWorkbookValidity inst = negb (containsUnsupported inst).
Proof.
  unfold checkWorkbookValidity, containsUnsupported, unsupportedAttributes.
  cbn [List.filter].
  destruct (has "charts" (value inst)), (has "pivots" (value inst)),
    (has "datasetLinks" (value inst)); reflexivity.
Qed.

Lemma changeValidator_cons change changes :
  changeValidator (change :: changes)
  = (expectedErrors change ++ changeValidator changes)%list.
Proof.
  unfold changeValidator, instanceChangeData, expectedErrors, isInstanceChange.
  cbn [List.filter].
  destruct (getChangeData change) as [inst | t] eqn:Hdata; cbn.
  - rewrite Hdata. cbn. unfold WORKBOOK.
    destruct (String.eqb (typeName (elemID inst)) "workbook"); cbn; [|reflexivity].
    rewrite checkWorkbookValidity_keys, negb_involutive.
    destruct (containsUnsupported inst); reflexivity.
  - reflexivity.
Qed.

(** C10. [checkWorkbookValidity] holds exactly when none of ['charts'],
    ['pivots'], ['datasetLinks'] is a key of the instance's value; the validator
    returns, change by change, one error for each instance change of type
    ['workbook'] whose value has one of these keys and nothing for any other
    change; every error it returns has severity [Warning]. *)
Theorem changeValidator_warns_unsupported_workbooks :
  (forall inst,
      checkWorkbookValidity inst = true <->
      (value inst !! "charts" = None /\ value inst !! "pivots" = None
       /\ value inst !! "datasetLinks" = None))
  /\ (forall changes,
        changeValidator changes = flat_map expectedErrors changes)
  /\ (forall change, (length (expectedErrors change) <= 1)%nat)
  /\ (forall changes,
        Forall (fun e => severity e = Warning) (changeValidator changes)).
Proof.
  split; [|split; [|split]].
  - intros inst. rewrite checkWorkbookValidity_keys.
    unfold containsUnsupported, has.
    destruct (value inst !! "charts"), (value inst !! "pivots"),
      (value inst !! "datasetLinks"); cbn; intuition congruence.
  - induction changes as [|change changes IH]; [reflexivity|].
    rewrite changeValidator_cons, IH. reflexivity.
  - intros change. unfold expectedErrors.
    destruct (getChangeData change); [|cbn; lia].
    destruct (_ && _); cbn; lia.
  - intros changes. unfold changeValidator.
    apply List.Forall_map, Forall_forall. intros inst _. reflexivity.
Qed.

End ValidatorProps.

(** ** The [parseAnalytics] filter: fetch *)

Module FetchProps.
Import JS Adapter Loops ParseAnalytics Notions Fixtures.

Lemma fetched_sentinel o r field path src els ty :
  sentinelBlock o = Some r ->
  fetched (VObj o) field path src els ty = r.
Proof.
  intros H. unfold fetched, fetchTransformFunc. cbn. rewrite H. reflexivity.
Qed.

Lemma sentinelBlock_kind o kind :
  o !! TYPE = Some (VStr kind) ->
  sentinelBlock o =
    if String.eqb kind "null" then Some (VObj ∅)
    else if String.eqb kind "array" then
      if negb (isUndefined (prop o ITEM)) then
        Some (if isArray (prop o ITEM) then prop o ITEM else VArr [prop o ITEM])
      else Some (VArr [])
    else if String.eqb kind "boolean" then Some (prop o TEXT)
    else if String.eqb kind "string" then Some (VStr (String_ (prop o TEXT)))
    else None.
Proof.
  intros H. unfold sentinelBlock, has.
  replace (prop o TYPE) with (VStr kind) by (unfold prop; rewrite H; reflexivity).
  rewrite H. reflexivity.
Qed.

Lemma sentinelBlock_None o :
  sentinelBlock o = None <-> isSentinelWrapper o = false.
Proof.
  unfold sentinelBlock, isSentinelWrapper.
  destruct (has TYPE o); cbn; [|tauto].
  destruct (isStr (prop o TYPE) "null"); cbn; [split; discriminate|].
  destruct (isStr (prop o TYPE) "array"); cbn.
  { destruct (negb _); split; discriminate. }
  destruct (isStr (prop o TYPE) "boolean"); cbn; [split; discriminate|].
  destruct (isStr (prop o TYPE) "string"); cbn; [split; discriminate|tauto].
Qed.

Lemma fetch_discriminator o field path src els ty :
  isSentinelWrapper o = false ->
  has T o = true ->
  fetchTransformFunc (mkArgs (VObj o) field path) src els ty =
    let fieldType := resolvedFieldType field path ty in
    let log0 := match fieldType with None => [unexpectedPath] | Some _ => [] end in
    if isTaggedUnionNode fieldType
    then (log0,
          if Set_has TValuesToIgnore (prop o T) then VObj (omit o T)
          else VObj {[ String_ (prop o T) := VObj (omit o T) ]})
    else ((log0 ++ [unexpectedT])%list,
          VObj (withSpread "xmlType" (prop o T) (VObj (omit o T)))).
Proof.
  intros Hs HT. apply sentinelBlock_None in Hs.
  unfold fetchTransformFunc, resolvedFieldType, isTaggedUnionNode. cbn.
  rewrite Hs, HT.
  destruct (isObjectType _); cbn; [|reflexivity].
  destruct (has XML_TYPE _); reflexivity.
Qed.

(** C1, as the code has it.  On a plain object with the ['@_type'] key the fetch
    normalizer returns: the empty mapping for ['null']; for ['array'] the
    ['_ITEM_'] payload itself when it is a sequence, a singleton sequence
    holding it when it is anything else but [undefined], the empty sequence
    when it is absent; for ['boolean'] the ['#text'] payload as it is, with no
    cast; for ['string'] the ['#text'] payload converted by [String]. *)
Theorem fetch_decodes_sentinel_wrappers
    (o : gmap string Value) field path src els ty :
  let r := fetched (VObj o) field path src els ty in
  (o !! TYPE = Some (VStr "null") -> r = VObj ∅)
  /\ (o !! TYPE = Some (VStr "array") ->
        (forall items, o !! ITEM = Some (VArr items) -> r = VArr items)
        /\ (forall x, o !! ITEM = Some x -> isArray x = false ->
                      isUndefined x = false -> r = VArr [x])
        /\ (o !! ITEM = None -> r = VArr []))
  /\ (o !! TYPE = Some (VStr "boolean") -> r = prop o TEXT)
  /\ (o !! TYPE = Some (VStr "string") -> r = VStr (String_ (prop o TEXT))).
Proof.
  cbn zeta. repeat split.
  - intros H. apply fetched_sentinel. rewrite (sentinelBlock_kind _ _ H). reflexivity.
  - intros items Hi. apply fetched_sentinel. rewrite (sentinelBlock_kind _ _ H).
    unfold prop. rewrite Hi. reflexivity.
  - intros x Hx Harr Hund. apply fetched_sentinel.
    rewrite (sentinelBlock_kind _ _ H). unfold prop. rewrite Hx. cbn.
    rewrite Harr, Hund. reflexivity.
  - intros Hi. apply fetched_sentinel. rewrite (sentinelBlock_kind _ _ H).
    unfold prop. rewrite Hi. reflexivity.
  - intros H. apply fetched_sentinel. rewrite (sentinelBlock_kind _ _ H). reflexivity.
  - intros H. apply fetched_sentinel. rewrite (sentinelBlock_kind _ _ H). reflexivity.
Qed.

(** An instance of [fetch_decodes_sentinel_wrappers]: a scalar array payload. *)
Lemma fetch_decodes_sentinel_wrappers_witness :
  fetched (VObj {[ TYPE := VStr "array"; ITEM := VStr "a" ]})
          (Some booleanField) (Some somePath) noSource [] datasetType
  = VArr [VStr "a"].
Proof.
  apply (fetch_decodes_sentinel_wrappers
           {[ TYPE := VStr "array"; ITEM := VStr "a" ]}
           (Some booleanField) (Some somePath) noSource [] datasetType);
    reflexivity.
Defined.

(** C1, counterexample.  The wrapper [{'@_type': 'boolean', '#text': 'true'}]
    is decoded to the string ['true']: the payload is not cast to a boolean. *)
Lemma boolean_sentinel_text_is_not_cast :
  fetched (VObj {[ TYPE := VStr "boolean"; TEXT := VStr "true" ]})
          (Some booleanField) (Some somePath) noSource [] datasetType
  = VStr "true"
  /\ isBoolean (fetched (VObj {[ TYPE := VStr "boolean"; TEXT := VStr "true" ]})
                        (Some booleanField) (Some somePath) noSource [] datasetType)
     = false.
Proof. split; reflexivity. Qed.

(** C9, as the code has it.  A plain object with the ['_T_'] key that is not a
    sentinel wrapper, at a position whose resolved schema node is not a tagged
    union (or is not resolved at all), is returned without failure: a line is
    logged, ['_T_'] is gone, the other fields are kept, and ['xmlType'] holds
    the discriminator unless the object has an ['xmlType'] field of its own,
    which then stays. *)
Theorem unexpected_discriminator_is_renamed
    (o : gmap string Value) field path src els ty :
  has T o = true ->
  isSentinelWrapper o = false ->
  isTaggedUnionNode (resolvedFieldType field path ty) = false ->
  exists r : gmap string Value,
    fetched (VObj o) field path src els ty = VObj r
    /\ In unexpectedT (logged (VObj o) field path src els ty)
    /\ r !! T = None
    /\ r !! "xmlType" = Some (default (prop o T) (o !! "xmlType"))
    /\ (forall k, k <> T -> k <> "xmlType" -> r !! k = o !! k).
Proof.
  intros HT Hs Hu.
  exists (withSpread "xmlType" (prop o T) (VObj (omit o T))).
  unfold fetched, logged. rewrite (fetch_discriminator _ _ _ _ _ _ Hs HT).
  cbn zeta. rewrite Hu. cbn [fst snd].
  split; [reflexivity|]. split; [apply in_or_app; right; left; reflexivity|].
  unfold withSpread, ownProps, omit.
  split; [|split].
  - rewrite lookup_union, lookup_delete_eq, lookup_singleton_ne by discriminate.
    reflexivity.
  - rewrite lookup_union, lookup_delete_ne, lookup_singleton_eq by discriminate.
    destruct (o !! "xmlType"); reflexivity.
  - intros k HkT Hkx.
    rewrite lookup_union, lookup_delete_ne, lookup_singleton_ne by congruence.
    destruct (o !! k); reflexivity.
Qed.

(** An instance of [unexpected_discriminator_is_renamed]: a discriminator met
    at a string-typed position. *)
Lemma unexpected_discriminator_is_renamed_witness :
  exists r : gmap string Value,
    fetched (VObj {[ T := VStr "condition"; "children" := VNull ]})
            (Some stringField) (Some somePath) noSource [] datasetType = VObj r
    /\ In unexpectedT
          (logged (VObj {[ T := VStr "condition"; "children" := VNull ]})
                  (Some stringField) (Some somePath) noSource [] datasetType)
    /\ r !! T = None
    /\ r !! "xmlType"
       = Some (default (prop {[ T := VStr "condition"; "children" := VNull ]} T)
                       (({[ T := VStr "condition"; "children" := VNull ]}
                           : gmap string Value) !! "xmlType"))
    /\ (forall k, k <> T -> k <> "xmlType" ->
          r !! k = ({[ T := VStr "condition"; "children" := VNull ]}
                      : gmap string Value) !! k).
Proof.
  apply (unexpected_discriminator_is_renamed
           {[ T := VStr "condition"; "children" := VNull ]}
           (Some stringField) (Some somePath) noSource [] datasetType);
    reflexivity.
Defined.

(** C9, counterexample.  A plain object carrying ['_T_'] next to
    ['@_type': 'null'], at a string-typed position, comes back as the empty
    mapping: nothing is logged and no ['xmlType'] field shows the
    discriminator. *)
Lemma sentinel_wrapper_hides_discriminator :
  has T ({[ TYPE := VStr "null"; T := VStr "condition" ]} : gmap string Value) = true
  /\ isTaggedUnionNode (resolvedFieldType (Some stringField) (Some somePath) datasetType)
     = false
  /\ fetched (VObj {[ TYPE := VStr "null"; T := VStr "condition" ]})
             (Some stringField) (Some somePath) noSource [] datasetType
     = VObj ∅
  /\ logged (VObj {[ TYPE := VStr "null"; T := VStr "condition" ]})
            (Some stringField) (Some somePath) noSource [] datasetType
     = [].
Proof. repeat split; reflexivity. Qed.

Example own_xmlType_field_wins :
  fetched (VObj {[ T := VStr "condition"; "xmlType" := VStr "filter" ]})
          (Some stringField) (Some somePath) noSource [] datasetType
  = VObj {[ "xmlType" := VStr "filter" ]}.
Proof. reflexivity. Qed.

Example unresolved_field_type_is_logged :
  fetchTransformFunc
    (mkArgs (VObj {[ T := VStr "condition"; "children" := VNull ]}) None (Some somePath))
    noSource [] datasetType
  = ([unexpectedPath; unexpectedT],
     VObj {[ "xmlType" := VStr "condition"; "children" := VNull ]}).
Proof. reflexivity. Qed.

Example root_discriminator_is_dropped :
  fetched (VObj {[ T := VStr "dataSet"; "version" := VStr "0.1" ]})
          None (Some (mkElemID "netsuite" "dataset" "instance" ["custdataset1"]))
          noSource [] datasetType
  = VObj {[ "version" := VStr "0.1" ]}.
Proof. reflexivity. Qed.

(** *** Translation references *)

Lemma translationBlock_two_parts s part0 part1 src els :
  startsWith s "custcollectiontranslations" = true ->
  split_dot s = [part0; part1] ->
  translationBlock (VStr s) src els =
    match locateCollection part0 src els with
    | Some e =>
        if negb (isUndefined (scriptidOf e part1))
        then Some (translationReference part0 part1)
        else None
    | None => None
    end.
Proof.
  intros Hp Hs. unfold translationBlock. rewrite Hp, Hs.
  unfold locateCollection, scriptidOf, translationReference, createNestedID.
  cbn. destruct (src _); reflexivity.
Qed.

Lemma fetched_string s field path src els ty :
  fetched (VStr s) field path src els ty =
    match translationBlock (VStr s) src els with
    | Some r => r
    | None => VStr s
    end.
Proof.
  unfold fetched, fetchTransformFunc. cbn [arg_value].
  destruct (translationBlock (VStr s) src els); [reflexivity|].
  destruct (isStringType _); reflexivity.
Qed.

Lemma fetchedWorkbook_two_parts wty s part0 part1 field path :
  startsWith s "custcollectiontranslations" = true ->
  split_dot s = [part0; part1] ->
  fetchedWorkbook wty (VStr s) field path
  = VRef (typeElemID NETSUITE
            ("translationcollection.instance." ++ part0
             ++ ".strings.string." ++ part1 ++ ".scriptid")).
Proof.
  intros Hp Hs. unfold fetchedWorkbook, ParseWorkbook.fetchTransformFunc.
  cbn [arg_value]. rewrite Hp, Hs. reflexivity.
Qed.

(** C7, as the code has it.  For a string that begins with the translation
    prefix and splits into two parts: in the analytics filter, when no
    translation collection is located or its string entry has no [scriptid],
    the string comes back unchanged, and a reference comes back only when the
    collection is located and the [scriptid] of its entry is defined; the
    workbook-only filter looks nothing up and always returns a reference. *)
Theorem unresolved_translation_string_is_kept
    (s part0 part1 : string) field path src els ty :
  startsWith s "custcollectiontranslations" = true ->
  split_dot s = [part0; part1] ->
  ((forall e, locateCollection part0 src els = Some e ->
              isUndefined (scriptidOf e part1) = true) ->
   fetched (VStr s) field path src els ty = VStr s)
  /\ (forall id, fetched (VStr s) field path src els ty = VRef id ->
        exists e, locateCollection part0 src els = Some e
                  /\ isUndefined (scriptidOf e part1) = false
                  /\ VRef id = translationReference part0 part1)
  /\ (forall wty,
        fetchedWorkbook wty (VStr s) field path
        = VRef (typeElemID NETSUITE
                  ("translationcollection.instance." ++ part0
                   ++ ".strings.string." ++ part1 ++ ".scriptid"))).
Proof.
  intros Hp Hs. split; [|split].
  - intros Hnone. rewrite fetched_string, (translationBlock_two_parts _ _ _ _ _ Hp Hs).
    destruct (locateCollection part0 src els) as [e|]; [|reflexivity].
    rewrite (Hnone e eq_refl). reflexivity.
  - intros id. rewrite fetched_string, (translationBlock_two_parts _ _ _ _ _ Hp Hs).
    destruct (locateCollection part0 src els) as [e|]; [|discriminate].
    destruct (isUndefined (scriptidOf e part1)) eqn:Hu; cbn; [discriminate|].
    intros <-. exists e. auto.
  - intros wty. apply (fetchedWorkbook_two_parts _ _ _ _ _ _ Hp Hs).
Qed.

(** An instance of [unresolved_translation_string_is_kept]: no collection at
    hand. *)
Lemma unresolved_translation_string_is_kept_witness :
  fetched (VStr "custcollectiontranslations123.greeting")
          (Some stringField) (Some somePath) noSource [] datasetType
  = VStr "custcollectiontranslations123.greeting".
Proof.
  apply (unresolved_translation_string_is_kept
           "custcollectiontranslations123.greeting"
           "custcollectiontranslations123" "greeting"
           (Some stringField) (Some somePath) noSource [] datasetType
           eq_refl eq_refl).
  intros e He. discriminate He.
Defined.

(** C7, counterexample.  The workbook-only filter turns the string into a
    reference although no translation collection exists anywhere. *)
Lemma workbook_filter_does_not_verify :
  fetchedWorkbook datasetType (VStr "custcollectiontranslations123.greeting")
                  (Some stringField) (Some somePath)
  = VRef (typeElemID "netsuite"
            "translationcollection.instance.custcollectiontranslations123.strings.string.greeting.scriptid")
  /\ fetchedWorkbook datasetType (VStr "custcollectiontranslations123.greeting")
                     (Some stringField) (Some somePath)
     <> VStr "custcollectiontranslations123.greeting".
Proof. split; [reflexivity|discriminate]. Qed.

End FetchProps.

(** ** The [parseAnalytics] filter: deploy *)

Module DeployProps.
Import JS Adapter Loops ParseAnalytics Notions Fixtures.

(** *** Maps and loops *)



Lemma elem_of_Object_keys {A} (m : gmap string A) k :
  k ∈ Object_keys m <-> is_Some (m !! k).
Proof.
  unfold Object_keys. rewrite list_elem_of_fmap. split.
  - intros [[k' x] [-> H]]. apply elem_of_map_to_list in H. cbn. eauto.
  - intros [x H]. exists (k, x). split; [reflexivity|].
    apply elem_of_map_to_list. exact H.
Qed.


Lemma NoDup_Object_keys {A} (m : gmap string A) : NoDup (Object_keys m).
Proof. apply NoDup_fst_map_to_list. Qed.

Lemma length_Object_keys {A} (m : gmap string A) :
  length (Object_keys m) = size m.
Proof. unfold Object_keys. rewrite length_fmap. apply length_map_to_list. Qed.

(** A loop whose body keeps an invariant and never throws ends normally in a
    state where the invariant holds. *)
Lemma forEach_invariant {S A} (P : S -> Prop) (l : list A)
    (body : S -> A -> option S) (s : S) :
  P s ->
  (forall s x, x ∈ l -> P s -> exists s', body s x = Some s' /\ P s') ->
  exists s', forEach l body s = Some s' /\ P s'.
Proof.
  revert s. induction l as [|x l IH]; intros s Hs Hbody; cbn.
  - eauto.
  - destruct (Hbody s x) as (s1 & -> & Hs1); [left | assumption |].
    apply IH; [assumption|]. intros s2 y Hy. apply Hbody. right. exact Hy.
Qed.

(** *** Placeholders *)





Example placeholder_of_list :
  createEmptyObjectOfType filterType "expressions" = Some arrayObject.
Proof. reflexivity. Qed.

Example placeholder_of_primitive :
  createEmptyObjectOfType filterType "caseSensitive" = Some nullObject.
Proof. reflexivity. Qed.

Example placeholder_of_tagged_union :
  createEmptyObjectOfType filterType "field" = Some nullObject.
Proof. reflexivity. Qed.

Example placeholder_collapses :
  createEmptyObjectOfType filterType "baseRecord" = Some nullObject.
Proof. reflexivity. Qed.

Example placeholder_keeps_default :
  createEmptyObjectOfType filterType "operator"
  = Some (VObj {[ "code" := VStr "AND" ]}).
Proof. reflexivity. Qed.

Example placeholder_of_missing_field :
  createEmptyObjectOfType filterType "nowhere" = None.
Proof. reflexivity. Qed.

(** *** Field completion *)

Lemma extends_insert_fresh o acc k x :
  extends o acc -> has k acc = false -> extends o (<[ k := x ]> acc).
Proof.
  intros Hext Hfresh j v Hj. unfold has in Hfresh.
  destruct (decide (k = j)) as [->|Hne].
  - rewrite (Hext _ _ Hj) in Hfresh. discriminate.
  - rewrite lookup_insert_ne by assumption. apply Hext, Hj.
Qed.

Lemma completion_loop typeAnn id (typeFlds : gmap string Field) (o : gmap string Value) :
  exists r,
    forEach (Object_keys typeFlds)
      (fun (acc : gmap string Value) key =>
         field ← typeFlds !! key;
         if negb (in_ key acc)
            && negb (isTrue (prop (fieldAnnotations field) DO_NOT_ADD))
         then
           if has DEFAULT_VALUE (fieldAnnotations field)
           then Some (<[ key := prop (fieldAnnotations field) DEFAULT_VALUE ]> acc)
           else
             placeholder ← createEmptyObjectOfType (ObjectType id typeAnn typeFlds) key;
             Some (<[ key := placeholder ]> acc)
         else Some acc)
      o = Some r
    /\ extends o r.
Proof.
  apply forEach_invariant.
  - intros k v Hk. exact Hk.
  - intros acc key Hkey Hext.
    apply elem_of_Object_keys in Hkey as [field Hfield].
    rewrite Hfield. cbn.
    destruct (in_ key acc) eqn:Hin; cbn; [eauto|].
    assert (Hhas : has key acc = false).
    { unfold in_ in Hin. apply orb_false_iff in Hin as [Hhas _]. exact Hhas. }
    destruct (isTrue _); cbn; [eauto|].
    destruct (has DEFAULT_VALUE (fieldAnnotations field)).
    + eexists. split; [reflexivity|]. apply extends_insert_fresh; assumption.
    + unfold createEmptyObjectOfType. cbn [typeFields]. rewrite Hfield. cbn.
      eexists. split; [reflexivity|]. apply extends_insert_fresh; assumption.
Qed.

(** Field completion returns normally and keeps every field of its input,
    whatever the node, unless the input is the bare discriminator
    [{_T_: x}]. *)
Lemma deployTransformFunc_keeps_fields
    (o : gmap string Value) field path analyticsType :
  Object_keys o <> [T] ->
  exists r : gmap string Value,
    deployTransformFunc (mkArgs (VObj o) field path) analyticsType = Some (VObj r)
    /\ extends o r.
Proof.
  intros Hbare. unfold deployTransformFunc. cbn [arg_value arg_field arg_path].
  destruct (if pathHasFourParts path then Some analyticsType else getType <$> field)
    as [[id | inner | id typeAnn typeFlds]|];
    try (exists o; split; [reflexivity | intros k v Hk; exact Hk]).
  destruct (has TYPE o); cbn;
    [exists o; split; [reflexivity | intros k v Hk; exact Hk]|].
  destruct (has XML_TYPE typeAnn); cbn [andb].
  - destruct (Nat.eqb (length (Object_keys o)) 1) eqn:Hlen.
    + eexists. split; [reflexivity|]. intros k v Hk.
      rewrite lookup_insert_ne; [exact Hk|]. intros <-.
      apply Nat.eqb_eq in Hlen.
      assert (Hin : T ∈ Object_keys o) by (apply elem_of_Object_keys; eauto).
      destruct (Object_keys o) as [|a [|b l]]; try discriminate Hlen.
      apply list_elem_of_singleton in Hin. subst a. apply Hbare. reflexivity.
    + destruct (completion_loop typeAnn id typeFlds o) as (r & Hr & Hext).
      exists r. rewrite Hr. split; [reflexivity|exact Hext].
  - destruct (completion_loop typeAnn id typeFlds o) as (r & Hr & Hext).
    exists r. rewrite Hr. split; [reflexivity|exact Hext].
Qed.

(** C4. At every node, on a canonical mapping (one that carries no ['_T_']
    discriminator), field completion returns normally and every field of the
    input is in the result with the value it had: nothing is removed and
    nothing is overwritten. *)
Theorem deployTransformFunc_is_additive
    (o : gmap string Value) field path analyticsType :
  o !! T = None ->
  exists r : gmap string Value,
    deployTransformFunc (mkArgs (VObj o) field path) analyticsType = Some (VObj r)
    /\ forall k v, o !! k = Some v -> r !! k = Some v.
Proof.
  intros HT. apply deployTransformFunc_keeps_fields.
  intros Hkeys.
  assert (Hin : T ∈ Object_keys o) by (rewrite Hkeys; left).
  apply elem_of_Object_keys in Hin as [v Hv]. congruence.
Qed.

(** An instance of [deployTransformFunc_is_additive]: a filter that has its
    [caseSensitive] flag only. *)
Lemma deployTransformFunc_is_additive_witness :
  exists r : gmap string Value,
    deployTransformFunc
      (mkArgs (VObj {[ "caseSensitive" := VBool true ]})
              (Some (mkField ∅ filterType)) (Some somePath)) datasetType
    = Some (VObj r)
    /\ forall k v,
         ({[ "caseSensitive" := VBool true ]} : gmap string Value) !! k = Some v ->
         r !! k = Some v.
Proof.
  apply (deployTransformFunc_is_additive {[ "caseSensitive" := VBool true ]}).
  reflexivity.
Defined.

Example completion_of_filter :
  deployTransformFunc
    (mkArgs (VObj {[ "caseSensitive" := VBool true ]})
            (Some (mkField ∅ filterType)) (Some somePath)) datasetType
  = Some (VObj {[ "caseSensitive" := VBool true;
                  "expressions" := arrayObject;
                  "operator" := VObj {[ "code" := VStr "AND" ]};
                  "baseRecord" := nullObject;
                  "field" := nullObject ]}).
Proof. reflexivity. Qed.

(** The one mapping whose field is overwritten: the bare discriminator at a
    tagged-union node, whose only key the marking step takes for the tag. *)
Example bare_discriminator_is_overwritten :
  deployTransformFunc
    (mkArgs (VObj {[ T := VStr "condition" ]}) (Some criteriaField) (Some somePath))
    datasetType
  = Some (VObj {[ T := VStr T ]}).
Proof. reflexivity. Qed.

(** *** The walker, entry by entry *)

Lemma at_entryOf key child : at_ (entryOf key child) key = child.
Proof.
  destruct key as [k|i]; cbn.
  - unfold prop. rewrite lookup_singleton_eq. reflexivity.
  - rewrite app_nth2; rewrite length_replicate; [|lia].
    rewrite Nat.sub_diag. reflexivity.
Qed.

Lemma prop_insert_eq (m : gmap string Value) k v : prop (<[ k := v ]> m) k = v.
Proof. unfold prop. rewrite lookup_insert_eq. reflexivity. Qed.

Lemma checkT_local key value :
  checkT key value = collapsedAt key (at_ value key).
Proof. unfold collapsedAt, checkT. rewrite at_entryOf. reflexivity. Qed.

Lemma checkReference_local k value :
  checkReference k value = dereferencedAt k (get value k).
Proof.
  unfold dereferencedAt, checkReference.
  change (get (entryOf (KStr k) (get value k)) k)
    with (at_ (entryOf (KStr k) (get value k)) (KStr k)).
  rewrite at_entryOf. reflexivity.
Qed.

Lemma checkTypeField_local key value :
  checkTypeField key value = wrapped (at_ value key).
Proof. unfold wrapped, checkTypeField. rewrite at_entryOf. reflexivity. Qed.

Lemma forEach_ext {S A} (l : list A) (body body' : S -> A -> option S) s :
  (forall s x, body s x = body' s x) ->
  forEach l body s = forEach l body' s.
Proof.
  intros H. revert s. induction l as [|x l IH]; intros s; cbn; [reflexivity|].
  rewrite H. destruct (body' s x); [apply IH | reflexivity].
Qed.

(** A loop that rewrites every listed key from its own entry yields, key by
    key, the rewritten entries, or throws where one rewriting throws. *)
Lemma forEach_entries (f : string -> Value -> option Value)
    (keys : list string) (m : gmap string Value) :
  NoDup keys ->
  match forEach keys
          (fun (acc : gmap string Value) k =>
             v ← f k (prop acc k); Some (<[ k := v ]> acc)) m with
  | Some m' =>
      (forall k, k ∈ keys -> exists v, f k (prop m k) = Some v /\ m' !! k = Some v)
      /\ (forall k, k ∉ keys -> m' !! k = m !! k)
  | None => exists k, k ∈ keys /\ f k (prop m k) = None
  end.
Proof.
  intros Hnd. revert m. induction Hnd as [|k keys Hk Hnd IH]; intros m; cbn.
  - split; [intros k Hk; inversion Hk | reflexivity].
  - destruct (f k (prop m k)) as [v|] eqn:Hf; cbn.
    + specialize (IH (<[ k := v ]> m)).
      destruct (forEach keys _ (<[ k := v ]> m)) as [m'|].
      * destruct IH as [Hin Hout]. split.
        -- intros j Hj. apply elem_of_cons in Hj as [-> | Hj].
           ++ exists v. split; [exact Hf|].
              rewrite (Hout k Hk). apply lookup_insert_eq.
           ++ destruct (Hin j Hj) as (w & Hw & Hm').
              exists w. split; [|exact Hm'].
              rewrite <- Hw. unfold prop.
              rewrite lookup_insert_ne; [reflexivity|]. intros ->. contradiction.
        -- intros j Hj. rewrite not_elem_of_cons in Hj. destruct Hj as [Hne Hj].
           rewrite (Hout j Hj). apply lookup_insert_ne. congruence.
      * destruct IH as (j & Hj & Hnone). exists j. split; [right; exact Hj|].
        rewrite <- Hnone. unfold prop.
        rewrite lookup_insert_ne; [reflexivity|]. intros ->. contradiction.
    + exists k. split; [left | exact Hf].
Qed.

Lemma collapsedAt_index i child :
  collapsedAt (KIdx i) child = collapsedAt (KIdx 0) child.
Proof. unfold collapsedAt, checkT. rewrite !at_entryOf. reflexivity. Qed.

Lemma deployWalkFunc_object (o : gmap string Value) :
  match deployWalkFunc (VObj o) with
  | Some r =>
      exists o' : gmap string Value,
        r = VObj o'
        /\ (forall k, o !! k = None -> o' !! k = None)
        /\ (forall k child, o !! k = Some child ->
              exists c, dereferencedAt k (collapsedAt (KStr k) child) = Some c
                        /\ o' !! k = Some (if has TYPE o then c else wrapped c))
  | None =>
      exists k child, o !! k = Some child
                      /\ dereferencedAt k (collapsedAt (KStr k) child) = None
  end.
Proof.
  unfold deployWalkFunc.
  rewrite (forEach_ext _ _
             (fun (acc : gmap string Value) k =>
                v ← dereferencedAt k (collapsedAt (KStr k) (prop acc k));
                Some (<[ k := v ]> acc))).
  2:{ intros acc k. cbn zeta.
      rewrite checkReference_local, checkT_local. cbn [at_ get].
      rewrite prop_insert_eq.
      destruct (dereferencedAt _ _); cbn; [|reflexivity].
      rewrite insert_insert_eq. reflexivity. }
  pose proof (forEach_entries
                (fun k child => dereferencedAt k (collapsedAt (KStr k) child))
                (Object_keys o) o (NoDup_Object_keys o)) as H1.
  cbn beta in H1.
  destruct (forEach (Object_keys o) _ o) as [o1|]; cbn.
  - destruct H1 as [Hin1 Hout1].
    assert (HTYPE : has TYPE o1 = has TYPE o).
    { unfold has. destruct (o !! TYPE) as [x|] eqn:Ho.
      - destruct (Hin1 TYPE) as (v & _ & ->); [|reflexivity].
        apply elem_of_Object_keys. rewrite Ho. eauto.
      - rewrite Hout1, Ho; [reflexivity|].
        rewrite elem_of_Object_keys, Ho. intros [? ?]; discriminate. }
    rewrite HTYPE.
    destruct (has TYPE o) eqn:Hty; cbn.
    + exists o1. split; [reflexivity|]. split.
      * intros k Hk. rewrite Hout1; [exact Hk|].
        rewrite elem_of_Object_keys, Hk. intros [? ?]; discriminate.
      * intros k child Hk. destruct (Hin1 k) as (c & Hc & Ho1).
        { apply elem_of_Object_keys. rewrite Hk. eauto. }
        exists c. split; [|exact Ho1].
        rewrite <- Hc. unfold prop. rewrite Hk. reflexivity.
    + rewrite (forEach_ext _ _
                 (fun (acc : gmap string Value) k =>
                    v ← (fun _ child => Some (wrapped child)) k (prop acc k);
                    Some (<[ k := v ]> acc))).
      2:{ intros acc k. rewrite checkTypeField_local. reflexivity. }
      pose proof (forEach_entries (fun _ child => Some (wrapped child))
                    (Object_keys o) o1 (NoDup_Object_keys o)) as H2.
      cbn beta in H2.
      destruct (forEach (Object_keys o) _ o1) as [o2|]; cbn.
      * destruct H2 as [Hin2 Hout2]. exists o2. split; [reflexivity|]. split.
        -- intros k Hk.
           assert (Hnot : k ∉ Object_keys o).
           { rewrite elem_of_Object_keys, Hk. intros [? ?]; discriminate. }
           rewrite Hout2, Hout1; assumption.
        -- intros k child Hk.
           assert (Hel : k ∈ Object_keys o).
           { apply elem_of_Object_keys. rewrite Hk. eauto. }
           destruct (Hin1 k Hel) as (c & Hc & Ho1).
           destruct (Hin2 k Hel) as (w & Hw & Ho2).
           exists c. split.
           ++ rewrite <- Hc. unfold prop. rewrite Hk. reflexivity.
           ++ rewrite Ho2. inversion Hw. unfold prop. rewrite Ho1. reflexivity.
      * destruct H2 as (k & _ & Hk). discriminate.
  - destruct H1 as (k & Hel & Hnone).
    apply elem_of_Object_keys in Hel as [child Hk].
    exists k, child. split; [exact Hk|].
    rewrite <- Hnone. unfold prop. rewrite Hk. reflexivity.
Qed.

Lemma deployWalkFunc_array_loop (done todo : list Value) :
  forEach (seq (length done) (length todo))
    (fun (acc : list Value) index =>
       let acc1 := <[ index := checkT (KIdx index) (VArr acc) ]> acc in
       Some (<[ index := checkTypeField (KIdx index) (VArr acc1) ]> acc1))
    (done ++ todo)%list
  = Some (done ++ List.map (fun x => wrapped (collapsedAt (KIdx 0) x)) todo)%list.
Proof.
  revert done. induction todo as [|x todo IH]; intros done; cbn [length seq forEach].
  - reflexivity.
  - cbn zeta.
    rewrite checkTypeField_local, checkT_local. cbn [at_].
    rewrite app_nth2, Nat.sub_diag by lia. cbn [nth].
    rewrite insert_app_r_alt, Nat.sub_diag by lia. cbn [insert list_insert].
    rewrite app_nth2, Nat.sub_diag by lia. cbn [nth].
    rewrite insert_app_r_alt, Nat.sub_diag by lia. cbn [insert list_insert].
    rewrite collapsedAt_index.
    specialize (IH (done ++ [wrapped (collapsedAt (KIdx 0) x)])%list).
    rewrite length_app, Nat.add_1_r, <- !app_assoc in IH. cbn [length app] in IH.
    rewrite IH. reflexivity.
Qed.

Lemma deployWalkFunc_array items :
  deployWalkFunc (VArr items)
  = Some (VArr (List.map (fun x => wrapped (collapsedAt (KIdx 0) x)) items)).
Proof.
  pose proof (deployWalkFunc_array_loop [] items) as H.
  cbn [length app] in H. unfold deployWalkFunc. rewrite H. reflexivity.
Qed.

(** *** Wire re-encoding *)


Example walk_wraps_entries :
  deployWalkFunc
    (VObj {[ "columns" := VArr []; "isPublic" := VBool false;
             "version" := VStr "0.1"; "label" := VStr "Sales"; "ownerId" := VNum "5" ]})
  = Some (VObj {[ "columns" := VObj {[ TYPE := VStr "array"; ITEM := VArr [] ]};
                  "isPublic" := VObj {[ TYPE := VStr "boolean"; TEXT := VStr "false" ]};
                  "version" := VObj {[ TYPE := VStr "string"; TEXT := VStr "0.1" ]};
                  "label" := VStr "Sales";
                  "ownerId" := VNum "5" ]}).
Proof. reflexivity. Qed.

Example walk_leaves_sentinel_payload :
  deployWalkFunc (VObj {[ TYPE := VStr "array"; ITEM := VArr [VBool true] ]})
  = Some (VObj {[ TYPE := VStr "array"; ITEM := VArr [VBool true] ]}).
Proof. reflexivity. Qed.

Example walk_wraps_items :
  deployWalkFunc (VArr [VBool true; VStr "12"; VStr "abc"; VArr []])
  = Some (VArr [ VObj {[ TYPE := VStr "boolean"; TEXT := VStr "true" ]};
                 VObj {[ TYPE := VStr "string"; TEXT := VStr "12" ]};
                 VStr "abc";
                 VObj {[ TYPE := VStr "array"; ITEM := VArr [] ]} ]).
Proof. reflexivity. Qed.

Example numeric_strings :
  List.map isNumberStr ["123"; "1.5"; ""; " 7 "; "0x1F"; "1e3"; "-Infinity";
                        "abc"; "12px"; "1,5"; "true"; "0x"; "1e"]
  = [true; true; true; true; true; true; true;
     false; false; false; false; false; false].
Proof. reflexivity. Qed.

End DeployProps.

(** ** Fetch and deploy together *)

Module RoundTripProps.
Import JS Adapter Loops ParseAnalytics Notions Fixtures FetchProps DeployProps.

(** *** Sentinels *)

(** C2, as the code has it.  Encoding a sequence, or a string that [Number]
    reads as a number, and decoding the wrapper gives the value back; so does
    decoding then encoding an ['array'] wrapper around a sequence or a
    ['string'] wrapper around such a string.  A boolean is encoded as a
    ['boolean'] wrapper around its text (['true'] for [true]), and a
    ['boolean'] wrapper is decoded to its payload as it is: to the text after
    encoding, to a boolean only when the payload is one.  The ['null'] wrapper
    is decoded to the empty mapping, which encoding leaves as it is. *)
Theorem sentinel_round_trips field path src els ty :
  let decode := fun w => fetched w field path src els ty in
  (forall key value items, at_ value key = VArr items ->
      decode (checkTypeField key value) = VArr items)
  /\ (forall key value s, at_ value key = VStr s -> isNumberStr s = true ->
      decode (checkTypeField key value) = VStr s)
  /\ (forall key items,
      checkTypeField key
        (entryOf key (decode (VObj {[ TYPE := VStr "array"; ITEM := VArr items ]})))
      = VObj {[ TYPE := VStr "array"; ITEM := VArr items ]})
  /\ (forall key s, isNumberStr s = true ->
      checkTypeField key
        (entryOf key (decode (VObj {[ TYPE := VStr "string"; TEXT := VStr s ]})))
      = VObj {[ TYPE := VStr "string"; TEXT := VStr s ]})
  /\ (forall key value (b : bool), at_ value key = VBool b ->
      checkTypeField key value
      = VObj {[ TYPE := VStr "boolean"; TEXT := VStr (if b then "true" else "false") ]}
      /\ decode (checkTypeField key value) = VStr (if b then "true" else "false"))
  /\ (forall payload,
      decode (VObj {[ TYPE := VStr "boolean"; TEXT := payload ]}) = payload)
  /\ decode nullObject = VObj ∅
  /\ (forall key, checkTypeField key (entryOf key (VObj ∅)) = VObj ∅).
Proof.
  cbn zeta.
  assert (Harr : forall items,
             fetched (VObj {[ TYPE := VStr "array"; ITEM := VArr items ]})
                     field path src els ty = VArr items).
  { intros items. apply fetched_sentinel. reflexivity. }
  assert (Hstr : forall s,
             fetched (VObj {[ TYPE := VStr "string"; TEXT := VStr s ]})
                     field path src els ty = VStr s).
  { intros s. apply fetched_sentinel. reflexivity. }
  assert (Hbool : forall payload,
             fetched (VObj {[ TYPE := VStr "boolean"; TEXT := payload ]})
                     field path src els ty = payload).
  { intros payload. apply fetched_sentinel. reflexivity. }
  repeat match goal with |- _ /\ _ => split end.
  - intros key value items Hv. unfold checkTypeField. rewrite Hv. apply Harr.
  - intros key value s Hv Hnum. unfold checkTypeField. rewrite Hv, Hnum. apply Hstr.
  - intros key items. rewrite Harr. unfold checkTypeField. rewrite at_entryOf.
    reflexivity.
  - intros key s Hnum. rewrite Hstr. unfold checkTypeField.
    rewrite at_entryOf, Hnum. reflexivity.
  - intros key value b Hv. unfold checkTypeField. rewrite Hv.
    split; destruct b; solve [reflexivity | apply Hbool].
  - exact Hbool.
  - apply fetched_sentinel. reflexivity.
  - intros key. unfold checkTypeField. rewrite at_entryOf. reflexivity.
Qed.

(** An instance of [sentinel_round_trips]: a numeric-looking version string. *)
Lemma sentinel_round_trips_witness :
  fetched (checkTypeField (KStr "version") (VObj {[ "version" := VStr "0.1" ]}))
          (Some stringField) (Some somePath) noSource [] datasetType
  = VStr "0.1".
Proof.
  apply (sentinel_round_trips (Some stringField) (Some somePath) noSource []
           datasetType); reflexivity.
Defined.

(** C2, counterexample.  The boolean [true] is encoded as
    [{'@_type': 'boolean', '#text': 'true'}], and that wrapper is decoded to
    the string ['true'], not to the boolean. *)
Lemma boolean_round_trip_yields_text :
  checkTypeField (KStr "isPublic") (VObj {[ "isPublic" := VBool true ]})
  = VObj {[ TYPE := VStr "boolean"; TEXT := VStr "true" ]}
  /\ fetched (VObj {[ TYPE := VStr "boolean"; TEXT := VStr "true" ]})
             (Some booleanField) (Some somePath) noSource [] datasetType
     = VStr "true"
  /\ fetched (checkTypeField (KStr "isPublic") (VObj {[ "isPublic" := VBool true ]}))
             (Some booleanField) (Some somePath) noSource [] datasetType
     <> VBool true.
Proof. split; [reflexivity|]. split; [reflexivity|discriminate]. Qed.

(** *** Tagged unions *)

Lemma at_singleton (k : string) (x : Value) :
  at_ (VObj {[ k := x ]}) (KStr k) = x.
Proof. exact (at_entryOf (KStr k) x). Qed.

Lemma Object_keys_singleton (k : string) (x : Value) :
  Object_keys ({[ k := x ]} : gmap string Value) = [k].
Proof. unfold Object_keys. rewrite map_to_list_singleton. reflexivity. Qed.

(** A duplicate-free list whose only possible member is [x], and which has
    [x], is [[x]]. *)
Lemma NoDup_only (x : string) (l : list string) :
  NoDup l -> x ∈ l -> (forall y, y ∈ l -> y = x) -> l = [x].
Proof.
  intros Hnd Hx Hall. destruct l as [|a l]; [inversion Hx|].
  assert (a = x) as -> by (apply Hall; left).
  destruct l as [|b l]; [reflexivity|].
  assert (b = x) as -> by (apply Hall; right; left).
  apply NoDup_cons in Hnd as [Hnot _]. exfalso. apply Hnot. left.
Qed.

Lemma otherKey_of_marked (tag : string) (x : Value) :
  tag <> T ->
  List.filter (fun innerKey => negb (String.eqb innerKey T))
    (Object_keys ({[ tag := x; T := VStr tag ]} : gmap string Value))
  = [tag].
Proof.
  intros Hne.
  assert (Hmem : forall y,
             y ∈ List.filter (fun innerKey => negb (String.eqb innerKey T))
                   (Object_keys ({[ tag := x; T := VStr tag ]} : gmap string Value))
             <-> y = tag).
  { intros y. rewrite list_elem_of_In, filter_In, <- list_elem_of_In.
    rewrite elem_of_Object_keys, negb_true_iff, String.eqb_neq.
    split.
    - intros [[v Hv] HyT].
      apply lookup_insert_Some in Hv as [[-> _] | [_ Hv]]; [reflexivity|].
      apply lookup_singleton_Some in Hv as [Heq _]. congruence.
    - intros ->. split; [|exact Hne].
      rewrite lookup_insert_eq. eauto. }
  apply NoDup_only.
  - apply NoDup_ListNoDup, List.NoDup_filter, NoDup_ListNoDup, NoDup_Object_keys.
  - apply Hmem. reflexivity.
  - intros y Hy. apply Hmem, Hy.
Qed.

(** [checkT] looks at the key only to single out ['formula']: under any other
    key, and at any index, it does to the entry what it does to the sole item
    of an array. *)
Lemma checkT_elsewhere (key : Key) (value : Value) :
  key <> KStr "formula" ->
  checkT key value = checkT (KIdx 0) (entryOf (KIdx 0) (at_ value key)).
Proof.
  intros Hkey. unfold checkT. rewrite at_entryOf. cbn zeta.
  destruct key as [k|i]; [|reflexivity].
  rewrite bool_decide_eq_false_2; [reflexivity|].
  unfold keysToAddT. rewrite elem_of_singleton. intros ->. apply Hkey. reflexivity.
Qed.

(** C3, as the code has it.  At a tagged-union node, for a tag outside the
    ignore-set (and other than the marker names ['_T_'], ['@_type'] and
    ['xmlType']) and fields that carry neither ['_T_'] nor ['@_type']: the
    fetch turns [{_T_: tag, ...fields}] into [{tag: fields}]; on deploy
    [deployTransformFunc] marks [{tag: fields}] as [{tag: fields, _T_: tag}];
    [checkT] collapses that to [{_T_: tag, ...fields}], the mapping the fetch
    started from, wherever the marked mapping is the entry of an object under
    a key other than ['formula'] or an item of an array, and returns the
    marked mapping as it is under the key ['formula'].  For a tag of the
    ignore-set the fetch drops ['_T_'] and keeps the fields; on deploy
    [checkT] leaves a mapping without ['_T_'] and ['xmlType'] unchanged under
    any key but ['formula'] and at any index; under ['formula'] it puts
    ['_T_': 'formula'] back. *)
Theorem tagged_union_collapse_expand
    (tag : string) (fields : gmap string Value) field path src els ty :
  fields !! T = None ->
  fields !! TYPE = None ->
  isTaggedUnionNode (resolvedFieldType field path ty) = true ->
  (tag ∉ TValuesToIgnore -> tag <> T -> tag <> TYPE -> tag <> "xmlType" ->
     fetched (VObj (<[ T := VStr tag ]> fields)) field path src els ty
     = VObj {[ tag := VObj fields ]}
     /\ deployTransformFunc (mkArgs (VObj {[ tag := VObj fields ]}) field path) ty
        = Some (VObj {[ tag := VObj fields; T := VStr tag ]})
     /\ (forall key : Key, key <> KStr "formula" ->
           checkT key
             (entryOf key (VObj {[ tag := VObj fields; T := VStr tag ]}))
           = VObj (<[ T := VStr tag ]> fields))
     /\ checkT (KStr "formula")
          (entryOf (KStr "formula") (VObj {[ tag := VObj fields; T := VStr tag ]}))
        = VObj {[ tag := VObj fields; T := VStr tag ]})
  /\ (tag ∈ TValuesToIgnore ->
       fetched (VObj (<[ T := VStr tag ]> fields)) field path src els ty
       = VObj fields)
  /\ (fields !! "xmlType" = None ->
       forall key : Key, key <> KStr "formula" ->
         checkT key (entryOf key (VObj fields)) = VObj fields)
  /\ checkT (KStr "formula") (entryOf (KStr "formula") (VObj fields))
     = VObj (<[ T := VStr "formula" ]> fields).
Proof.
  intros HT HTYPE Hunion.
  assert (Hwrap : isSentinelWrapper (<[ T := VStr tag ]> fields) = false).
  { unfold isSentinelWrapper, has. rewrite lookup_insert_ne by discriminate.
    rewrite HTYPE. reflexivity. }
  assert (Hhas : has T (<[ T := VStr tag ]> fields) = true).
  { unfold has. rewrite lookup_insert_eq. reflexivity. }
  assert (Hfetch :
            fetched (VObj (<[ T := VStr tag ]> fields)) field path src els ty
            = if bool_decide (tag ∈ TValuesToIgnore) then VObj fields
              else VObj {[ tag := VObj fields ]}).
  { unfold fetched. rewrite (fetch_discriminator _ _ _ _ _ _ Hwrap Hhas).
    cbn zeta. rewrite Hunion. cbn [snd].
    rewrite prop_insert_eq. cbn [Set_has String_]. unfold omit.
    rewrite delete_insert_id by exact HT. reflexivity. }
  repeat match goal with |- _ /\ _ => split end.
  - intros Hout HneT HneTYPE Hnex.
    repeat match goal with |- _ /\ _ => split end.
    + rewrite Hfetch, bool_decide_eq_false_2 by exact Hout. reflexivity.
    + unfold deployTransformFunc. cbn [arg_value arg_field arg_path].
      unfold isTaggedUnionNode, resolvedFieldType in Hunion.
      destruct (if pathHasFourParts path then Some ty else getType <$> field)
        as [[id | inner | id typeAnn typeFlds]|]; try discriminate Hunion.
      cbn in Hunion.
      assert (Hty : has TYPE ({[ tag := VObj fields ]} : gmap string Value) = false).
      { unfold has. rewrite lookup_singleton_ne by congruence. reflexivity. }
      rewrite Hty, Hunion, Object_keys_singleton. cbn.
      do 2 f_equal. apply insert_insert_ne.
      intros Heq. apply HneT. symmetry. exact Heq.
    + intros key Hkey. rewrite (checkT_elsewhere _ _ Hkey), at_entryOf.
      unfold checkT. rewrite at_entryOf. cbn zeta.
      rewrite bool_decide_eq_false_2.
      2:{ rewrite elem_of_Object_keys. intros [v Hv].
          apply lookup_insert_Some in Hv as [[-> _] | [_ Hv]]; [congruence|].
          apply lookup_singleton_Some in Hv as [Heq _]. discriminate Heq. }
      rewrite length_Object_keys, map_size_insert_None, map_size_singleton
        by (rewrite lookup_singleton_ne; congruence).
      rewrite bool_decide_eq_true_2.
      2:{ rewrite elem_of_Object_keys, lookup_insert_ne, lookup_singleton_eq
            by congruence. eauto. }
      cbn [Nat.eqb andb]. rewrite otherKey_of_marked by exact HneT. cbn [hd].
      rewrite prop_insert_eq. unfold prop.
      rewrite lookup_insert_ne, lookup_singleton_eq by congruence.
      unfold withSpread, ownProps, default, from_option, id.
      f_equal. symmetry. apply insert_union_singleton_r. exact HT.
    + unfold checkT. rewrite at_entryOf.
      rewrite bool_decide_eq_true_2 by set_solver.
      unfold withSpread, ownProps. f_equal. apply map_eq. intros j.
      rewrite lookup_union.
      destruct (decide (j = T)) as [->|Hj].
      * rewrite lookup_insert_ne, !lookup_singleton_eq by congruence. reflexivity.
      * rewrite (lookup_singleton_ne T j) by congruence.
        destruct (_ !! j); reflexivity.
  - intros Hin. rewrite Hfetch, bool_decide_eq_true_2 by exact Hin. reflexivity.
  - intros Hx key Hkey. rewrite (checkT_elsewhere _ _ Hkey), at_entryOf.
    unfold checkT. rewrite at_entryOf. cbn zeta.
    rewrite bool_decide_eq_false_2.
    2:{ rewrite elem_of_Object_keys, Hx. intros [? ?]; discriminate. }
    rewrite (bool_decide_eq_false_2 (T ∈ Object_keys fields)).
    2:{ rewrite elem_of_Object_keys, HT. intros [? ?]; discriminate. }
    rewrite andb_false_r. reflexivity.
  - unfold checkT. rewrite at_entryOf.
    rewrite bool_decide_eq_true_2 by set_solver.
    unfold withSpread, ownProps. f_equal. symmetry.
    apply insert_union_singleton_r. exact HT.
Qed.

(** An instance of [tagged_union_collapse_expand]: a [condition] of a
    dataset's criteria. *)
Lemma tagged_union_collapse_expand_witness :
  fetched (VObj {[ T := VStr "condition"; "children" := VNull ]})
          (Some criteriaField) (Some somePath) noSource [] datasetType
  = VObj {[ "condition" := VObj {[ "children" := VNull ]} ]}
  /\ deployTransformFunc
       (mkArgs (VObj {[ "condition" := VObj {[ "children" := VNull ]} ]})
               (Some criteriaField) (Some somePath)) datasetType
     = Some (VObj {[ "condition" := VObj {[ "children" := VNull ]};
                     T := VStr "condition" ]})
  /\ (forall key : Key, key <> KStr "formula" ->
        checkT key
          (entryOf key (VObj {[ "condition" := VObj {[ "children" := VNull ]};
                                T := VStr "condition" ]}))
        = VObj {[ T := VStr "condition"; "children" := VNull ]})
  /\ checkT (KStr "formula")
       (entryOf (KStr "formula")
          (VObj {[ "condition" := VObj {[ "children" := VNull ]};
                   T := VStr "condition" ]}))
     = VObj {[ "condition" := VObj {[ "children" := VNull ]};
               T := VStr "condition" ]}.
Proof.
  apply (tagged_union_collapse_expand "condition" {[ "children" := VNull ]}
           (Some criteriaField) (Some somePath) noSource [] datasetType);
    first [ reflexivity | discriminate | set_solver ].
Defined.

(** C3, counterexample.  The tag ['formula'] is in the ignore-set: at a
    tagged-union node the fetch of [{_T_: 'formula', field1: 'x'}] drops the
    discriminator instead of nesting the fields under ['formula'], and on
    deploy the mapping [{field1: 'x'}] under the key ['formula'] does not pass
    unchanged: [checkT] puts the discriminator back. *)
Lemma formula_tag_is_ignored_on_fetch_only :
  fetched (VObj {[ T := VStr "formula"; "field1" := VStr "x" ]})
          (Some (mkField ∅ formulaFormulaType)) (Some somePath) noSource []
          datasetType
  = VObj {[ "field1" := VStr "x" ]}
  /\ fetched (VObj {[ T := VStr "formula"; "field1" := VStr "x" ]})
             (Some (mkField ∅ formulaFormulaType)) (Some somePath) noSource []
             datasetType
     <> VObj {[ "formula" := VObj {[ "field1" := VStr "x" ]} ]}
  /\ checkT (KStr "formula") (VObj {[ "formula" := VObj {[ "field1" := VStr "x" ]} ]})
     = VObj {[ T := VStr "formula"; "field1" := VStr "x" ]}
  /\ checkT (KStr "formula") (VObj {[ "formula" := VObj {[ "field1" := VStr "x" ]} ]})
     <> VObj {[ "field1" := VStr "x" ]}.
Proof.
  split; [reflexivity|]. split.
  { intros H. apply (f_equal (fun v => get v "formula")) in H.
    vm_compute in H. discriminate H. }
  split; [reflexivity|].
  intros H. apply (f_equal (fun v => get v T)) in H.
  vm_compute in H. discriminate H.
Qed.

(** *** Translation references *)

(** C6, as the code has it.  With a translation collection
    [custcollectiontranslations123] at hand whose string [greeting] has a
    [scriptid], the fetch turns ["custcollectiontranslations123.greeting"] into
    the reference to that [scriptid]; the full name of the reference matches
    the translation pattern, and on deploy [checkReference] turns it back into
    the string the fetch started from. *)
Theorem translation_reference_round_trip
    field path src els ty (collection : Element) (parent : gmap string Value) :
  locateCollection "custcollectiontranslations123" src els = Some collection ->
  isUndefined (scriptidOf collection "greeting") = false ->
  parent !! "translationScriptId"
  = Some (translationReference "custcollectiontranslations123" "greeting") ->
  fetched (VStr "custcollectiontranslations123.greeting") field path src els ty
  = translationReference "custcollectiontranslations123" "greeting"
  /\ checkReferenceToTranslation
       "netsuite.translationcollection.instance.custcollectiontranslations123.strings.string.greeting.scriptid"
     = true
  /\ checkReference "translationScriptId" (VObj parent)
     = Some (VStr "custcollectiontranslations123.greeting").
Proof.
  intros Hloc Hid Hparent. split; [|split].
  - rewrite fetched_string.
    rewrite (translationBlock_two_parts _ "custcollectiontranslations123" "greeting")
      by reflexivity.
    rewrite Hloc, Hid. reflexivity.
  - vm_compute. reflexivity.
  - unfold checkReference. cbn [get]. unfold prop. rewrite Hparent.
    vm_compute. reflexivity.
Qed.

(** An instance of [translation_reference_round_trip]: the collection is among
    the elements of the fetch. *)
Lemma translation_reference_round_trip_witness :
  fetched (VStr "custcollectiontranslations123.greeting")
          (Some stringField) (Some somePath) noSource [translations] datasetType
  = translationReference "custcollectiontranslations123" "greeting"
  /\ checkReferenceToTranslation
       "netsuite.translationcollection.instance.custcollectiontranslations123.strings.string.greeting.scriptid"
     = true
  /\ checkReference "translationScriptId"
       (VObj {[ "translationScriptId" :=
                  translationReference "custcollectiontranslations123" "greeting" ]})
     = Some (VStr "custcollectiontranslations123.greeting").
Proof.
  apply (translation_reference_round_trip
           (Some stringField) (Some somePath) noSource [translations] datasetType
           translations); reflexivity.
Defined.

(** C6, counterexample.  Deploying the reference gives back
    ["custcollectiontranslations123.greeting"], not ["123.greeting"]. *)
Lemma deployed_reference_keeps_prefix :
  checkReference "translationScriptId"
    (VObj {[ "translationScriptId" :=
               translationReference "custcollectiontranslations123" "greeting" ]})
  = Some (VStr "custcollectiontranslations123.greeting")
  /\ checkReference "translationScriptId"
       (VObj {[ "translationScriptId" :=
                  translationReference "custcollectiontranslations123" "greeting" ]})
     <> Some (VStr "123.greeting").
Proof. split; [reflexivity|discriminate]. Qed.

End RoundTripProps.

(** ** The matcher and the languages of the two patterns *)

Module RegexProps.
Import Regex Language.

#[local] Arguments String.append !_ _ / : simpl nomatch.

Lemma append_nil_r (s : string) : s ++ "" = s.
Proof. induction s as [|c s IH]; cbn; [reflexivity | rewrite IH; reflexivity]. Qed.

Lemma append_assoc (a b c : string) : (a ++ b) ++ c = a ++ (b ++ c).
Proof. induction a as [|x a IH]; cbn; [reflexivity | rewrite IH; reflexivity]. Qed.

Lemma lang_Void_inv s : ~ lang Void s.
Proof. intros H. inversion H. Qed.

Lemma lang_Eps_inv s : lang Eps s -> s = "".
Proof. intros H. inversion H. reflexivity. Qed.

Lemma lang_Cls_inv p s : lang (Cls p) s -> exists c, s = String c "" /\ p c = true.
Proof. intros H. inversion H; subst. eauto. Qed.

Lemma lang_Cat_inv r s x :
  lang (Cat r s) x -> exists a b, x = a ++ b /\ lang r a /\ lang s b.
Proof. intros H. inversion H; subst. eauto. Qed.

Lemma lang_Alt_inv r s x : lang (Alt r s) x -> lang r x \/ lang s x.
Proof. intros H. inversion H; subst; auto. Qed.

(** A non-empty string of a starred language begins with a non-empty string
    of the language itself. *)
Lemma lang_Star_cons_inv r c x :
  lang (Star r) (String c x) ->
  exists a b, x = a ++ b /\ lang r (String c a) /\ lang (Star r) b.
Proof.
  intros H. remember (Star r) as sr eqn:Hsr. remember (String c x) as cx eqn:Hcx.
  revert c x Hcx.
  induction H as [| | | | | r' | r' a b Ha _ Hb IHb]; intros c0 x0 Hcx;
    try discriminate Hsr.
  - discriminate Hcx.
  - injection Hsr as ->.
    destruct a as [|c' a'].
    + cbn in Hcx. apply IHb; [reflexivity | exact Hcx].
    + cbn in Hcx. injection Hcx as -> <-. exists a', b. auto.
Qed.

Lemma lang_alt r s x : lang (alt r s) x <-> lang (Alt r s) x.
Proof.
  split.
  - destruct r, s; cbn; intros H;
      solve [ exact H | apply lang_Alt_r; exact H | apply lang_Alt_l; exact H ].
  - intros H. apply lang_Alt_inv in H as [H|H];
      destruct r, s; cbn;
      solve [ exact H | apply lang_Alt_l; exact H | apply lang_Alt_r; exact H
            | exfalso; exact (lang_Void_inv _ H) ].
Qed.

Lemma lang_cat r s x : lang (cat r s) x <-> lang (Cat r s) x.
Proof.
  split.
  - destruct r, s; cbn; intros H;
      solve [ exact H | exfalso; exact (lang_Void_inv _ H)
            | apply (lang_Cat Eps _ "" x lang_Eps H) ].
  - intros H. apply lang_Cat_inv in H as (a & b & -> & Ha & Hb).
    destruct r, s; cbn;
      solve [ apply lang_Cat; assumption
            | exfalso; exact (lang_Void_inv _ Ha)
            | exfalso; exact (lang_Void_inv _ Hb)
            | apply lang_Eps_inv in Ha; subst a; exact Hb ].
Qed.

Lemma nullable_lang r : nullable r = true <-> lang r "".
Proof.
  induction r as [| |p|r IHr s IHs|r IHr s IHs|r IHr]; cbn.
  - split; [discriminate | intros H; inversion H].
  - split; [intros _; constructor | reflexivity].
  - split; [discriminate | intros H; inversion H].
  - rewrite andb_true_iff, IHr, IHs. split.
    + intros [Ha Hb]. apply (lang_Cat r s "" "" Ha Hb).
    + intros H. apply lang_Cat_inv in H as (a & b & Hab & Ha & Hb).
      destruct a; [|discriminate Hab]. cbn in Hab. subst b. auto.
  - rewrite orb_true_iff, IHr, IHs. split.
    + intros [H|H]; [apply lang_Alt_l | apply lang_Alt_r]; exact H.
    + apply lang_Alt_inv.
  - split; [intros _; constructor | reflexivity].
Qed.

Lemma deriv_lang c r x : lang (deriv c r) x <-> lang r (String c x).
Proof.
  revert x. induction r as [| |p|r IHr s IHs|r IHr s IHs|r IHr]; intros x; cbn.
  - split; intros H; inversion H.
  - split; intros H; inversion H.
  - destruct (p c) eqn:Hp.
    + split.
      * intros H. apply lang_Eps_inv in H. subst. constructor. exact Hp.
      * intros H. apply lang_Cls_inv in H as (c' & Heq & _).
        injection Heq as _ ->. constructor.
    + split; [intros H; inversion H|].
      intros H. apply lang_Cls_inv in H as (c' & Heq & Hc').
      injection Heq as -> _. congruence.
  - assert (Hcat : lang (cat (deriv c r) s) x <->
                    exists a b, x = a ++ b /\ lang r (String c a) /\ lang s b).
    { rewrite lang_cat. split.
      - intros H. apply lang_Cat_inv in H as (a & b & -> & Ha & Hb).
        exists a, b. rewrite <- IHr. auto.
      - intros (a & b & -> & Ha & Hb). apply lang_Cat; [apply IHr|]; assumption. }
    destruct (nullable r) eqn:Hn.
    + rewrite lang_alt. split.
      * intros H. apply lang_Alt_inv in H as [H|H].
        -- apply Hcat in H as (a & b & -> & Ha & Hb).
           apply (lang_Cat r s (String c a) b Ha Hb).
        -- apply IHs in H. apply nullable_lang in Hn.
           apply (lang_Cat r s "" (String c x) Hn H).
      * intros H. apply lang_Cat_inv in H as (a & b & Hab & Ha & Hb).
        destruct a as [|c' a'].
        -- cbn in Hab. subst b. apply lang_Alt_r, IHs, Hb.
        -- cbn in Hab. injection Hab as -> ->.
           apply lang_Alt_l, Hcat. eauto.
    + rewrite Hcat. split.
      * intros (a & b & -> & Ha & Hb). apply (lang_Cat r s (String c a) b Ha Hb).
      * intros H. apply lang_Cat_inv in H as (a & b & Hab & Ha & Hb).
        destruct a as [|c' a'].
        -- apply nullable_lang in Ha. congruence.
        -- cbn in Hab. injection Hab as -> ->. eauto.
  - rewrite lang_alt. split.
    + intros H. apply lang_Alt_inv in H as [H|H];
        [apply lang_Alt_l, IHr | apply lang_Alt_r, IHs]; exact H.
    + intros H. apply lang_Alt_inv in H as [H|H];
        [apply lang_Alt_l, IHr | apply lang_Alt_r, IHs]; exact H.
  - rewrite lang_cat. split.
    + intros H. apply lang_Cat_inv in H as (a & b & -> & Ha & Hb).
      apply IHr in Ha. apply (lang_Star_app r (String c a) b Ha Hb).
    + intros H. apply lang_Star_cons_inv in H as (a & b & -> & Ha & Hb).
      apply lang_Cat; [apply IHr|]; assumption.
Qed.

(** The matcher decides membership in the language of the expression. *)
Lemma matches_lang r s : matches r s = true <-> lang r s.
Proof.
  revert r. induction s as [|c s IH]; intros r; cbn.
  - apply nullable_lang.
  - rewrite IH. apply deriv_lang.
Qed.

Lemma lang_Star_Cls p s : lang (Star (Cls p)) s <-> allChars p s = true.
Proof.
  split.
  - revert s. induction s as [|c s IH]; intros H; [reflexivity|].
    apply lang_Star_cons_inv in H as (a & b & -> & Ha & Hb).
    apply lang_Cls_inv in Ha as (c' & Heq & Hc').
    injection Heq as -> Ha. subst a. cbn in *.
    rewrite Hc'. apply IH, Hb.
  - induction s as [|c s IH]; cbn; intros H; [constructor|].
    apply andb_true_iff in H as [Hc Hs].
    apply (lang_Star_app (Cls p) (String c "") s); [constructor; exact Hc | auto].
Qed.

Lemma lang_plus_Cls p s :
  lang (plus (Cls p)) s <-> negb (String.eqb s "") && allChars p s = true.
Proof.
  unfold plus. split.
  - intros H. apply lang_Cat_inv in H as (a & b & -> & Ha & Hb).
    apply lang_Cls_inv in Ha as (c & -> & Hc).
    apply lang_Star_Cls in Hb. cbn. rewrite Hc, Hb. reflexivity.
  - destruct s as [|c s]; [discriminate|]. cbn. intros H.
    apply andb_true_iff in H as [Hc Hs].
    apply (lang_Cat (Cls p) (Star (Cls p)) (String c "") s);
      [constructor; exact Hc | apply lang_Star_Cls, Hs].
Qed.

Lemma lang_word w : lang (plus word) w <-> isWordString w = true.
Proof. apply lang_plus_Cls. Qed.

Lemma lang_dotted p x : lang (dotted p) x <-> follows p x = true.
Proof.
  revert x. induction p as [|pc p IH]; intros x; cbn.
  - split.
    + intros H. apply lang_Eps_inv in H. subst. reflexivity.
    + destruct x; [constructor | discriminate].
  - split.
    + intros H. apply lang_Cat_inv in H as (a & b & -> & Ha & Hb).
      apply IH in Hb.
      destruct (Ascii.eqb pc ".");
        apply lang_Cls_inv in Ha as (c & -> & Hc); cbn; rewrite Hc, Hb; reflexivity.
    + destruct x as [|xc x]; [discriminate|]. intros H.
      apply andb_true_iff in H as [Hc Hx]. apply IH in Hx.
      apply (lang_Cat _ (dotted p) (String xc "") x); [|exact Hx].
      destruct (Ascii.eqb pc "."); constructor; exact Hc.
Qed.

Lemma follows_refl p : allChars isDot p = true -> follows p p = true.
Proof.
  induction p as [|c p IH]; cbn; [reflexivity|]. intros H.
  apply andb_true_iff in H as [Hc Hp]. rewrite (IH Hp), Hc, Ascii.eqb_refl.
  destruct (Ascii.eqb c "."); reflexivity.
Qed.

End RegexProps.

(** ** Translation references, in general *)

Module TranslationProps.
Import JS Adapter Loops ParseAnalytics Notions Fixtures Regex Language.
Import RegexProps FetchProps.

#[local] Arguments String.append !_ _ / : simpl nomatch.

(** A name put together along the pattern is accepted. *)
Lemma assembled_name_is_accepted (a w1 b w2 c : string) :
  follows "netsuite.translationcollection.instance." a = true ->
  isWordString w1 = true ->
  follows ".strings.string." b = true ->
  isWordString w2 = true ->
  follows ".scriptid" c = true ->
  checkReferenceToTranslation (a ++ w1 ++ b ++ w2 ++ c) = true.
Proof.
  intros Ha Hw1 Hb Hw2 Hc.
  unfold checkReferenceToTranslation, translationPattern. rewrite matches_lang.
  cbn [seqs]. rewrite <- (append_nil_r c).
  repeat (apply lang_Cat;
          [first [apply lang_dotted | apply lang_word]; assumption|]).
  constructor.
Qed.

(** X1. [checkReferenceToTranslation] accepts exactly the names made of the three
    fixed stretches of the pattern, each dot of which stands for any character
    but a line terminator, around two non-empty runs of word characters. *)
Theorem checkReferenceToTranslation_accepts (name : string) :
  checkReferenceToTranslation name = true <->
  exists a w1 b w2 c,
    name = a ++ w1 ++ b ++ w2 ++ c
    /\ follows "netsuite.translationcollection.instance." a = true
    /\ isWordString w1 = true
    /\ follows ".strings.string." b = true
    /\ isWordString w2 = true
    /\ follows ".scriptid" c = true.
Proof.
  split.
  - unfold checkReferenceToTranslation, translationPattern. rewrite matches_lang.
    cbn [seqs]. intros H.
    apply lang_Cat_inv in H as (a & x1 & -> & Ha & H).
    apply lang_Cat_inv in H as (w1 & x2 & -> & Hw1 & H).
    apply lang_Cat_inv in H as (b & x3 & -> & Hb & H).
    apply lang_Cat_inv in H as (w2 & x4 & -> & Hw2 & H).
    apply lang_Cat_inv in H as (c & x5 & -> & Hc & H).
    apply lang_Eps_inv in H. subst x5. rewrite append_nil_r.
    exists a, w1, b, w2, c.
    rewrite <- !lang_dotted, <- !lang_word. auto 10.
  - intros (a & w1 & b & w2 & c & -> & Ha & Hw1 & Hb & Hw2 & Hc).
    apply assembled_name_is_accepted; assumption.
Qed.

(** *** Splitting and joining on dots *)

Lemma splitOn_nonempty sep s : splitOn sep s <> [].
Proof.
  destruct s as [|c s]; cbn; [discriminate|].
  destruct (Ascii.eqb c sep); [discriminate|].
  destruct (splitOn sep s); discriminate.
Qed.

Lemma split_dot_dotFree s : dotFree s = true -> split_dot s = [s].
Proof.
  unfold split_dot, dotFree.
  induction s as [|c s IH]; cbn; [reflexivity|]. intros H.
  apply andb_true_iff in H as [Hc Hs]. apply negb_true_iff in Hc.
  rewrite Hc, (IH Hs). reflexivity.
Qed.

Lemma split_dot_app s rest :
  dotFree s = true ->
  split_dot (s ++ "." ++ rest) = s :: split_dot rest.
Proof.
  unfold split_dot, dotFree.
  induction s as [|c s IH]; cbn; [reflexivity|]. intros H.
  apply andb_true_iff in H as [Hc Hs]. apply negb_true_iff in Hc.
  cbn in IH. rewrite Hc, (IH Hs). reflexivity.
Qed.

(** Splitting a dot-joined list of dot-free parts gives the parts back. *)
Lemma split_dot_join (parts : list string) :
  parts <> [] ->
  forallb dotFree parts = true ->
  split_dot (join "." parts) = parts.
Proof.
  induction parts as [|p parts IH]; [congruence|]. intros _ H.
  cbn in H. apply andb_true_iff in H as [Hp Hparts].
  destruct parts as [|q parts].
  - cbn. apply split_dot_dotFree, Hp.
  - change (join "." (p :: q :: parts)) with (p ++ "." ++ join "." (q :: parts)).
    rewrite (split_dot_app _ _ Hp), IH; [reflexivity | discriminate | exact Hparts].
Qed.

Lemma isWordString_dotFree w : isWordString w = true -> dotFree w = true.
Proof.
  unfold isWordString, dotFree. intros H. apply andb_true_iff in H as [_ H].
  induction w as [|c w IH]; [reflexivity|]. cbn in *.
  apply andb_true_iff in H as [Hc Hw]. rewrite (IH Hw), andb_true_r.
  destruct (Ascii.eqb c ".") eqn:E; [|reflexivity].
  apply Ascii.eqb_eq in E. subst c. discriminate Hc.
Qed.

Lemma isWordString_nonempty w : isWordString w = true -> String.eqb w "" = false.
Proof.
  unfold isWordString. intros H. apply andb_true_iff in H as [H _].
  apply negb_true_iff, H.
Qed.

Lemma prefix_app p s t :
  String.prefix p s = true -> String.prefix p (s ++ t) = true.
Proof.
  revert p. induction s as [|d s IH]; intros p H.
  - destruct p; [|discriminate]. cbn. destruct t; reflexivity.
  - destruct p as [|c p]; [reflexivity|]. cbn in *.
    destruct (ascii_dec c d); [auto | discriminate].
Qed.

(** *** The round trip of a translation reference *)

Lemma checkReference_translation (parent : gmap string Value) id :
  parent !! "translationScriptId" = Some (VRef id) ->
  checkReference "translationScriptId" (VObj parent) =
    if checkReferenceToTranslation (getFullName id) then
      part3 ← split_dot (getFullName id) !! 3;
      Some (VStr (part3 ++ "." ++ default "undefined" (split_dot (getFullName id) !! 6)))
    else Some (VStr (getFullName id)).
Proof.
  intros H. unfold checkReference. cbn [get]. unfold prop. rewrite H. reflexivity.
Qed.

Lemma translationReference_parts part0 part1 :
  isWordString part0 = true ->
  isWordString part1 = true ->
  getFullNameParts
    (mkElemID NETSUITE "translationcollection" "instance"
       [part0; "strings"; "string"; part1; "scriptid"])
  = ["netsuite"; "translationcollection"; "instance"; part0;
     "strings"; "string"; part1; "scriptid"].
Proof.
  intros H0 H1. unfold getFullNameParts. cbn.
  rewrite (isWordString_nonempty _ H0), (isWordString_nonempty _ H1). reflexivity.
Qed.

(** X2. Whatever the ids, as long as both are non-empty runs of word characters:
    a translation string that the fetch resolves comes back from
    [checkReference] as the string it was. *)
Theorem translation_round_trip
    (part0 part1 : string) field path src els ty
    (collection : Element) (parent : gmap string Value) :
  isWordString part0 = true ->
  isWordString part1 = true ->
  startsWith part0 "custcollectiontranslations" = true ->
  locateCollection part0 src els = Some collection ->
  isUndefined (scriptidOf collection part1) = false ->
  parent !! "translationScriptId" = Some (translationReference part0 part1) ->
  fetched (VStr (part0 ++ "." ++ part1)) field path src els ty
  = translationReference part0 part1
  /\ checkReference "translationScriptId" (VObj parent)
     = Some (VStr (part0 ++ "." ++ part1)).
Proof.
  intros H0 H1 Hprefix Hloc Hid Hparent.
  pose proof (isWordString_dotFree _ H0) as Hd0.
  pose proof (isWordString_dotFree _ H1) as Hd1.
  split.
  - rewrite fetched_string.
    rewrite (translationBlock_two_parts _ part0 part1).
    + rewrite Hloc, Hid. reflexivity.
    + apply prefix_app, Hprefix.
    + rewrite (split_dot_app _ _ Hd0), (split_dot_dotFree _ Hd1). reflexivity.
  - unfold translationReference in Hparent.
    rewrite (checkReference_translation _ _ Hparent).
    unfold getFullName. rewrite (translationReference_parts _ _ H0 H1).
    assert (Hmatch :
              checkReferenceToTranslation
                (join "." ["netsuite"; "translationcollection"; "instance"; part0;
                           "strings"; "string"; part1; "scriptid"]) = true).
    { change (join "." ["netsuite"; "translationcollection"; "instance"; part0;
                        "strings"; "string"; part1; "scriptid"])
        with ("netsuite.translationcollection.instance." ++ part0
              ++ ".strings.string." ++ part1 ++ ".scriptid").
      apply assembled_name_is_accepted; solve [ reflexivity | assumption ]. }
    rewrite Hmatch, split_dot_join.
    + reflexivity.
    + discriminate.
    + cbn [forallb]. rewrite Hd0, Hd1. reflexivity.
Qed.

(** X2, witness.  An instance of [translation_round_trip]. *)
Lemma translation_round_trip_witness :
  fetched (VStr ("custcollectiontranslations123" ++ "." ++ "greeting"))
          (Some stringField) (Some somePath) noSource [translations] datasetType
  = translationReference "custcollectiontranslations123" "greeting"
  /\ checkReference "translationScriptId"
       (VObj {[ "translationScriptId" :=
                  translationReference "custcollectiontranslations123" "greeting" ]})
     = Some (VStr ("custcollectiontranslations123" ++ "." ++ "greeting")).
Proof.
  apply (translation_round_trip "custcollectiontranslations123" "greeting"
           (Some stringField) (Some somePath) noSource [translations] datasetType
           translations); reflexivity.
Defined.

End TranslationProps.

(** ** Which strings the deploy wraps *)

Module NumericProps.
Import JS Adapter Loops ParseAnalytics Notions Fixtures Regex Language NumericString.
Import RegexProps.

#[local] Arguments String.append !_ _ / : simpl nomatch.

Lemma allChars_app p a b :
  allChars p (a ++ b) = allChars p a && allChars p b.
Proof.
  induction a as [|c a IH]; cbn; [reflexivity|].
  rewrite IH, andb_assoc. reflexivity.
Qed.

Lemma allChars_weaken (p q : ascii -> bool) s :
  (forall c, p c = true -> q c = true) ->
  allChars p s = true -> allChars q s = true.
Proof.
  intros Hpq. induction s as [|c s IH]; cbn; [reflexivity|]. intros H.
  apply andb_true_iff in H as [Hc Hs]. rewrite (Hpq _ Hc), (IH Hs). reflexivity.
Qed.

(** Every character of a string of the language is accepted by some class of
    the expression. *)
Lemma lang_occurs r s : lang r s -> allChars (occurs r) s = true.
Proof.
  induction 1 as [|p c Hc|r s a b _ IHa _ IHb|r s a _ IH|r s a _ IH
                  |r|r a b _ IHa _ IHb].
  - reflexivity.
  - cbn. rewrite Hc. reflexivity.
  - rewrite allChars_app. apply andb_true_iff. split.
    + apply (allChars_weaken (occurs r)); [|exact IHa].
      intros c Hc. cbn. rewrite Hc. reflexivity.
    + apply (allChars_weaken (occurs s)); [|exact IHb].
      intros c Hc. cbn. rewrite Hc. apply orb_true_r.
  - apply (allChars_weaken (occurs r)); [|exact IH].
    intros c Hc. cbn. rewrite Hc. reflexivity.
  - apply (allChars_weaken (occurs s)); [|exact IH].
    intros c Hc. cbn. rewrite Hc. apply orb_true_r.
  - reflexivity.
  - rewrite allChars_app. apply andb_true_iff. split; [|exact IHb].
    apply (allChars_weaken (occurs r)); [|exact IHa].
    intros c Hc. exact Hc.
Qed.

Lemma lang_sign sign :
  In sign [""; "+"; "-"] -> lang (opt (oneOf "+-")) sign.
Proof.
  intros [<- | [<- | [<- | []]]]; unfold opt.
  - apply lang_Alt_l. constructor.
  - apply lang_Alt_r. constructor. reflexivity.
  - apply lang_Alt_r. constructor. reflexivity.
Qed.

Lemma lang_blank ws : isBlank ws = true -> lang (Star (Cls isStrWhiteSpaceChar)) ws.
Proof. apply lang_Star_Cls. Qed.

Lemma isNumberStr_blank ws : isBlank ws = true -> isNumberStr ws = true.
Proof.
  intros H. unfold isNumberStr, Number_notNaN. apply matches_lang.
  unfold StringNumericLiteral. rewrite <- (append_nil_r ws).
  apply lang_Cat; [apply lang_blank, H|]. apply lang_Alt_l. constructor.
Qed.

Lemma isNumberStr_integer ws1 sign digits ws2 :
  isBlank ws1 = true ->
  In sign [""; "+"; "-"] ->
  isDigitString digits = true ->
  isBlank ws2 = true ->
  isNumberStr (ws1 ++ sign ++ digits ++ ws2) = true.
Proof.
  intros H1 Hsign Hd H2. unfold isNumberStr, Number_notNaN. apply matches_lang.
  unfold StringNumericLiteral.
  apply lang_Cat; [apply lang_blank, H1|]. apply lang_Alt_r.
  rewrite <- append_assoc. apply lang_Cat; [|apply lang_blank, H2].
  apply lang_Alt_l. unfold StrDecimalLiteral.
  apply lang_Cat; [apply lang_sign, Hsign|].
  unfold StrUnsignedDecimalLiteral. do 3 apply lang_Alt_r.
  rewrite <- (append_nil_r digits).
  apply lang_Cat; [apply lang_plus_Cls, Hd|]. apply lang_Alt_l. constructor.
Qed.

Lemma isNumberStr_foreign s :
  allChars isNumeralChar s = false -> isNumberStr s = false.
Proof.
  intros H. unfold isNumberStr, Number_notNaN.
  destruct (matches StringNumericLiteral s) eqn:Hm; [|reflexivity].
  apply matches_lang, lang_occurs in Hm.
  assert (Hall : allChars isNumeralChar s = true).
  { apply (allChars_weaken (occurs StringNumericLiteral)); [|exact Hm].
    intros c Hc. exact Hc. }
  congruence.
Qed.

(** X3. [checkTypeField] wraps every string that is a run of decimal digits,
    signed or not, with white space around it or not, and every string of
    white space only, the empty string among them. *)
Theorem checkTypeField_wraps_integers_and_blanks
    (key : Key) (value : Value) (ws1 sign digits ws2 : string) :
  isBlank ws1 = true ->
  In sign [""; "+"; "-"] ->
  isBlank ws2 = true ->
  (isDigitString digits = true ->
   at_ value key = VStr (ws1 ++ sign ++ digits ++ ws2) ->
   checkTypeField key value
   = VObj {[ TYPE := VStr "string"; TEXT := VStr (ws1 ++ sign ++ digits ++ ws2) ]})
  /\ (at_ value key = VStr ws1 ->
      checkTypeField key value = VObj {[ TYPE := VStr "string"; TEXT := VStr ws1 ]}).
Proof.
  intros H1 Hsign H2. split.
  - intros Hd Hv. unfold checkTypeField. rewrite Hv.
    rewrite (isNumberStr_integer _ _ _ _ H1 Hsign Hd H2). reflexivity.
  - intros Hv. unfold checkTypeField. rewrite Hv, (isNumberStr_blank _ H1).
    reflexivity.
Qed.

(** X3, witness.  An instance of [checkTypeField_wraps_integers_and_blanks]: the empty
    string, and an identifier made of digits. *)
Lemma checkTypeField_wraps_integers_and_blanks_witness :
  (checkTypeField (KStr "id") (VObj {[ "id" := VStr ("" ++ "" ++ "42" ++ "") ]})
   = VObj {[ TYPE := VStr "string"; TEXT := VStr ("" ++ "" ++ "42" ++ "") ]})
  /\ checkTypeField (KStr "label") (VObj {[ "label" := VStr "" ]})
     = VObj {[ TYPE := VStr "string"; TEXT := VStr "" ]}.
Proof.
  split.
  - apply (checkTypeField_wraps_integers_and_blanks
             (KStr "id") (VObj {[ "id" := VStr ("" ++ "" ++ "42" ++ "") ]})
             "" "" "42" "" eq_refl (or_introl eq_refl) eq_refl); reflexivity.
  - apply (checkTypeField_wraps_integers_and_blanks
             (KStr "label") (VObj {[ "label" := VStr "" ]})
             "" "" "42" "" eq_refl (or_introl eq_refl) eq_refl); reflexivity.
Defined.

(** X4. [checkTypeField] never wraps a string that has a character found in no
    numeric literal (a letter outside [Infinity], the hexadecimal digits and
    the radix and exponent marks; an underscore; a comma; ...): it returns the
    string as it is. *)
Theorem checkTypeField_keeps_other_strings (key : Key) (value : Value) (s : string) :
  allChars isNumeralChar s = false ->
  at_ value key = VStr s ->
  checkTypeField key value = VStr s.
Proof.
  intros H Hv. unfold checkTypeField. rewrite Hv, (isNumberStr_foreign _ H).
  reflexivity.
Qed.

(** X4, witness.  An instance of [checkTypeField_keeps_other_strings]. *)
Lemma checkTypeField_keeps_other_strings_witness :
  checkTypeField (KStr "label") (VObj {[ "label" := VStr "12 months" ]})
  = VStr "12 months".
Proof.
  apply (checkTypeField_keeps_other_strings (KStr "label")
           (VObj {[ "label" := VStr "12 months" ]}) "12 months");
    reflexivity.
Defined.

End NumericProps.

(** ** Field completion, key by key *)

Module CompletionProps.
Import JS Adapter Loops ParseAnalytics Notions Fixtures DeployNotions.
Import DeployProps.

(** A loop whose body rewrites the entry of its own key only, as a function of
    that entry, rewrites every listed key so and leaves the others alone. *)
Lemma forEach_own_key (f : string -> option Value -> option Value)
    (body : gmap string Value -> string -> option (gmap string Value))
    (keys : list string) (m : gmap string Value) :
  NoDup keys ->
  (forall acc k, k ∈ keys ->
     exists acc', body acc k = Some acc'
                  /\ acc' !! k = f k (acc !! k)
                  /\ forall j, j <> k -> acc' !! j = acc !! j) ->
  exists m', forEach keys body m = Some m'
             /\ (forall k, k ∈ keys -> m' !! k = f k (m !! k))
             /\ (forall k, k ∉ keys -> m' !! k = m !! k).
Proof.
  intros Hnd. revert m. induction Hnd as [|k keys Hk Hnd IH]; intros m Hbody; cbn.
  - exists m. split; [reflexivity|]. split; [intros k Hk; inversion Hk | reflexivity].
  - destruct (Hbody m k) as (m1 & -> & Hown & Hother); [left|].
    destruct (IH m1) as (m' & -> & Hin & Hout).
    { intros acc j Hj. apply Hbody. right. exact Hj. }
    exists m'. split; [reflexivity|]. split.
    + intros j Hj. apply elem_of_cons in Hj as [-> | Hj].
      * rewrite (Hout k Hk). exact Hown.
      * rewrite (Hin j Hj), Hother; [reflexivity|]. intros ->. contradiction.
    + intros j Hj. rewrite not_elem_of_cons in Hj. destruct Hj as [Hne Hj].
      rewrite (Hout j Hj). apply Hother. exact Hne.
Qed.

Lemma has_false_lookup (m : gmap string Value) k : has k m = false <-> m !! k = None.
Proof. unfold has. destruct (m !! k); split; congruence. Qed.



(** A schema that declares a field named like an inherited property: the
    field is never completed. *)
Example inherited_name_is_not_completed :
  deployTransformFunc
    (mkArgs (VObj {[ "id" := VStr "x" ]})
            (Some (mkField ∅
               (ObjectType (typeElemID "netsuite" "dataset_sample") ∅
                  {[ "id" := stringField; "label" := stringField;
                     "constructor" := stringField ]})))
            (Some somePath)) datasetType
  = Some (VObj {[ "id" := VStr "x"; "label" := nullObject ]}).
Proof. vm_compute. reflexivity. Qed.

End CompletionProps.

(** ** The walker: what it keeps and what it leaves behind *)

Module WalkerProps.
Import JS Adapter Loops ParseAnalytics Notions Fixtures DeployNotions.
Import DeployProps.

Lemma wrapped_isEncoded child : isEncoded (wrapped child) = true.
Proof.
  unfold wrapped, checkTypeField. rewrite at_entryOf.
  destruct child as [| |b| |s| | |]; try reflexivity.
  destruct (isNumberStr s) eqn:Hs; [reflexivity|]. cbn. rewrite Hs. reflexivity.
Qed.

(** [checkT] returns its entry or a mapping: a reference stays a reference,
    and nothing else becomes one. *)
Lemma collapsedAt_reference key child id :
  collapsedAt key child = VRef id -> child = VRef id.
Proof.
  unfold collapsedAt, checkT. rewrite at_entryOf. cbn zeta.
  destruct key as [k|i];
    [destruct (bool_decide (k ∈ keysToAddT)); [discriminate|] |];
    (destruct child as [| | | | | |innerVal|]; try (intros E; exact E);
     destruct (bool_decide _); [discriminate|];
     destruct (_ && _); discriminate).
Qed.

(** [checkReference] throws only at the key ['translationScriptId'], on a
    reference whose full name matches the pattern but has no fourth
    dot-separated part. *)
Lemma dereferencedAt_None k child :
  dereferencedAt k child = None ->
  k = "translationScriptId"
  /\ exists id, child = VRef id
                /\ checkReferenceToTranslation (getFullName id) = true
                /\ split_dot (getFullName id) !! 3 = None.
Proof.
  unfold dereferencedAt, checkReference.
  change (get (entryOf (KStr k) child) k)
    with (at_ (entryOf (KStr k) child) (KStr k)).
  rewrite at_entryOf.
  destruct child as [| | | | | | |id]; try discriminate.
  destruct (String.eqb k "translationScriptId") eqn:Hk; [|discriminate].
  apply String.eqb_eq in Hk.
  destruct (checkReferenceToTranslation (getFullName id)) eqn:Hm; [|discriminate].
  destruct (split_dot (getFullName id) !! 3) eqn:H3; [discriminate|].
  intros _. split; [exact Hk|]. exists id. auto.
Qed.

(** X6. [deployWalkFunc] returns normally on every array, and on every object whose
    entry under ['translationScriptId'], if it is a reference with a matching
    full name, has a fourth dot-separated part.  The result of an object has
    the keys of the object; the result of an array has its length. *)
Theorem deployWalkFunc_keeps_keys :
  (forall o : gmap string Value,
      (forall id, o !! "translationScriptId" = Some (VRef id) ->
                  checkReferenceToTranslation (getFullName id) = true ->
                  is_Some (split_dot (getFullName id) !! 3)) ->
      exists o' : gmap string Value,
        deployWalkFunc (VObj o) = Some (VObj o')
        /\ forall k, o' !! k = None <-> o !! k = None)
  /\ (forall items,
        exists items', deployWalkFunc (VArr items) = Some (VArr items')
                       /\ length items' = length items).
Proof.
  split.
  - intros o Hsafe. pose proof (deployWalkFunc_object o) as H.
    destruct (deployWalkFunc (VObj o)) as [r|].
    + destruct H as (o' & -> & Hnone & Hsome). exists o'. split; [reflexivity|].
      intros k. split; [|apply Hnone].
      intros Ho'. destruct (o !! k) as [child|] eqn:Hk; [|reflexivity].
      destruct (Hsome k child Hk) as (c & _ & Hc). congruence.
    + exfalso. destruct H as (k & child & Hk & Hthrow).
      apply dereferencedAt_None in Hthrow as (-> & id & Hc & Hm & H3).
      apply collapsedAt_reference in Hc. subst child.
      destruct (Hsafe id Hk Hm) as [x Hx]. congruence.
  - intros items. rewrite deployWalkFunc_array. eexists. split; [reflexivity|].
    apply length_map.
Qed.

(** X6, witness.  An instance of [deployWalkFunc_keeps_keys]: a label holding a reference
    to a translation. *)
Lemma deployWalkFunc_keeps_keys_witness :
  exists o' : gmap string Value,
    deployWalkFunc
      (VObj {[ "translationScriptId" :=
                 translationReference "custcollectiontranslations123" "greeting" ]})
    = Some (VObj o')
    /\ forall k,
         o' !! k = None <->
         ({[ "translationScriptId" :=
               translationReference "custcollectiontranslations123" "greeting" ]}
            : gmap string Value) !! k = None.
Proof.
  apply (proj1 deployWalkFunc_keeps_keys).
  intros id Hid _.
  apply lookup_singleton_Some in Hid as [_ Hid].
  injection Hid as <-. vm_compute. eauto.
Defined.

(** X7. After [deployWalkFunc], no entry of an object without the ['@_type'] key
    and no item of an array is a bare sequence, a bare boolean or a string
    that reads as a number. *)
Theorem deployWalkFunc_leaves_nothing_bare :
  (forall (o o' : gmap string Value),
      o !! TYPE = None ->
      deployWalkFunc (VObj o) = Some (VObj o') ->
      forall k v, o' !! k = Some v -> isEncoded v = true)
  /\ (forall items items',
        deployWalkFunc (VArr items) = Some (VArr items') ->
        Forall (fun v => isEncoded v = true) items').
Proof.
  split.
  - intros o o' HTYPE Hwalk k v Hv.
    pose proof (deployWalkFunc_object o) as H. rewrite Hwalk in H.
    destruct H as (o2 & Heq & Hnone & Hsome). injection Heq as <-.
    destruct (o !! k) as [child|] eqn:Hk.
    + destruct (Hsome k child Hk) as (c & _ & Hc).
      unfold has in Hc. rewrite HTYPE in Hc.
      rewrite Hv in Hc. injection Hc as ->. apply wrapped_isEncoded.
    + rewrite (Hnone k Hk) in Hv. discriminate.
  - intros items items' Hwalk. rewrite deployWalkFunc_array in Hwalk.
    injection Hwalk as <-. apply List.Forall_map, Forall_forall.
    intros x _. apply wrapped_isEncoded.
Qed.

(** X7, witness.  An instance of [deployWalkFunc_leaves_nothing_bare]. *)
Lemma deployWalkFunc_leaves_nothing_bare_witness :
  Forall (fun v => isEncoded v = true)
    [ VObj {[ TYPE := VStr "boolean"; TEXT := VStr "true" ]};
      VObj {[ TYPE := VStr "string"; TEXT := VStr "12" ]};
      VStr "abc" ].
Proof.
  apply (proj2 deployWalkFunc_leaves_nothing_bare [VBool true; VStr "12"; VStr "abc"]).
  reflexivity.
Defined.

End WalkerProps.

(** ** More on the fetch, and on the fetch followed by the deploy *)

Module NormalFormProps.
Import JS Adapter Loops ParseAnalytics Notions Fixtures DeployNotions.
Import FetchProps DeployProps RoundTripProps.

Lemma has_false_lookup_T (o : gmap string Value) : has T o = false -> o !! T = None.
Proof. unfold has. destruct (o !! T); congruence. Qed.

(** X8. Whatever the schema node, the mapping the fetch returns for a plain object
    that is not a sentinel wrapper has no ['_T_'] key, unless the discriminator
    names itself (its text is ['_T_']). *)
Theorem fetch_removes_discriminator
    (o : gmap string Value) field path src els ty :
  isSentinelWrapper o = false ->
  String_ (prop o T) <> T ->
  exists r : gmap string Value,
    fetched (VObj o) field path src els ty = VObj r
    /\ r !! T = None.
Proof.
  intros Hs Htag. destruct (has T o) eqn:HT.
  - unfold fetched. rewrite (fetch_discriminator _ _ _ _ _ _ Hs HT). cbn zeta.
    destruct (isTaggedUnionNode _); cbn [snd].
    + destruct (Set_has TValuesToIgnore (prop o T)).
      * eexists. split; [reflexivity|]. apply lookup_delete_eq.
      * eexists. split; [reflexivity|]. apply lookup_singleton_ne. exact Htag.
    + eexists. split; [reflexivity|]. unfold withSpread, ownProps, omit.
      rewrite lookup_union, lookup_delete_eq, lookup_singleton_ne by discriminate.
      reflexivity.
  - exists o. split.
    + apply sentinelBlock_None in Hs.
      unfold fetched, fetchTransformFunc. cbn [arg_value]. rewrite Hs, HT.
      reflexivity.
    + apply has_false_lookup_T. exact HT.
Qed.

(** X8, witness.  An instance of [fetch_removes_discriminator]. *)
Lemma fetch_removes_discriminator_witness :
  exists r : gmap string Value,
    fetched (VObj {[ T := VStr "condition"; "children" := VNull ]})
            (Some criteriaField) (Some somePath) noSource [] datasetType = VObj r
    /\ r !! T = None.
Proof.
  apply (fetch_removes_discriminator {[ T := VStr "condition"; "children" := VNull ]});
    [reflexivity | discriminate].
Defined.

(** X9. The lenient renaming of the fetch is undone by the deploy: a plain object
    with ['_T_'] and without ['xmlType'], met where the schema expects no
    tagged union, comes back from [checkT] as it was, under every key but
    ['formula'] and at every index. *)
Theorem renamed_discriminator_round_trip
    (o : gmap string Value) field path src els ty (key : Key) :
  has T o = true ->
  isSentinelWrapper o = false ->
  o !! "xmlType" = None ->
  isTaggedUnionNode (resolvedFieldType field path ty) = false ->
  key <> KStr "formula" ->
  checkT key (entryOf key (fetched (VObj o) field path src els ty)) = VObj o.
Proof.
  intros HT Hs Hx Hu Hkey.
  unfold fetched. rewrite (fetch_discriminator _ _ _ _ _ _ Hs HT). cbn zeta.
  rewrite Hu. cbn [snd].
  unfold checkT. rewrite at_entryOf.
  assert (Hno : match key with
                | KStr k => bool_decide (k ∈ keysToAddT)
                | KIdx _ => false
                end = false).
  { destruct key as [k|i]; [|reflexivity]. apply bool_decide_eq_false_2.
    unfold keysToAddT. rewrite elem_of_singleton. intros ->. apply Hkey. reflexivity. }
  set (inner := withSpread "xmlType" (prop o T) (VObj (omit o T))).
  assert (Hinx : inner !! "xmlType" = Some (prop o T)).
  { unfold inner, withSpread, ownProps, omit.
    rewrite lookup_union, lookup_delete_ne, Hx, lookup_singleton_eq by discriminate.
    reflexivity. }
  assert (Hres : VObj (delete "xmlType" (<[ T := prop inner "xmlType" ]> inner)) = VObj o).
  { f_equal. apply map_eq. intros j.
    unfold prop at 1. rewrite Hinx. cbn [default from_option id].
    destruct (decide (j = "xmlType")) as [->|Hjx].
    - rewrite lookup_delete_eq, Hx. reflexivity.
    - rewrite lookup_delete_ne by congruence.
      destruct (decide (j = T)) as [->|HjT].
      + rewrite lookup_insert_eq. unfold prop, has in *.
        destruct (o !! T); [reflexivity | discriminate].
      + rewrite lookup_insert_ne by congruence.
        unfold inner, withSpread, ownProps, omit.
        rewrite lookup_union, lookup_delete_ne, lookup_singleton_ne by congruence.
        destruct (o !! j); reflexivity. }
  cbn zeta.
  rewrite (bool_decide_eq_true_2 ("xmlType" ∈ Object_keys inner)).
  2:{ apply elem_of_Object_keys. rewrite Hinx. eauto. }
  destruct key as [k|i]; [rewrite Hno|]; exact Hres.
Qed.

(** X9, witness.  An instance of [renamed_discriminator_round_trip]. *)
Lemma renamed_discriminator_round_trip_witness :
  checkT (KStr "meta")
    (entryOf (KStr "meta")
       (fetched (VObj {[ T := VStr "condition"; "children" := VNull ]})
                (Some stringField) (Some somePath) noSource [] datasetType))
  = VObj {[ T := VStr "condition"; "children" := VNull ]}.
Proof.
  apply (renamed_discriminator_round_trip
           {[ T := VStr "condition"; "children" := VNull ]}
           (Some stringField) (Some somePath) noSource [] datasetType (KStr "meta"));
    first [reflexivity | discriminate].
Defined.

(** X10. At a position whose resolved type is the string primitive, the fetch
    returns, for every value that is not a plain object, a string or a
    reference; a value that is not a string comes back as [String(value)]. *)
Theorem fetch_coerces_at_string_positions
    (v : Value) field path src els ty :
  isPlainObject v = false ->
  isStringType (resolvedFieldType field path ty) = true ->
  (isString (fetched v field path src els ty)
   || isReferenceExpression (fetched v field path src els ty) = true)
  /\ (isString v = false ->
      fetched v field path src els ty = VStr (String_ v)).
Proof.
  intros Hobj Hty. unfold fetched, fetchTransformFunc, resolvedFieldType in *.
  cbn [arg_value arg_field arg_path].
  destruct v as [| |b|n|s|items|o|id]; try discriminate Hobj;
    try (cbn [translationBlock]; rewrite Hty; split; reflexivity).
  split; [|discriminate].
  destruct (translationBlock (VStr s) src els) as [r|] eqn:Hr.
  - cbn [snd]. unfold translationBlock in Hr.
    destruct (startsWith s _); [|discriminate].
    destruct (split_dot s) as [|? [|? [|? ?]]]; try discriminate.
    destruct (match src _ with Some e => Some e | None => _ end); [|discriminate].
    destruct (negb _); [|discriminate]. injection Hr as <-. reflexivity.
  - rewrite Hty. reflexivity.
Qed.

(** X10, witness.  An instance of [fetch_coerces_at_string_positions]: a number the parser
    made of a numeric-looking text. *)
Lemma fetch_coerces_at_string_positions_witness :
  fetched (VNum "2023") (Some stringField) (Some somePath) noSource [] datasetType
  = VStr (String_ (VNum "2023")).
Proof.
  apply (fetch_coerces_at_string_positions (VNum "2023")
           (Some stringField) (Some somePath) noSource [] datasetType);
    reflexivity.
Defined.

(** X11. At a node annotated [XML_TYPE], a mapping with exactly one key is marked
    with that key as its discriminator and gets none of the node's missing
    fields; if the walker then meets it under the key ['formula'], the mark
    stays: the discriminator sent is the name of the field, not ['formula']. *)
Theorem single_field_is_taken_for_the_tag
    (k : string) (v : Value) field path ty :
  isTaggedUnionNode (resolvedFieldType field path ty) = true ->
  k <> TYPE ->
  k <> T ->
  deployTransformFunc (mkArgs (VObj {[ k := v ]}) field path) ty
  = Some (VObj {[ k := v; T := VStr k ]})
  /\ checkT (KStr "formula") (VObj {[ "formula" := VObj {[ k := v; T := VStr k ]} ]})
     = VObj {[ k := v; T := VStr k ]}.
Proof.
  intros Hunion HkTYPE HkT. split.
  - unfold deployTransformFunc. cbn [arg_value arg_field arg_path].
    unfold isTaggedUnionNode, resolvedFieldType in Hunion.
    destruct (if pathHasFourParts path then Some ty else getType <$> field)
      as [[id | inner | id typeAnn typeFlds]|]; try discriminate Hunion.
    cbn in Hunion.
    assert (Hty : has TYPE ({[ k := v ]} : gmap string Value) = false).
    { unfold has. rewrite lookup_singleton_ne by congruence. reflexivity. }
    rewrite Hty, Hunion, Object_keys_singleton. cbn.
    do 2 f_equal. apply insert_insert_ne.
    intros Heq. apply HkT. symmetry. exact Heq.
  - unfold checkT. rewrite at_singleton.
    rewrite bool_decide_eq_true_2 by set_solver.
    unfold withSpread, ownProps. f_equal. apply map_eq. intros j.
    rewrite lookup_union.
    destruct (decide (j = T)) as [->|Hj].
    + rewrite lookup_insert_ne, !lookup_singleton_eq by congruence. reflexivity.
    + rewrite (lookup_singleton_ne T j) by congruence.
      destruct (_ !! j); reflexivity.
Qed.

(** X11, witness.  An instance of [single_field_is_taken_for_the_tag]: a formula that has
    its SQL only. *)
Lemma single_field_is_taken_for_the_tag_witness :
  deployTransformFunc
    (mkArgs (VObj {[ "formulaSQL" := VStr "{amount}" ]})
            (Some (mkField ∅ formulaFormulaType)) (Some somePath)) datasetType
  = Some (VObj {[ "formulaSQL" := VStr "{amount}"; T := VStr "formulaSQL" ]})
  /\ checkT (KStr "formula")
       (VObj {[ "formula" :=
                  VObj {[ "formulaSQL" := VStr "{amount}"; T := VStr "formulaSQL" ]} ]})
     = VObj {[ "formulaSQL" := VStr "{amount}"; T := VStr "formulaSQL" ]}.
Proof.
  apply (single_field_is_taken_for_the_tag "formulaSQL" (VStr "{amount}")
           (Some (mkField ∅ formulaFormulaType)) (Some somePath) datasetType);
    first [reflexivity | discriminate].
Defined.

End NormalFormProps.

(** ** The summary arrays sent with a workbook *)

Module ArraysProps.
Import JS Adapter Loops DeployNotions.

Lemma fold_summary itemName (items acc : list Value) :
  List.fold_left
    (fun (valToReturn : list Value) (val : Value) =>
       let scriptId := get (get val itemName) "scriptId" in
       if negb (isUndefined scriptId)
       then (valToReturn ++ [VObj {[ "scriptid" := scriptId ]}])%list
       else valToReturn)
    (List.filter isPlainObject items) acc
  = (acc ++ flat_map (summaryRecord itemName) items)%list.
Proof.
  revert acc. induction items as [|val items IH]; intros acc; cbn [List.filter flat_map].
  - cbn. rewrite app_nil_r. reflexivity.
  - unfold summaryRecord at 1. destruct (isPlainObject val); cbn [andb fold_left].
    + rewrite IH. cbn zeta.
      destruct (negb (isUndefined (get (get val itemName) "scriptId"))).
      * rewrite <- app_assoc. reflexivity.
      * reflexivity.
    + apply IH.
Qed.

Lemma createOriginalArray_items itemName value :
  AnalyticsArrays.createOriginalArray itemName value
  = summaryArray itemName <$> collectionItems value (itemName ++ "s").
Proof.
  unfold AnalyticsArrays.createOriginalArray, collectionItems, summaryArray. cbn zeta.
  destruct (prop value (itemName ++ "s")); try reflexivity.
  cbn. rewrite fold_summary. reflexivity.
Qed.

Lemma workbook_createOriginalArray_items value arrName itemName :
  ParseWorkbookDeploy.createOriginalArray value arrName itemName
  = summaryArray itemName <$> collectionItems value arrName.
Proof.
  unfold ParseWorkbookDeploy.createOriginalArray, collectionItems, summaryArray.
  destruct (prop value arrName); try reflexivity.
  cbn. rewrite fold_summary. reflexivity.
Qed.

(** X12. When each of ['pivots'], ['charts'] and ['dataViews'] is an array, absent
    or [null], [createOriginalArrays] returns the three summary arrays: in the
    order of the collection, one record [{scriptid: x}] for every item that is
    a plain object whose [pivot] (resp. [chart], [dataView]) has a [scriptId]
    other than [undefined], and nothing for any other item. *)
Theorem createOriginalArrays_summary
    (value : gmap string Value) (pivots charts views : list Value) :
  collectionItems value "pivots" = Some pivots ->
  collectionItems value "charts" = Some charts ->
  collectionItems value "dataViews" = Some views ->
  AnalyticsArrays.createOriginalArrays value
  = Some (VObj {[ "pivots" := VObj {[ "pivot" := summaryArray "pivot" pivots ]};
                  "charts" := VObj {[ "chart" := summaryArray "chart" charts ]};
                  "tables" := VObj {[ "table" := summaryArray "dataView" views ]} ]}).
Proof.
  intros Hp Hc Hv. unfold AnalyticsArrays.createOriginalArrays.
  rewrite !createOriginalArray_items.
  change ("pivot" ++ "s") with "pivots". change ("chart" ++ "s") with "charts".
  change ("dataView" ++ "s") with "dataViews".
  rewrite Hp, Hc, Hv. reflexivity.
Qed.

(** X12, witness.  An instance of [createOriginalArrays_summary]: a pivot with a script id,
    an item that is no object, a pivot without script id, and no charts. *)
Lemma createOriginalArrays_summary_witness :
  AnalyticsArrays.createOriginalArrays
    {[ "pivots" := VArr [ VObj {[ "pivot" := VObj {[ "scriptId" := VStr "custpivot1" ]} ]};
                          VStr "text";
                          VObj {[ "pivot" := VObj {[ "name" := VStr "p" ]} ]} ];
       "dataViews" := VNull ]}
  = Some (VObj {[ "pivots" := VObj {[ "pivot" :=
                     summaryArray "pivot"
                       [ VObj {[ "pivot" := VObj {[ "scriptId" := VStr "custpivot1" ]} ]};
                         VStr "text";
                         VObj {[ "pivot" := VObj {[ "name" := VStr "p" ]} ]} ] ]};
                  "charts" := VObj {[ "chart" := summaryArray "chart" [] ]};
                  "tables" := VObj {[ "table" := summaryArray "dataView" [] ]} ]}).
Proof.
  apply createOriginalArrays_summary; vm_compute; reflexivity.
Defined.

(** X13. [createOriginalArrays] throws exactly when one of ['pivots'], ['charts'],
    ['dataViews'] holds something that is neither an array nor [null] nor
    [undefined]: a string, a number, a boolean, a plain object or a
    reference has no [filter] to call. *)
Theorem createOriginalArrays_throws_on_foreign_collection
    (value : gmap string Value) :
  AnalyticsArrays.createOriginalArrays value = None
  <-> (collectionItems value "pivots" = None
       \/ collectionItems value "charts" = None
       \/ collectionItems value "dataViews" = None).
Proof.
  unfold AnalyticsArrays.createOriginalArrays.
  rewrite !createOriginalArray_items.
  change ("pivot" ++ "s") with "pivots". change ("chart" ++ "s") with "charts".
  change ("dataView" ++ "s") with "dataViews".
  destruct (collectionItems value "pivots"), (collectionItems value "charts"),
    (collectionItems value "dataViews"); cbn; split; intros H;
    try discriminate; try reflexivity; try (destruct H as [H|[H|H]]; discriminate);
    tauto.
Qed.

(** X14. The two filters compute the same summary arrays: [createOriginalArrays]
    of the workbook filter, which names each collection and its item, agrees
    on every value with the one of the analytics filter, which derives the
    collection's name from the item's. *)
Theorem createOriginalArrays_agree (value : gmap string Value) :
  ParseWorkbookDeploy.createOriginalArrays value
  = AnalyticsArrays.createOriginalArrays value.
Proof.
  unfold ParseWorkbookDeploy.createOriginalArrays, AnalyticsArrays.createOriginalArrays.
  rewrite !createOriginalArray_items, !workbook_createOriginalArray_items.
  reflexivity.
Qed.

End ArraysProps.

(** ** The deploy side of the workbook filter *)

Module WorkbookProps.
Import JS Adapter Loops ParseAnalytics Notions DeployNotions Fixtures.
Import FetchProps DeployProps RoundTripProps CompletionProps.

(** The workbook filter declares the marker names of the analytics filter
    anew; the two sets of constants are the same strings. *)
Ltac same_markers :=
  change ParseWorkbook.T with T in *;
  change ParseWorkbook.TYPE with TYPE in *;
  change ParseWorkbook.XML_TYPE with XML_TYPE in *.

Lemma fieldsWithT_notAdding key :
  key ∈ ParseWorkbookDeploy.fieldsWithT -> key ∈ ParseWorkbookDeploy.notAddingFields.
Proof. unfold ParseWorkbookDeploy.notAddingFields. apply elem_of_union_l. Qed.

Lemma condition_is_known : "condition" ∈ ParseWorkbookDeploy.fieldsWithT.
Proof. apply (bool_decide_eq_true_1 _). vm_compute. reflexivity. Qed.

Lemma filter_is_known : "filter" ∈ ParseWorkbookDeploy.fieldsWithT.
Proof. apply (bool_decide_eq_true_1 _). vm_compute. reflexivity. Qed.

Lemma background_is_unknown : "background" ∉ ParseWorkbookDeploy.fieldsWithT.
Proof. apply (bool_decide_eq_false_1 _). vm_compute. reflexivity. Qed.

Lemma criteria_fields_are_known name :
  is_Some (typeFields criteriaType !! name) ->
  name ∈ ParseWorkbookDeploy.notAddingFields.
Proof.
  intros [fld Hfld]. cbn in Hfld.
  destruct (decide (name = "condition")) as [->|Hc].
  { apply fieldsWithT_notAdding, condition_is_known. }
  destruct (decide (name = "filter")) as [->|Hf].
  { apply fieldsWithT_notAdding, filter_is_known. }
  rewrite lookup_insert_ne, lookup_singleton_ne in Hfld by congruence.
  discriminate.
Qed.

Lemma forallb_false_exists {A} (p : A -> bool) (l : list A) :
  forallb p l = false -> exists x, x ∈ l /\ p x = false.
Proof.
  induction l as [|x l IH]; cbn; [discriminate|].
  destruct (p x) eqn:Hp; cbn.
  - intros H. destruct (IH H) as (y & Hy & Hpy). exists y. split; [right; exact Hy | exact Hpy].
  - intros _. exists x. split; [left | exact Hp].
Qed.

(** What the workbook's fetch makes of a tagged value at a tagged-union node. *)
Lemma fetchedWorkbook_expands (o : gmap string Value) t field path wty :
  o !! T = Some (VStr t) ->
  t <> "workbook" ->
  isSentinelWrapper o = false ->
  isTaggedUnionNode (resolvedFieldType field path wty) = true ->
  fetchedWorkbook wty (VObj o) field path = VObj {[ t := VObj (omit o T) ]}.
Proof.
  intros HT Hw Hs Hu.
  unfold fetchedWorkbook, ParseWorkbook.fetchTransformFunc.
  cbn [arg_value arg_field arg_path]. same_markers.
  rewrite (proj2 (sentinelBlock_None o) Hs).
  unfold has at 1. unfold prop. rewrite HT. cbn [default from_option id].
  unfold isTaggedUnionNode, resolvedFieldType in Hu.
  apply andb_true_iff in Hu as [-> ->]. cbn [negb orb snd Set_has String_].
  rewrite bool_decide_eq_false_2; [reflexivity|].
  unfold ParseWorkbook.TValuesToIgnore. rewrite elem_of_singleton. exact Hw.
Qed.

(** Field completion of the workbook filter, entry by entry. *)
Lemma workbook_completion_entries
    (o : gmap string Value) field path wty id typeAnn typeFlds :
  resolvedFieldType field path wty = Some (ObjectType id typeAnn typeFlds) ->
  o !! TYPE = None ->
  exists r : gmap string Value,
    ParseWorkbookDeploy.deployTransformFunc wty (mkArgs (VObj o) field path)
    = Some (VObj r)
    /\ forall key, r !! key = completedWorkbookEntry typeFlds o key.
Proof.
  intros Hty HTYPE.
  unfold ParseWorkbookDeploy.deployTransformFunc. cbn [arg_value arg_field arg_path].
  same_markers.
  unfold resolvedFieldType in Hty. rewrite Hty.
  rewrite (proj2 (has_false_lookup o TYPE) HTYPE). cbn [negb].
  set (f := fun (k : string) (cur : option Value) =>
              match cur with
              | Some v => Some v
              | None =>
                  match typeFlds !! k with
                  | Some fld =>
                      if bool_decide (k ∈ objectPrototypeKeys)
                         || bool_decide (k ∈ ParseWorkbookDeploy.notAddingFields)
                      then None
                      else Some (ParseWorkbookDeploy.createEmptyObjectOfType (getType fld))
                  | None => None
                  end
              end).
  destruct (forEach_own_key f
              (fun (acc : gmap string Value) key =>
                 if negb (in_ key acc)
                    && negb (bool_decide (key ∈ ParseWorkbookDeploy.notAddingFields))
                 then
                   field ← typeFlds !! key;
                   Some (<[ key := ParseWorkbookDeploy.createEmptyObjectOfType
                                     (getType field) ]> acc)
                 else Some acc)
              (Object_keys typeFlds) o (NoDup_Object_keys typeFlds))
    as (r & Hr & Hin & Hout).
  { intros acc k Hk. apply elem_of_Object_keys in Hk as [fld Hfld].
    unfold f. rewrite Hfld.
    unfold in_, has at 1. destruct (acc !! k) as [v|] eqn:Hacc; cbn [negb andb orb].
    { exists acc. rewrite Hacc. auto. }
    destruct (bool_decide (k ∈ objectPrototypeKeys)); cbn [negb andb orb].
    { exists acc. rewrite Hacc. auto. }
    destruct (bool_decide (k ∈ ParseWorkbookDeploy.notAddingFields)); cbn [negb].
    { exists acc. rewrite Hacc. auto. }
    cbn [mbind option_bind].
    eexists. split; [reflexivity|]. split; [apply lookup_insert_eq|].
    intros j Hj. apply lookup_insert_ne. congruence. }
  exists r. rewrite Hr. split; [reflexivity|].
  intros key. unfold completedWorkbookEntry.
  destruct (decide (key ∈ Object_keys typeFlds)) as [Hk|Hk].
  - rewrite (Hin key Hk). reflexivity.
  - rewrite (Hout key Hk).
    assert (typeFlds !! key = None) as ->.
    { destruct (typeFlds !! key) eqn:E; [|reflexivity].
      exfalso. apply Hk, elem_of_Object_keys. eauto. }
    destruct (o !! key); reflexivity.
Qed.

(** X15. At an object node, on a plain object without ['@_type'], the workbook's
    [deployTransformFunc] does not throw and returns the input completed key
    by key: every entry of the input is kept; every declared field that the
    input lacks, whose name is not in [notAddingFields] and is not one that
    every plain object inherits ([key in value] holds for those), gets the
    placeholder of its type; no other key appears.  No annotation
    ([DO_NOT_ADD], [DEFAULT_VALUE], [XML_TYPE]) is consulted. *)
Theorem workbook_deployTransformFunc_completes_fields
    (o : gmap string Value) field path wty id typeAnn typeFlds :
  resolvedFieldType field path wty = Some (ObjectType id typeAnn typeFlds) ->
  o !! TYPE = None ->
  exists r : gmap string Value,
    ParseWorkbookDeploy.deployTransformFunc wty (mkArgs (VObj o) field path)
    = Some (VObj r)
    /\ (forall key, r !! key = completedWorkbookEntry typeFlds o key)
    /\ extends o r
    /\ (forall key, key ∈ ParseWorkbookDeploy.notAddingFields -> r !! key = o !! key)
    /\ (forall key, key ∈ objectPrototypeKeys -> r !! key = o !! key)
    /\ (forall key, typeFlds !! key = None -> r !! key = o !! key).
Proof.
  intros Hty HTYPE.
  destruct (workbook_completion_entries o field path wty id typeAnn typeFlds Hty HTYPE)
    as (r & Hr & Hkeys).
  exists r. split; [exact Hr|]. split; [exact Hkeys|].
  repeat match goal with |- _ /\ _ => split end.
  - intros key v Hv. rewrite Hkeys. unfold completedWorkbookEntry. rewrite Hv. reflexivity.
  - intros key Hkey. rewrite Hkeys. unfold completedWorkbookEntry.
    destruct (o !! key); [reflexivity|].
    destruct (typeFlds !! key); [|reflexivity].
    rewrite (bool_decide_eq_true_2 (key ∈ ParseWorkbookDeploy.notAddingFields) Hkey).
    rewrite orb_true_r. reflexivity.
  - intros key Hkey. rewrite Hkeys. unfold completedWorkbookEntry.
    destruct (o !! key); [reflexivity|].
    destruct (typeFlds !! key); [|reflexivity].
    rewrite (bool_decide_eq_true_2 (key ∈ objectPrototypeKeys) Hkey). reflexivity.
  - intros key Hkey. rewrite Hkeys. unfold completedWorkbookEntry.
    rewrite Hkey. destruct (o !! key); reflexivity.
Qed.

(** X15, witness.  An instance of [workbook_deployTransformFunc_completes_fields]. *)
Lemma workbook_deployTransformFunc_completes_fields_witness :
  exists r : gmap string Value,
    ParseWorkbookDeploy.deployTransformFunc datasetType
      (mkArgs (VObj {[ "caseSensitive" := VBool true ]})
              (Some (mkField ∅ filterType)) (Some somePath))
    = Some (VObj r)
    /\ (forall key,
          r !! key
          = completedWorkbookEntry (typeFields filterType)
              {[ "caseSensitive" := VBool true ]} key)
    /\ extends {[ "caseSensitive" := VBool true ]} r
    /\ (forall key, key ∈ ParseWorkbookDeploy.notAddingFields ->
          r !! key = ({[ "caseSensitive" := VBool true ]} : gmap string Value) !! key)
    /\ (forall key, key ∈ objectPrototypeKeys ->
          r !! key = ({[ "caseSensitive" := VBool true ]} : gmap string Value) !! key)
    /\ (forall key, typeFields filterType !! key = None ->
          r !! key = ({[ "caseSensitive" := VBool true ]} : gmap string Value) !! key).
Proof.
  apply (workbook_deployTransformFunc_completes_fields
           {[ "caseSensitive" := VBool true ]} (Some (mkField ∅ filterType))
           (Some somePath) datasetType
           (typeElemID "netsuite" "dataset_filter") ∅ (typeFields filterType));
    reflexivity.
Defined.

(** The workbook filter on a schema that declares a field named like an
    inherited property: the field is never completed. *)
Example workbook_inherited_name_is_not_completed :
  ParseWorkbookDeploy.deployTransformFunc datasetType
    (mkArgs (VObj {[ "id" := VStr "x" ]})
            (Some (mkField ∅
               (ObjectType (typeElemID "netsuite" "workbook_sample") ∅
                  {[ "id" := stringField; "label" := stringField;
                     "toString" := stringField ]})))
            (Some somePath))
  = Some (VObj {[ "id" := VStr "x"; "label" := ParseWorkbookDeploy.nullObject ]}).
Proof. vm_compute. reflexivity. Qed.

(** X16. The tagged-union round trip of the workbook filter, for the tags the
    walker knows ([fieldsWithT]).  At a node annotated [XML_TYPE] all of
    whose declared fields are in [notAddingFields], the fetch nests
    [{_T_: tag, ...fields}] under the tag, [deployTransformFunc] returns the
    nested form as it is, and [checkT] gives back the original value. *)
Theorem workbook_tag_round_trip
    (o : gmap string Value) (t : string) field path wty tyId typeAnn typeFlds
    (key : Key) :
  o !! T = Some (VStr t) ->
  t ∈ ParseWorkbookDeploy.fieldsWithT ->
  isSentinelWrapper o = false ->
  resolvedFieldType field path wty = Some (ObjectType tyId typeAnn typeFlds) ->
  has XML_TYPE typeAnn = true ->
  (forall name, is_Some (typeFlds !! name) ->
                name ∈ ParseWorkbookDeploy.notAddingFields) ->
  ParseWorkbookDeploy.deployTransformFunc wty
    (mkArgs (fetchedWorkbook wty (VObj o) field path) field path)
  = Some (fetchedWorkbook wty (VObj o) field path)
  /\ ParseWorkbookDeploy.checkT key
       (entryOf key (fetchedWorkbook wty (VObj o) field path))
     = VObj o.
Proof.
  intros HT Ht Hs Hty Hxml Hflds.
  assert (Hw : t <> "workbook").
  { intros ->. revert Ht. unfold ParseWorkbookDeploy.fieldsWithT.
    rewrite !elem_of_union, !elem_of_singleton. intuition discriminate. }
  assert (HtTYPE : t <> TYPE).
  { intros ->. revert Ht. unfold ParseWorkbookDeploy.fieldsWithT.
    rewrite !elem_of_union, !elem_of_singleton. intuition discriminate. }
  rewrite (fetchedWorkbook_expands o t field path wty HT Hw Hs).
  2:{ unfold isTaggedUnionNode. rewrite Hty. cbn. exact Hxml. }
  split.
  - destruct (workbook_completion_entries {[ t := VObj (omit o T) ]}
                field path wty tyId typeAnn typeFlds Hty) as (r & -> & Hkeys).
    { apply lookup_singleton_ne. congruence. }
    do 2 f_equal. apply map_eq. intros j. rewrite Hkeys.
    unfold completedWorkbookEntry.
    destruct (({[ t := VObj (omit o T) ]} : gmap string Value) !! j); [reflexivity|].
    destruct (typeFlds !! j) eqn:Hj; [|reflexivity].
    rewrite (bool_decide_eq_true_2 (j ∈ ParseWorkbookDeploy.notAddingFields)),
      orb_true_r; [reflexivity|]. apply Hflds. eauto.
  - unfold ParseWorkbookDeploy.checkT. rewrite at_entryOf, Object_keys_singleton.
    same_markers.
    rewrite bool_decide_eq_true_2 by exact Ht.
    unfold prop. rewrite lookup_singleton_eq. cbn [default from_option id].
    unfold withSpread, ownProps, omit. f_equal. apply map_eq. intros j.
    rewrite lookup_union.
    destruct (decide (j = T)) as [->|Hj].
    + rewrite lookup_delete_eq, lookup_singleton_eq, HT. reflexivity.
    + rewrite lookup_delete_ne, lookup_singleton_ne by congruence.
      destruct (o !! j); reflexivity.
Qed.

(** X16, witness.  An instance of [workbook_tag_round_trip]. *)
Lemma workbook_tag_round_trip_witness :
  ParseWorkbookDeploy.deployTransformFunc datasetType
    (mkArgs (fetchedWorkbook datasetType
               (VObj {[ T := VStr "condition"; "children" := VNull ]})
               (Some criteriaField) (Some somePath))
            (Some criteriaField) (Some somePath))
  = Some (fetchedWorkbook datasetType
            (VObj {[ T := VStr "condition"; "children" := VNull ]})
            (Some criteriaField) (Some somePath))
  /\ ParseWorkbookDeploy.checkT (KStr "criteria")
       (entryOf (KStr "criteria")
          (fetchedWorkbook datasetType
             (VObj {[ T := VStr "condition"; "children" := VNull ]})
             (Some criteriaField) (Some somePath)))
     = VObj {[ T := VStr "condition"; "children" := VNull ]}.
Proof.
  apply (workbook_tag_round_trip
           {[ T := VStr "condition"; "children" := VNull ]} "condition"
           (Some criteriaField) (Some somePath) datasetType
           (typeElemID "netsuite" "dataset_criteria")
           {[ XML_TYPE := VBool true ]}
           {[ "condition" := mkField {[ DO_NOT_ADD := VBool true ]} stringType;
              "filter" := mkField {[ DO_NOT_ADD := VBool true ]} stringType ]}
           (KStr "criteria"));
    [ reflexivity | exact condition_is_known | reflexivity | reflexivity
    | reflexivity | exact criteria_fields_are_known ].
Defined.

(** X17. The walker of the workbook filter restores the discriminator of known
    tags only.  A value fetched from [{_T_: tag, ...fields}] at a tagged-union
    node, with a tag outside [fieldsWithT] (and other than ['workbook']),
    leaves [checkT] still nested under its tag: what is sent is not the value
    that was fetched. *)
Theorem workbook_unknown_tag_stays_nested
    (o : gmap string Value) (t : string) field path wty (key : Key) :
  o !! T = Some (VStr t) ->
  t ∉ ParseWorkbookDeploy.fieldsWithT ->
  t <> "workbook" ->
  isSentinelWrapper o = false ->
  isTaggedUnionNode (resolvedFieldType field path wty) = true ->
  ParseWorkbookDeploy.checkT key
    (entryOf key (fetchedWorkbook wty (VObj o) field path))
  = VObj {[ t := VObj (omit o T) ]}
  /\ ParseWorkbookDeploy.checkT key
       (entryOf key (fetchedWorkbook wty (VObj o) field path))
     <> VObj o.
Proof.
  intros HT Ht Hw Hs Hu.
  rewrite (fetchedWorkbook_expands o t field path wty HT Hw Hs Hu).
  assert (Hc : ParseWorkbookDeploy.checkT key
                 (entryOf key (VObj {[ t := VObj (omit o T) ]}))
               = VObj {[ t := VObj (omit o T) ]}).
  { unfold ParseWorkbookDeploy.checkT. rewrite at_entryOf, Object_keys_singleton.
    rewrite bool_decide_eq_false_2 by exact Ht. reflexivity. }
  rewrite Hc. split; [reflexivity|].
  intros Heq. injection Heq as Heq.
  assert (Hl : ({[ t := VObj (omit o T) ]} : gmap string Value) !! T = Some (VStr t))
    by (rewrite Heq; exact HT).
  destruct (decide (t = T)) as [->|Hne].
  - rewrite lookup_singleton_eq in Hl. discriminate.
  - rewrite lookup_singleton_ne in Hl by exact Hne. discriminate.
Qed.

(** X17, witness.  An instance of [workbook_unknown_tag_stays_nested]. *)
Lemma workbook_unknown_tag_stays_nested_witness :
  ParseWorkbookDeploy.checkT (KStr "style")
    (entryOf (KStr "style")
       (fetchedWorkbook datasetType
          (VObj {[ T := VStr "background"; "color" := VStr "red" ]})
          (Some criteriaField) (Some somePath)))
  = VObj {[ "background" := VObj (omit {[ T := VStr "background"; "color" := VStr "red" ]} T) ]}
  /\ ParseWorkbookDeploy.checkT (KStr "style")
       (entryOf (KStr "style")
          (fetchedWorkbook datasetType
             (VObj {[ T := VStr "background"; "color" := VStr "red" ]})
             (Some criteriaField) (Some somePath)))
     <> VObj {[ T := VStr "background"; "color" := VStr "red" ]}.
Proof.
  apply (workbook_unknown_tag_stays_nested
           {[ T := VStr "background"; "color" := VStr "red" ]} "background"
           (Some criteriaField) (Some somePath) datasetType (KStr "style"));
    [ reflexivity | exact background_is_unknown | discriminate
    | reflexivity | reflexivity ].
Defined.

Lemma sum_bounds_entry (sizes : gmap string nat) (k : string) (n : nat) :
  sizes !! k = Some n ->
  n <= map_fold (fun _ (n : nat) total => n + total) 0 sizes.
Proof.
  intros Hk. rewrite <- (insert_delete_id sizes k n Hk).
  rewrite (map_fold_insert_L (fun _ (n : nat) total => n + total)).
  - lia.
  - intros j1 j2 z1 z2 y _ _ _. lia.
  - apply lookup_delete_eq.
Qed.

(** The type of a declared field is smaller than the object type. *)
Lemma typeSize_field id typeAnn (typeFlds : gmap string Field) key fld :
  typeFlds !! key = Some fld ->
  typeSize (getType fld) < typeSize (ObjectType id typeAnn typeFlds).
Proof.
  intros Hfld. cbn [typeSize]. apply Nat.lt_succ_r.
  apply (sum_bounds_entry _ key). rewrite lookup_fmap, Hfld. reflexivity.
Qed.

(** X18. The recursive building of the workbook's placeholders is without
    effect: for every type, [createEmptyObjectOfType] returns a sentinel, the
    empty-array sentinel for a list type and the null sentinel for a
    primitive type and for every object type, whatever fields it declares.
    The children of an object type are themselves sentinels, so the
    all-sentinel test succeeds at every level. *)
Theorem workbook_placeholder_is_a_sentinel (typeElem : TypeElement) :
  ParseWorkbookDeploy.createEmptyObjectOfType typeElem
  = match typeElem with
    | ContainerType _ => ParseWorkbookDeploy.arrayObject
    | PrimitiveType _ | ObjectType _ _ _ => ParseWorkbookDeploy.nullObject
    end.
Proof.
  remember (typeSize typeElem) as n eqn:Hn.
  revert typeElem Hn. induction n as [n IH] using lt_wf_ind. intros typeElem Hn.
  destruct typeElem as [id | inner | id typeAnn typeFlds];
    cbn [ParseWorkbookDeploy.createEmptyObjectOfType]; try reflexivity.
  match goal with
  | |- context [forallb _ (Object_keys ?m)] => set (newObject := m)
  end.
  destruct (forallb _ (Object_keys newObject)) eqn:Hall; [reflexivity|].
  exfalso. destruct (forallb_false_exists _ _ Hall) as (key & Hin & Hp).
  apply elem_of_Object_keys in Hin as [child Hchild].
  unfold prop in Hp. rewrite Hchild in Hp. cbn [default from_option] in Hp.
  unfold newObject in Hchild. rewrite map_lookup_imap in Hchild.
  destruct (typeFlds !! key) as [fld|] eqn:Hfld; [|discriminate]. cbn in Hchild.
  destruct (bool_decide _); [discriminate|]. injection Hchild as <-.
  pose proof (typeSize_field id typeAnn typeFlds key fld Hfld) as Hlt.
  rewrite <- Hn in Hlt.
  rewrite (IH _ Hlt (getType fld) eq_refl) in Hp.
  destruct (getType fld); vm_compute in Hp; discriminate Hp.
Qed.

Lemma forEach_fixed {S A} (l : list A) (body : S -> A -> option S) (s : S) :
  (forall x, x ∈ l -> body s x = Some s) -> forEach l body s = Some s.
Proof.
  induction l as [|x l IH]; intros Hbody; cbn; [reflexivity|].
  rewrite (Hbody x) by left. apply IH. intros y Hy. apply Hbody. right. exact Hy.
Qed.

Lemma TYPE_is_unknown : TYPE ∉ ParseWorkbookDeploy.fieldsWithT.
Proof. apply (bool_decide_eq_false_1 _). vm_compute. reflexivity. Qed.

(** Every placeholder is a mapping, and none has a known tag among its keys. *)
Lemma workbook_placeholder_object typeElem :
  exists m : gmap string Value,
    ParseWorkbookDeploy.createEmptyObjectOfType typeElem = VObj m
    /\ forall key, key ∈ ParseWorkbookDeploy.fieldsWithT -> m !! key = None.
Proof.
  assert (Hsentinel : forall kind key,
             key ∈ ParseWorkbookDeploy.fieldsWithT ->
             ({[ TYPE := VStr kind ]} : gmap string Value) !! key = None).
  { intros kind key Hkey. apply lookup_singleton_ne. intros <-.
    exact (TYPE_is_unknown Hkey). }
  destruct typeElem as [id | inner | id typeAnn typeFlds];
    cbn [ParseWorkbookDeploy.createEmptyObjectOfType].
  - eexists. split; [reflexivity|]. apply Hsentinel.
  - eexists. split; [reflexivity|]. apply Hsentinel.
  - destruct (forallb _ _).
    + eexists. split; [reflexivity|]. apply Hsentinel.
    + eexists. split; [reflexivity|]. intros key Hkey. rewrite map_lookup_imap.
      destruct (typeFlds !! key); [|reflexivity]. cbn.
      rewrite bool_decide_eq_true_2 by (apply fieldsWithT_notAdding; exact Hkey).
      reflexivity.
Qed.

(** The walker changes nothing in a mapping whose entries are mappings
    without a known tag. *)
Lemma workbook_walker_stable (m : gmap string Value) :
  (forall k c, m !! k = Some c ->
     exists m' : gmap string Value,
       c = VObj m' /\ forall key, key ∈ ParseWorkbookDeploy.fieldsWithT -> m' !! key = None) ->
  ParseWorkbookDeploy.deployWalkFunc (VObj m) = Some (VObj m).
Proof.
  intros Hm. unfold ParseWorkbookDeploy.deployWalkFunc.
  rewrite forEach_fixed.
  - cbn [mbind option_bind]. destruct (negb (has _ m)); [|reflexivity].
    rewrite forEach_fixed; [reflexivity|].
    intros k Hk. apply elem_of_Object_keys in Hk as [c Hc].
    destruct (Hm k c Hc) as (m' & -> & _).
    unfold ParseWorkbookDeploy.checkTypeField, checkTypeField. cbn [at_ get].
    unfold prop. rewrite Hc. cbn [default from_option]. unfold id.
    rewrite insert_id by exact Hc. reflexivity.
  - intros k Hk. apply elem_of_Object_keys in Hk as [c Hc].
    destruct (Hm k c Hc) as (m' & -> & Hm').
    assert (HT : ParseWorkbookDeploy.checkT (KStr k) (VObj m) = VObj m').
    { unfold ParseWorkbookDeploy.checkT. cbn [at_ get].
      unfold prop at 1. rewrite Hc. cbn [default from_option]. unfold id.
      destruct (Object_keys m') as [|k0 [|k1 rest]] eqn:Hkeys; try reflexivity.
      rewrite bool_decide_eq_false_2; [reflexivity|].
      intros Hk0. specialize (Hm' k0 Hk0).
      assert (Hin : k0 ∈ Object_keys m') by (rewrite Hkeys; left).
      apply elem_of_Object_keys in Hin as [x Hx]. congruence. }
    rewrite HT, (insert_id m k (VObj m') Hc).
    unfold ParseWorkbookDeploy.checkReference, checkReference. cbn [get].
    unfold prop. rewrite Hc. cbn [default from_option]. unfold id.
    cbn [mbind option_bind]. rewrite insert_id by exact Hc. reflexivity.
Qed.

(** X19. Completion and the walker compose: the walker of the workbook filter
    returns every placeholder that [createEmptyObjectOfType] synthesizes
    exactly as it is.  No entry of a placeholder is collapsed, dereferenced
    or wrapped. *)
Theorem workbook_walker_keeps_placeholders (typeElem : TypeElement) :
  ParseWorkbookDeploy.deployWalkFunc
    (ParseWorkbookDeploy.createEmptyObjectOfType typeElem)
  = Some (ParseWorkbookDeploy.createEmptyObjectOfType typeElem).
Proof.
  destruct typeElem as [id | inner | id typeAnn typeFlds];
    cbn [ParseWorkbookDeploy.createEmptyObjectOfType]; try reflexivity.
  destruct (forallb _ _); [reflexivity|].
  apply workbook_walker_stable. intros k c Hc.
  rewrite map_lookup_imap in Hc.
  destruct (typeFlds !! k) as [fld|]; [|discriminate]. cbn in Hc.
  destruct (bool_decide _); [discriminate|]. injection Hc as <-.
  apply workbook_placeholder_object.
Qed.

End WorkbookProps.

(** ** The two filters side by side *)

Module FiltersProps.
Import JS Adapter Loops ParseAnalytics Notions DeployNotions Fixtures Language.
Import FetchProps DeployProps RoundTripProps TranslationProps WalkerProps.

#[local] Arguments String.append !_ _ / : simpl nomatch.

Ltac same_names :=
  change ParseWorkbook.T with T in *;
  change ParseWorkbook.TYPE with TYPE in *;
  change ParseWorkbook.XML_TYPE with XML_TYPE in *.

(** *** Fetch *)

(** X20. The fetch of the workbook filter returns what the fetch of the analytics
    filter returns, on every value but two kinds: a plain object whose
    discriminator is ['dataSet'] or ['formula'] (ignored by the analytics
    filter only), and a two-part string with the translation prefix (which
    the workbook filter turns into a reference without looking it up). *)
Theorem fetch_filters_agree (v : Value) field path src els ty :
  (forall o, v = VObj o ->
      prop o T <> VStr "dataSet" /\ prop o T <> VStr "formula") ->
  (forall s, v = VStr s ->
      startsWith s "custcollectiontranslations" = true ->
      length (split_dot s) <> 2%nat) ->
  fetchedWorkbook ty v field path = fetched v field path src els ty.
Proof.
  intros Hobj Hstr.
  unfold fetchedWorkbook, fetched, ParseWorkbook.fetchTransformFunc, fetchTransformFunc.
  cbn [arg_value arg_field arg_path]. same_names.
  destruct v as [| |b|n|s|items|o|id];
    try (cbn [translationBlock]; destruct (isStringType _); reflexivity).
  - cbn [translationBlock].
    destruct (startsWith s "custcollectiontranslations") eqn:Hp;
      [|destruct (isStringType _); reflexivity].
    specialize (Hstr s eq_refl Hp).
    destruct (split_dot s) as [|part0 [|part1 [|part2 rest]]];
      try (destruct (isStringType _); reflexivity).
    exfalso. apply Hstr. reflexivity.
  - destruct (sentinelBlock o); [reflexivity|].
    destruct (has T o); [|reflexivity].
    destruct (negb _ || negb _); [reflexivity|]. cbn [snd].
    destruct (Hobj o eq_refl) as [Hd Hf].
    assert (Hset : Set_has ParseWorkbook.TValuesToIgnore (prop o T)
                   = Set_has TValuesToIgnore (prop o T)).
    { destruct (prop o T) as [| | | |x| | |]; try reflexivity.
      cbn [Set_has]. apply bool_decide_ext.
      unfold ParseWorkbook.TValuesToIgnore, TValuesToIgnore.
      rewrite !elem_of_union, !elem_of_singleton.
      split; [tauto|]. intros [[Hx|Hx]|Hx]; [exact Hx | |]; subst x; exfalso; auto. }
    rewrite Hset. reflexivity.
Qed.

(** X20, witness.  An instance of [fetch_filters_agree]: a sentinel wrapper. *)
Lemma fetch_filters_agree_witness :
  fetchedWorkbook datasetType
    (VObj {[ TYPE := VStr "array"; ITEM := VStr "x" ]}) (Some stringField) (Some somePath)
  = fetched (VObj {[ TYPE := VStr "array"; ITEM := VStr "x" ]})
      (Some stringField) (Some somePath) noSource [] datasetType.
Proof.
  apply (fetch_filters_agree (VObj {[ TYPE := VStr "array"; ITEM := VStr "x" ]})).
  - intros o Ho. injection Ho as <-. split; discriminate.
  - intros s Hs. discriminate Hs.
Defined.

(** *** Translation strings of a workbook *)

(** X21. Without any lookup, the workbook filter turns [part0.part1] into a
    reference, and its walker turns that reference back into [part0.part1]:
    for all ids that are non-empty runs of word characters, the first with
    the translation prefix. *)
Theorem workbook_translation_round_trip
    (part0 part1 : string) field path wty (parent : gmap string Value) :
  isWordString part0 = true ->
  isWordString part1 = true ->
  startsWith part0 "custcollectiontranslations" = true ->
  parent !! "translationScriptId"
  = Some (fetchedWorkbook wty (VStr (part0 ++ "." ++ part1)) field path) ->
  isReferenceExpression
    (fetchedWorkbook wty (VStr (part0 ++ "." ++ part1)) field path) = true
  /\ ParseWorkbookDeploy.checkReference "translationScriptId" (VObj parent)
     = Some (VStr (part0 ++ "." ++ part1)).
Proof.
  intros H0 H1 Hprefix Hparent.
  pose proof (isWordString_dotFree _ H0) as Hd0.
  pose proof (isWordString_dotFree _ H1) as Hd1.
  rewrite (fetchedWorkbook_two_parts wty _ part0 part1) in *.
  2,3: first [ apply prefix_app, Hprefix
             | rewrite (split_dot_app _ _ Hd0), (split_dot_dotFree _ Hd1); reflexivity ].
  2,3: first [ apply prefix_app, Hprefix
             | rewrite (split_dot_app _ _ Hd0), (split_dot_dotFree _ Hd1); reflexivity ].
  split; [reflexivity|].
  unfold ParseWorkbookDeploy.checkReference.
  rewrite (checkReference_translation _ _ Hparent).
  assert (Hname :
            getFullName
              (typeElemID NETSUITE
                 ("translationcollection.instance." ++ part0
                  ++ ".strings.string." ++ part1 ++ ".scriptid"))
            = join "." ["netsuite"; "translationcollection"; "instance"; part0;
                        "strings"; "string"; part1; "scriptid"]).
  { reflexivity. }
  rewrite Hname.
  assert (Hmatch :
            checkReferenceToTranslation
              (join "." ["netsuite"; "translationcollection"; "instance"; part0;
                         "strings"; "string"; part1; "scriptid"]) = true).
  { change (join "." ["netsuite"; "translationcollection"; "instance"; part0;
                      "strings"; "string"; part1; "scriptid"])
      with ("netsuite.translationcollection.instance." ++ part0
            ++ ".strings.string." ++ part1 ++ ".scriptid").
    apply assembled_name_is_accepted; solve [ reflexivity | assumption ]. }
  rewrite Hmatch, split_dot_join.
  - reflexivity.
  - discriminate.
  - cbn [forallb]. rewrite Hd0, Hd1. reflexivity.
Qed.

(** X21, witness.  An instance of [workbook_translation_round_trip]. *)
Lemma workbook_translation_round_trip_witness :
  isReferenceExpression
    (fetchedWorkbook datasetType
       (VStr ("custcollectiontranslations123" ++ "." ++ "greeting"))
       (Some stringField) (Some somePath)) = true
  /\ ParseWorkbookDeploy.checkReference "translationScriptId"
       (VObj {[ "translationScriptId" :=
                  fetchedWorkbook datasetType
                    (VStr ("custcollectiontranslations123" ++ "." ++ "greeting"))
                    (Some stringField) (Some somePath) ]})
     = Some (VStr ("custcollectiontranslations123" ++ "." ++ "greeting")).
Proof.
  apply (workbook_translation_round_trip "custcollectiontranslations123" "greeting"
           (Some stringField) (Some somePath) datasetType);
    solve [ reflexivity | apply lookup_singleton_eq ].
Defined.

(** *** The walker of the workbook filter *)

Lemma workbook_checkT_local key value :
  ParseWorkbookDeploy.checkT key value = workbookCollapsedAt key (at_ value key).
Proof.
  unfold workbookCollapsedAt, ParseWorkbookDeploy.checkT. rewrite at_entryOf. reflexivity.
Qed.

Lemma workbook_checkTypeField_local key value :
  ParseWorkbookDeploy.checkTypeField key value = wrapped (at_ value key).
Proof. unfold ParseWorkbookDeploy.checkTypeField. apply checkTypeField_local. Qed.

Lemma workbookCollapsedAt_index i child :
  workbookCollapsedAt (KIdx i) child = workbookCollapsedAt (KIdx 0) child.
Proof.
  unfold workbookCollapsedAt, ParseWorkbookDeploy.checkT. rewrite !at_entryOf. reflexivity.
Qed.

(** The workbook's [checkT] returns its entry or a mapping. *)
Lemma workbookCollapsedAt_reference key child id :
  workbookCollapsedAt key child = VRef id -> child = VRef id.
Proof.
  unfold workbookCollapsedAt, ParseWorkbookDeploy.checkT. rewrite at_entryOf.
  destruct child as [| | | | | |innerVal|]; try (intros E; exact E).
  destruct (Object_keys innerVal) as [|k0 [|k1 rest]]; try discriminate.
  destruct (bool_decide _); discriminate.
Qed.

Lemma workbook_walk_object (o : gmap string Value) :
  match ParseWorkbookDeploy.deployWalkFunc (VObj o) with
  | Some r =>
      exists o' : gmap string Value,
        r = VObj o'
        /\ (forall k, o !! k = None -> o' !! k = None)
        /\ (forall k child, o !! k = Some child ->
              exists c, dereferencedAt k (workbookCollapsedAt (KStr k) child) = Some c
                        /\ o' !! k = Some (if has TYPE o then c else wrapped c))
  | None =>
      exists k child, o !! k = Some child
                      /\ dereferencedAt k (workbookCollapsedAt (KStr k) child) = None
  end.
Proof.
  unfold ParseWorkbookDeploy.deployWalkFunc. same_names.
  rewrite (forEach_ext _ _
             (fun (acc : gmap string Value) k =>
                v ← dereferencedAt k (workbookCollapsedAt (KStr k) (prop acc k));
                Some (<[ k := v ]> acc))).
  2:{ intros acc k. cbn zeta. unfold ParseWorkbookDeploy.checkReference.
      rewrite checkReference_local, workbook_checkT_local. cbn [at_ get].
      rewrite prop_insert_eq.
      destruct (dereferencedAt _ _); cbn; [|reflexivity].
      rewrite insert_insert_eq. reflexivity. }
  pose proof (forEach_entries
                (fun k child => dereferencedAt k (workbookCollapsedAt (KStr k) child))
                (Object_keys o) o (NoDup_Object_keys o)) as H1.
  cbn beta in H1.
  destruct (forEach (Object_keys o) _ o) as [o1|]; cbn.
  - destruct H1 as [Hin1 Hout1].
    assert (HTYPE : has TYPE o1 = has TYPE o).
    { unfold has. destruct (o !! TYPE) as [x|] eqn:Ho.
      - destruct (Hin1 TYPE) as (v & _ & ->); [|reflexivity].
        apply elem_of_Object_keys. rewrite Ho. eauto.
      - rewrite Hout1, Ho; [reflexivity|].
        rewrite elem_of_Object_keys, Ho. intros [? ?]; discriminate. }
    rewrite HTYPE.
    destruct (has TYPE o) eqn:Hty; cbn.
    + exists o1. split; [reflexivity|]. split.
      * intros k Hk. rewrite Hout1; [exact Hk|].
        rewrite elem_of_Object_keys, Hk. intros [? ?]; discriminate.
      * intros k child Hk. destruct (Hin1 k) as (c & Hc & Ho1).
        { apply elem_of_Object_keys. rewrite Hk. eauto. }
        exists c. split; [|exact Ho1].
        rewrite <- Hc. unfold prop. rewrite Hk. reflexivity.
    + rewrite (forEach_ext _ _
                 (fun (acc : gmap string Value) k =>
                    v ← (fun _ child => Some (wrapped child)) k (prop acc k);
                    Some (<[ k := v ]> acc))).
      2:{ intros acc k. unfold ParseWorkbookDeploy.checkTypeField.
          rewrite checkTypeField_local. reflexivity. }
      pose proof (forEach_entries (fun _ child => Some (wrapped child))
                    (Object_keys o) o1 (NoDup_Object_keys o)) as H2.
      cbn beta in H2.
      destruct (forEach (Object_keys o) _ o1) as [o2|]; cbn.
      * destruct H2 as [Hin2 Hout2]. exists o2. split; [reflexivity|]. split.
        -- intros k Hk.
           assert (Hnot : k ∉ Object_keys o).
           { rewrite elem_of_Object_keys, Hk. intros [? ?]; discriminate. }
           rewrite Hout2, Hout1; assumption.
        -- intros k child Hk.
           assert (Hel : k ∈ Object_keys o).
           { apply elem_of_Object_keys. rewrite Hk. eauto. }
           destruct (Hin1 k Hel) as (c & Hc & Ho1).
           destruct (Hin2 k Hel) as (w & Hw & Ho2).
           exists c. split.
           ++ rewrite <- Hc. unfold prop. rewrite Hk. reflexivity.
           ++ rewrite Ho2. inversion Hw. unfold prop. rewrite Ho1. reflexivity.
      * destruct H2 as (k & _ & Hk). discriminate.
  - destruct H1 as (k & Hel & Hnone).
    apply elem_of_Object_keys in Hel as [child Hk].
    exists k, child. split; [exact Hk|].
    rewrite <- Hnone. unfold prop. rewrite Hk. reflexivity.
Qed.

Lemma workbook_walk_array_loop (done todo : list Value) :
  forEach (seq (length done) (length todo))
    (fun (acc : list Value) index =>
       let acc1 := <[ index := ParseWorkbookDeploy.checkT (KIdx index) (VArr acc) ]> acc in
       Some (<[ index := ParseWorkbookDeploy.checkTypeField (KIdx index) (VArr acc1) ]> acc1))
    (done ++ todo)%list
  = Some (done ++ List.map (fun x => wrapped (workbookCollapsedAt (KIdx 0) x)) todo)%list.
Proof.
  revert done. induction todo as [|x todo IH]; intros done; cbn [length seq forEach].
  - reflexivity.
  - cbn zeta.
    rewrite workbook_checkTypeField_local, workbook_checkT_local. cbn [at_].
    rewrite app_nth2, Nat.sub_diag by lia. cbn [nth].
    rewrite insert_app_r_alt, Nat.sub_diag by lia. cbn [insert list_insert].
    rewrite app_nth2, Nat.sub_diag by lia. cbn [nth].
    rewrite insert_app_r_alt, Nat.sub_diag by lia. cbn [insert list_insert].
    rewrite workbookCollapsedAt_index.
    specialize (IH (done ++ [wrapped (workbookCollapsedAt (KIdx 0) x)])%list).
    rewrite length_app, Nat.add_1_r, <- !app_assoc in IH. cbn [length app] in IH.
    rewrite IH. reflexivity.
Qed.

(** X22. The walker of the workbook filter returns normally on every array, and
    on every object but one whose ['translationScriptId'] entry is a
    reference with a matching full name that has fewer than four
    dot-separated parts.  The result has the keys of the object (the length
    of the array); and in the result of an array, and of an object without
    the ['@_type'] key, nothing is a bare sequence, a bare boolean or a
    string that reads as a number. *)
Theorem workbook_deployWalkFunc_encodes :
  (forall o : gmap string Value,
      (forall id, o !! "translationScriptId" = Some (VRef id) ->
                  checkReferenceToTranslation (getFullName id) = true ->
                  is_Some (split_dot (getFullName id) !! 3)) ->
      exists o' : gmap string Value,
        ParseWorkbookDeploy.deployWalkFunc (VObj o) = Some (VObj o')
        /\ (forall k, o' !! k = None <-> o !! k = None)
        /\ (o !! TYPE = None ->
            forall k v, o' !! k = Some v -> isEncoded v = true))
  /\ (forall items,
        exists items',
          ParseWorkbookDeploy.deployWalkFunc (VArr items) = Some (VArr items')
          /\ length items' = length items
          /\ Forall (fun v => isEncoded v = true) items').
Proof.
  split.
  - intros o Hsafe. pose proof (workbook_walk_object o) as H.
    destruct (ParseWorkbookDeploy.deployWalkFunc (VObj o)) as [r|].
    + destruct H as (o' & -> & Hnone & Hsome). exists o'. split; [reflexivity|].
      split.
      * intros k. split; [|apply Hnone].
        intros Ho'. destruct (o !! k) as [child|] eqn:Hk; [|reflexivity].
        destruct (Hsome k child Hk) as (c & _ & Hc). congruence.
      * intros HTYPE k v Hv.
        destruct (o !! k) as [child|] eqn:Hk.
        -- destruct (Hsome k child Hk) as (c & _ & Hc).
           unfold has in Hc. rewrite HTYPE in Hc.
           rewrite Hv in Hc. injection Hc as ->. apply wrapped_isEncoded.
        -- rewrite (Hnone k Hk) in Hv. discriminate.
    + exfalso. destruct H as (k & child & Hk & Hthrow).
      apply dereferencedAt_None in Hthrow as (-> & id & Hc & Hm & H3).
      apply workbookCollapsedAt_reference in Hc. subst child.
      destruct (Hsafe id Hk Hm) as [x Hx]. congruence.
  - intros items.
    pose proof (workbook_walk_array_loop [] items) as H. cbn [length app] in H.
    unfold ParseWorkbookDeploy.deployWalkFunc. rewrite H. cbn.
    eexists. split; [reflexivity|]. split; [apply length_map|].
    apply List.Forall_map, Forall_forall. intros x _. apply wrapped_isEncoded.
Qed.

End FiltersProps.
